(** * simple_ddl_parser.output: the reconciliation layer, embedded in Rocq

    The development follows [simple_ddl_parser/output/core.py],
    [base_data.py] and [table_data.py].  Python values are modelled as
    JSON-like trees, exceptions as an error monad, and the [Output]
    object as an explicit state: a store of table objects, the registry
    [tables_dict] from table ids to objects of the store, and the list
    [final_result] whose table entries alias objects of the store. *)

From stdpp Require Import gmap strings list fin_maps.

Set Warnings "-register-all,-notation-for-abbreviation,-clear-no-such-hyp".
Open Scope string_scope.
Open Scope list_scope.

(** ** Python values *)

(** [dict] objects are association lists in insertion order with
    string keys, as the parser produces them. *)
Inductive value : Type :=
| VNone
| VBool (b : bool)
| VInt (z : Z)
| VStr (s : string)
| VList (l : list value)
| VDict (d : list (string * value)).

Notation dict := (list (string * value)).

(** *** Dictionaries *)

Fixpoint dget {A} (k : string) (d : list (string * A)) : option A :=
  match d with
  | [] => None
  | (k', v) :: d' => if String.eqb k k' then Some v else dget k d'
  end.

(** [d[k] = v]: an existing key keeps its position, a new key goes last. *)
Fixpoint dset {A} (k : string) (v : A) (d : list (string * A)) : list (string * A) :=
  match d with
  | [] => [(k, v)]
  | (k', v') :: d' =>
      if String.eqb k k' then (k', v) :: d' else (k', v') :: dset k v d'
  end.

(** [del d[k]] once [k in d] is known; a Python dictionary binds a key
    at most once, so every binding of [k] goes. *)
Fixpoint ddel {A} (k : string) (d : list (string * A)) : list (string * A) :=
  match d with
  | [] => []
  | (k', v') :: d' => if String.eqb k k' then ddel k d' else (k', v') :: ddel k d'
  end.

(** [k in d] *)
Definition has_key {A} (k : string) (d : list (string * A)) : bool :=
  match dget k d with Some _ => true | None => false end.

Definition keys {A} (d : list (string * A)) : list string := map fst d.

(** [d.update(other)] *)
Definition dupdate {A} (d other : list (string * A)) : list (string * A) :=
  fold_left (fun acc kv => dset (fst kv) (snd kv) acc) other d.

(** [d.get(k)], with the default [None]. *)
Definition dict_get (k : string) (d : dict) : value :=
  match dget k d with Some v => v | None => VNone end.

(** *** Truth value and equality *)

(** [bool(v)] *)
Definition truthy (v : value) : bool :=
  match v with
  | VNone => false
  | VBool b => b
  | VInt z => negb (Z.eqb z 0)
  | VStr s => negb (String.eqb s "")
  | VList l => match l with [] => false | _ => true end
  | VDict d => match d with [] => false | _ => true end
  end.

(** [a == b]: [bool] compares with [int] as 0 and 1, lists compare
    element-wise, dictionaries compare as maps, whatever the order of
    their keys. *)
Fixpoint py_eq (a b : value) {struct a} : bool :=
  match a, b with
  | VNone, VNone => true
  | VBool x, VBool y => Bool.eqb x y
  | VBool x, VInt z => Z.eqb z (if x then 1 else 0)
  | VInt z, VBool x => Z.eqb z (if x then 1 else 0)
  | VInt x, VInt y => Z.eqb x y
  | VStr x, VStr y => String.eqb x y
  | VList xs, VList ys =>
      (fix go (xs ys : list value) {struct xs} : bool :=
         match xs, ys with
         | [], [] => true
         | x :: xs', y :: ys' => py_eq x y && go xs' ys'
         | _, _ => false
         end) xs ys
  | VDict d1, VDict d2 =>
      Nat.eqb (length d1) (length d2)
      && (fix go (d : list (string * value)) {struct d} : bool :=
            match d with
            | [] => true
            | (k, v) :: d' =>
                match dget k d2 with
                | Some v' => py_eq v v'
                | None => false
                end && go d'
            end) d1
  | _, _ => false
  end.

(** ** Exceptions *)

(** The [ValueError] of [get_table_from_tables_data] carries the table
    id it formats into its message ("TABLE .. with SCHEMA .. does not
    exists in tables data"); [K] is the type of table ids. *)
Inductive error (K : Type) : Type :=
| ValueError (missing : K)
| KeyError (k : string)
| TypeError
| AttributeError (attr : string).
Arguments ValueError {K} missing.
Arguments KeyError {K} k.
Arguments TypeError {K}.
Arguments AttributeError {K} attr.

Inductive res (K A : Type) : Type :=
| Ok (a : A)
| Err (e : error K).
Arguments Ok {K A} a.
Arguments Err {K A} e.

Definition bind {K A B} (m : res K A) (f : A → res K B) : res K B :=
  match m with Ok a => f a | Err e => Err e end.

Notation "'let*' x ':=' m 'in' k" := (bind m (fun x => k))
  (at level 10, x name, m at level 100, k at level 200).

Fixpoint mapM_res {K A B} (f : A → res K B) (l : list A) : res K (list B) :=
  match l with
  | [] => Ok []
  | x :: l' => let* y := f x in let* ys := mapM_res f l' in Ok (y :: ys)
  end.

Fixpoint foldM_res {K A S} (f : S → A → res K S) (s : S) (l : list A) : res K S :=
  match l with
  | [] => Ok s
  | x :: l' => let* s' := f s x in foldM_res f s' l'
  end.

(** ** Operations on values, with the exceptions Python raises *)

Section PyOps.
Context {K : Type}.
Notation res := (res K).

(** [v[k]] for a string [k] *)
Definition subscript (v : value) (k : string) : res value :=
  match v with
  | VDict d => match dget k d with Some x => Ok x | None => Err (KeyError k) end
  | _ => Err TypeError
  end.

(** [v[k] = x] *)
Definition set_item (v : value) (k : string) (x : value) : res value :=
  match v with
  | VDict d => Ok (VDict (dset k x d))
  | _ => Err TypeError
  end.

(** [del v[k]] *)
Definition del_item (v : value) (k : string) : res value :=
  match v with
  | VDict d => if has_key k d then Ok (VDict (ddel k d)) else Err (KeyError k)
  | _ => Err TypeError
  end.

(** [v.get(k)] and [v.get(k, dflt)] *)
Definition get_method (v : value) (k : string) (dflt : value) : res value :=
  match v with
  | VDict d => Ok (match dget k d with Some x => x | None => dflt end)
  | _ => Err (AttributeError "get")
  end.

(** [d[k]] and [del d[k]] on a statement record *)
Definition dsubscript (d : dict) (k : string) : res value :=
  match dget k d with Some x => Ok x | None => Err (KeyError k) end.

Definition ddel_item (d : dict) (k : string) : res dict :=
  if has_key k d then Ok (ddel k d) else Err (KeyError k).

Fixpoint chars (s : string) : list value :=
  match s with
  | EmptyString => []
  | String c s' => VStr (String c EmptyString) :: chars s'
  end.

(** The items a [for] loop (or [extend]) draws from [v]: a string
    yields its characters, a dictionary its keys. *)
Definition py_iter (v : value) : res (list value) :=
  match v with
  | VList l => Ok l
  | VStr s => Ok (chars s)
  | VDict d => Ok (map (fun kv => VStr (fst kv)) d)
  | _ => Err TypeError
  end.

(** [x in c] *)
Definition py_in (x c : value) : res bool :=
  match c with
  | VList l => Ok (existsb (fun e => py_eq e x) l)
  | VDict d =>
      match x with
      | VStr k => Ok (has_key k d)
      | VList _ | VDict _ => Err TypeError
      | _ => Ok false
      end
  | VStr s =>
      match x with
      | VStr t => Ok (match String.index 0 t s with Some _ => true | None => false end)
      | _ => Err TypeError
      end
  | _ => Err TypeError
  end.

(** [v.append(x)] and [v.extend(xs)] *)
Definition py_append (v x : value) : res value :=
  match v with
  | VList l => Ok (VList (l ++ [x]))
  | _ => Err (AttributeError "append")
  end.

Definition py_extend (v xs : value) : res value :=
  match v with
  | VList l => let* items := py_iter xs in Ok (VList (l ++ items))
  | _ => Err (AttributeError "extend")
  end.

(** [" ".join(v)] *)
Fixpoint join_strs (l : list value) : res string :=
  match l with
  | [] => Ok ""
  | [VStr s] => Ok s
  | VStr s :: l' => let* r := join_strs l' in Ok (s ++ " " ++ r)%string
  | _ => Err TypeError
  end.

Definition py_join (v : value) : res value :=
  let* items := py_iter v in let* s := join_strs items in Ok (VStr s).

(** Body of [for column in columns: ...] where the body updates the
    column in place.  Items drawn from anything but a list are strings,
    on which every body below raises at its first subscript. *)
Definition for_each (f : value → res value) (v : value) : res value :=
  match v with
  | VList l => let* l' := mapM_res f l in Ok (VList l')
  | _ => let* items := py_iter v in let* _ := mapM_res f items in Ok v
  end.

End PyOps.

(** ** The reconciliation layer *)

Section Reconciliation.

(** [table_id] is the hashable key built by [get_table_id]. *)
Context {table_id : Type} `{Countable table_id}.
Notation res := (res table_id).
Set Default Proof Using "Type".

(** *** base_data.py: the dataclass [BaseData] *)

(** A dataclass field with its default (or the value of its
    [default_factory]) and its [metadata]. *)
Record field : Type := {
  f_name : string;
  f_default : value;
  exclude_always : bool;
  exclude_if_not_provided : bool;
  exclude_if_empty : bool;
  output_modes : option (list value)
}.

(** What the code uses of a table class: [__d_name__],
    [__dataclass_fields__] and the [post_process] hook. *)
Record dataclass : Type := {
  d_name : string;
  dataclass_fields : list field;
  post_process : dict → res dict
}.

Definition plain (name : string) (dflt : value) : field :=
  {| f_name := name; f_default := dflt; exclude_always := false;
     exclude_if_not_provided := false; exclude_if_empty := false;
     output_modes := None |}.

Definition always_excluded (name : string) (dflt : value) : field :=
  {| f_name := name; f_default := dflt; exclude_always := true;
     exclude_if_not_provided := false; exclude_if_empty := false;
     output_modes := None |}.

Definition if_provided (name : string) (dflt : value) : field :=
  {| f_name := name; f_default := dflt; exclude_always := false;
     exclude_if_not_provided := true; exclude_if_empty := false;
     output_modes := None |}.

Definition if_not_empty (name : string) (dflt : value) : field :=
  {| f_name := name; f_default := dflt; exclude_always := false;
     exclude_if_not_provided := false; exclude_if_empty := true;
     output_modes := None |}.

Definition BaseData_fields : list field :=
  [ plain "table_name" VNone;
    always_excluded "init_data" VNone;
    always_excluded "output_mode" (VStr "sql");
    plain "schema" VNone;
    plain "primary_key" VNone;
    plain "columns" (VList []);
    plain "alter" (VDict []);
    plain "checks" (VList []);
    plain "index" (VList []);
    plain "partitioned_by" (VList []);
    if_provided "constraints" (VDict []);
    plain "tablespace" VNone;
    if_provided "if_not_exists" (VBool false);
    if_provided "partition_by" (VDict []);
    if_not_empty "table_properties" (VDict []);
    if_provided "replace" VNone;
    if_provided "comment" VNone;
    if_provided "like" (VDict []);
    always_excluded "unique" (VList []);
    always_excluded "unique_statement" (VList []);
    always_excluded "ref_columns" (VList []);
    always_excluded "references" (VList []) ].

Definition BaseData : dataclass :=
  {| d_name := "sql";
     dataclass_fields := BaseData_fields;
     post_process := λ self, Ok self |}.

(** A table object is its [__dict__]; every dataclass field is an
    attribute.  [self.attr] raises when the attribute is missing. *)
Definition getattr (self : dict) (attr : string) : res value :=
  match dget attr self with
  | Some v => Ok v
  | None => Err (AttributeError attr)
  end.

(** [getattr(self, attr, dflt)] *)
Definition getattr_default (self : dict) (attr : string) (dflt : value) : value :=
  match dget attr self with Some v => v | None => dflt end.

Definition set_column_unique_param (self : dict) (key : string) : res dict :=
  let* columns := getattr self "columns" in
  let* columns' := for_each (λ column,
      let* check_in :=
        (if String.eqb key "constraints" then
           let* unique := get_method (getattr_default self key (VDict [])) "unique" (VList []) in
           if truthy unique then subscript unique "columns" else Ok (VList [])
         else Ok (getattr_default self key (VDict []))) in
      let* name := subscript column "name" in
      let* b := py_in name check_in in
      if b then set_item column "unique" (VBool true) else Ok column) columns in
  Ok (dset "columns" columns' self).

Definition set_unique_columns (self : dict) : res dict :=
  foldM_res (λ self key,
      if truthy (getattr_default self key VNone)
      then set_column_unique_param self key
      else Ok self)
    self ["unique_statement"; "constraints"].

Definition remove_pk_from_columns (self : dict) : res dict :=
  let* columns := getattr self "columns" in
  let* columns' := for_each (λ column, del_item column "primary_key") columns in
  Ok (dset "columns" columns' self).

(** The first loop of [get_pk_from_columns_and_constraints]: the names
    appended to [pk] and the columns without their flag. *)
Fixpoint pk_scan (columns : list value) : res (list value * list value) :=
  match columns with
  | [] => Ok ([], [])
  | column :: rest =>
      let* flag := subscript column "primary_key" in
      let* names := (if truthy flag
               then let* name := subscript column "name" in Ok [name]
               else Ok []) in
      let* column' := del_item column "primary_key" in
      let* r := pk_scan rest in
      Ok (names ++ r.1, column' :: r.2)
  end.

Definition get_pk_from_columns_and_constraints (self : dict) : res dict :=
  let* columns := getattr self "columns" in
  let* scanned :=
    match columns with
    | VList l => let* r := pk_scan l in Ok (r.1, VList r.2)
    | _ => let* items := py_iter columns in let* _ := pk_scan items in Ok ([], columns)
    end in
  let pk := scanned.1 in
  let self := dset "columns" scanned.2 self in
  let* constraints := getattr self "constraints" in
  let* primary_keys := get_method constraints "primary_keys" VNone in
  let* pk :=
    (if truthy primary_keys then
       let* key_constraints := py_iter primary_keys in
       foldM_res (λ pk kc,
           let* cols := subscript kc "columns" in
           let* items := py_iter cols in
           Ok (pk ++ items)) pk key_constraints
     else Ok pk) in
  Ok (dset "primary_key" (VList pk) self).

Definition add_unique_columns (self : dict) : res dict :=
  let* columns := getattr self "columns" in
  let* unique := getattr self "unique" in
  let* columns' := for_each (λ column,
      let* name := subscript column "name" in
      let* b := py_in name unique in
      if b then set_item column "unique" (VBool true) else Ok column) columns in
  Ok (dset "columns" columns' self).

Definition populate_keys (self : dict) : res dict :=
  let* primary_key := getattr self "primary_key" in
  let* self := (if negb (truthy primary_key)
          then get_pk_from_columns_and_constraints self
          else remove_pk_from_columns self) in
  let* unique := getattr self "unique" in
  let* self := (if truthy unique then add_unique_columns self else Ok self) in
  let* columns := getattr self "columns" in
  let* primary_key := getattr self "primary_key" in
  let* columns' := for_each (λ column,
      let* name := subscript column "name" in
      let* b := py_in name primary_key in
      if b then set_item column "nullable" (VBool false) else Ok column) columns in
  Ok (dset "columns" columns' self).

(** One pass of the inner loop of [normalize_ref_columns_in_final_output]
    for the descriptor [col_ref] whose name was read before the loop;
    the descriptor is shared with every column it is attached to. *)
Fixpoint attach_ref (name col_ref : value) (columns : list value)
  : res (value * list value) :=
  match columns with
  | [] => Ok (col_ref, [])
  | column :: rest =>
      let* cname := subscript column "name" in
      let* r :=
        (if py_eq name cname then
           let* col_ref' := del_item col_ref "name" in
           let* column' := set_item column "references" col_ref' in
           Ok (col_ref', column')
         else Ok (col_ref, column)) in
      let* r' := attach_ref name r.1 rest in
      Ok (r'.1, r.2 :: r'.2)
  end.

Definition normalize_ref_columns_in_final_output (self : dict) : res dict :=
  let* ref_columns := getattr self "ref_columns" in
  let* refs := py_iter ref_columns in
  let* r :=
    foldM_res (λ acc col_ref,
        let* name := subscript col_ref "name" in
        let* columns := getattr acc.2 "columns" in
        let* r :=
          match columns with
          | VList l =>
              let* r := attach_ref name col_ref l in Ok (r.1, VList r.2)
          | _ =>
              let* items := py_iter columns in
              let* r := attach_ref name col_ref items in Ok (r.1, columns)
          end in
        Ok (acc.1 ++ [r.1], dset "columns" r.2 acc.2))
      ([], self) refs in
  Ok (match ref_columns with
      | VList _ => dset "ref_columns" (VList r.1) r.2
      | _ => r.2
      end).

Definition post_init (cls : dataclass) (self : dict) : res dict :=
  let* self := set_unique_columns self in
  let* self := populate_keys self in
  let* self := normalize_ref_columns_in_final_output self in
  post_process cls self.

(** The dataclass constructor applied to the keyword dictionary
    [kwargs]: an unexpected keyword
    is a [TypeError]; the attributes are set in field order, then
    [__post_init__] runs. *)
Definition is_field (cls : dataclass) (k : string) : bool :=
  existsb (λ f, String.eqb k (f_name f)) (dataclass_fields cls).

Definition construct (cls : dataclass) (kwargs : dict) : res dict :=
  if forallb (λ kv, is_field cls kv.1) kwargs then
    post_init cls
      (map (λ f, (f_name f,
                  match dget (f_name f) kwargs with
                  | Some v => v
                  | None => f_default f
                  end)) (dataclass_fields cls))
  else Err TypeError.

(** [filter_out_output]: the four sets are computed from the metadata
    of the class, then tested in the order of the source. *)
Definition in_exclude_always (cls : dataclass) (fld : string) : bool :=
  existsb (λ f, String.eqb fld (f_name f) && exclude_always f)
    (dataclass_fields cls).

Definition in_exclude_if_not_provided (cls : dataclass) (fld : string) : bool :=
  existsb (λ f, String.eqb fld (f_name f) && negb (exclude_always f)
                && exclude_if_not_provided f) (dataclass_fields cls).

Definition in_exclude_if_empty (cls : dataclass) (fld : string) : bool :=
  existsb (λ f, String.eqb fld (f_name f) && negb (exclude_always f)
                && exclude_if_empty f) (dataclass_fields cls).

Definition in_exclude_by_dialect_filter (cls : dataclass) (self : dict)
    (fld : string) : bool :=
  existsb (λ f, String.eqb fld (f_name f) && negb (exclude_always f)
                && match output_modes f with
                   | Some modes =>
                       negb (existsb (λ m, py_eq m (getattr_default self "output_mode" VNone)) modes)
                   | None => false
                   end) (dataclass_fields cls).

Definition filter_out_output (cls : dataclass) (self : dict) (fld : string)
  : res bool :=
  if in_exclude_always cls fld then Ok false
  else
    let* not_provided :=
      (if in_exclude_if_not_provided cls fld then
         let* init_data := getattr self "init_data" in
         let* b := py_in (VStr fld) init_data in
         Ok (negb b)
       else Ok false) in
    if not_provided then Ok false
    else if in_exclude_if_empty cls fld
            && negb (truthy (getattr_default self fld VNone)) then Ok false
    else if in_exclude_by_dialect_filter cls self fld then Ok false
    else Ok true.

Fixpoint to_dict_from (cls : dataclass) (self : dict) (items : dict) : res dict :=
  match items with
  | [] => Ok []
  | (key, v) :: rest =>
      let* keep := filter_out_output cls self key in
      let* output := to_dict_from cls self rest in
      Ok (if keep then (key, v) :: output else output)
  end.

Definition to_dict (cls : dataclass) (self : dict) : res dict :=
  to_dict_from cls self self.

(** [BaseData.get], [BaseData.update] and [BaseData.if_not_exist_update]
    work on the [__dict__] of the object. *)
Definition BaseData_get (self : dict) (k : string) (dflt : value) : value :=
  match dget k self with Some v => v | None => dflt end.

Definition BaseData_update (self input_dict : dict) : dict :=
  dupdate self input_dict.

Definition if_not_exist_update (self input_dict : dict) : dict :=
  fold_left (λ self kv, if has_key kv.1 self then self else dset kv.1 kv.2 self)
    input_dict self.

(** *** table_data.py: [TableData] *)

(** [dialect_by_name.get(output_mode)], closed under the class
    synthesis of [get_dialect_class]; defined in
    [simple_ddl_parser.output.dialects]. *)
Variable dialect_by_name : value → option dataclass.

Definition get_dialect_class (kwargs : dict) : res dataclass :=
  let output_mode := dict_get "output_mode" kwargs in
  if truthy output_mode && negb (py_eq output_mode (VStr "sql")) then
    match dialect_by_name output_mode with
    | Some main_cls => Ok main_cls
    | None => Err (AttributeError "__name__")
    end
  else Ok BaseData.

(** [pre_load_mods] returns the new keyword dictionary; its only effect
    on the caller's [kwargs] is the "dataset" entry, first component. *)
Definition pre_load_mods (main_cls : dataclass) (kwargs : dict) : dict * dict :=
  let kwargs :=
    if String.eqb (d_name main_cls) "bigquery" && truthy (dict_get "schema" kwargs)
    then dset "dataset" (dict_get "schema" kwargs) kwargs
    else kwargs in
  let table_main_args := List.filter (λ kv, is_field main_cls kv.1) kwargs in
  let table_properties :=
    List.filter (λ kv, negb (has_key kv.1 table_main_args)) kwargs in
  let init_data := dupdate (dupdate [] table_main_args) table_properties in
  (kwargs,
   dset "init_data" (VDict init_data)
     (dset "table_properties" (VDict table_properties) table_main_args)).

Definition TableData_init (kwargs : dict) : res (dataclass * dict) :=
  let* main_cls := get_dialect_class kwargs in
  let kwargs := (pre_load_mods main_cls kwargs).1 in
  let kwargs := (pre_load_mods main_cls kwargs).2 in
  let* ret := construct main_cls kwargs in
  Ok (main_cls, ret).

(** *** core.py: the alter functions *)

(** [normalize_name] and [get_table_id] come from
    [simple_ddl_parser.utils], [dialects_clean_up] from
    [simple_ddl_parser.output.dialects]; the last one works in place
    and stands here for the record it leaves. *)
Variable normalize_name : value → res value.
Variable get_table_id : value → value → res table_id.
Variable dialects_clean_up : string → dict → res dict.

(** [if not alter.get(k): alter[k] = []] *)
Definition init_slot (alter : value) (k : string) : res value :=
  let* cur := get_method alter k VNone in
  if negb (truthy cur) then set_item alter k (VList []) else Ok alter.

(** The search loop of [alter_drop_columns] and [alter_modify_columns]:
    the index of the first column whose normalized name equals the
    normalized [name]; [name] is re-evaluated at every column. *)
Fixpoint find_column (name : res value) (columns : list value) (num : nat)
  : res (option nat) :=
  match columns with
  | [] => Ok None
  | column :: rest =>
      let* n := name in
      let* a := normalize_name n in
      let* cname := subscript column "name" in
      let* b := normalize_name cname in
      if py_eq a b then Ok (Some num) else find_column name rest (S num)
  end.

(** The body of the loop of [alter_drop_columns] for one name. *)
Definition drop_column (target_table : dict) (column_to_drop : value) : res dict :=
  let* columns := getattr target_table "columns" in
  let* items := py_iter columns in
  let* index := find_column (Ok column_to_drop) items 0 in
  match index, columns with
  | None, _ => Ok target_table
  | Some i, VList l =>
      match l !! i with
      | Some column =>
          let* alter := getattr target_table "alter" in
          let* alter := set_item alter "dropped_columns" column in
          Ok (dset "columns" (VList (delete i l))
                (dset "alter" alter target_table))
      | None => Err TypeError
      end
  | Some _, _ => Err TypeError
  end.

Definition alter_drop_columns (target_table statement : dict) : res dict :=
  let* alter := getattr target_table "alter" in
  let* alter := init_slot alter "dropped_columns" in
  let target_table := dset "alter" alter target_table in
  let* columns_to_drop := dsubscript statement "columns_to_drop" in
  let* names := py_iter columns_to_drop in
  foldM_res drop_column target_table names.

(** The body of the loop of [alter_modify_columns] for one column. *)
Definition modify_column (target_table : dict) (modified_column : value) : res dict :=
  let* columns := getattr target_table "columns" in
  let* items := py_iter columns in
  let* index := find_column (subscript modified_column "name") items 0 in
  match index, columns with
  | None, _ => Ok target_table
  | Some i, VList l =>
      match l !! i with
      | Some column =>
          let* alter := getattr target_table "alter" in
          let* alter := set_item alter "modified_columns" column in
          Ok (dset "columns" (VList (<[i := modified_column]> l))
                (dset "alter" alter target_table))
      | None => Err TypeError
      end
  | Some _, _ => Err TypeError
  end.

Definition alter_modify_columns (target_table statement : dict) : res dict :=
  let* alter := getattr target_table "alter" in
  let* alter := init_slot alter "modified_columns" in
  let target_table := dset "alter" alter target_table in
  let* columns_to_modify := dsubscript statement "columns_to_modify" in
  let* modified := py_iter columns_to_modify in
  foldM_res modify_column target_table modified.

(** Inner loop of [alter_rename_columns], with its [break]. *)
Fixpoint rename_first (renamed_column : value) (columns : list value)
  : res (list value) :=
  match columns with
  | [] => Ok []
  | column :: rest =>
      let* old_name := subscript renamed_column "from" in
      let* a := normalize_name old_name in
      let* cname := subscript column "name" in
      let* b := normalize_name cname in
      if py_eq a b then
        let* new_name := subscript renamed_column "to" in
        let* column' := set_item column "name" new_name in
        Ok (column' :: rest)
      else
        let* rest' := rename_first renamed_column rest in
        Ok (column :: rest')
  end.

Definition alter_rename_columns (target_table statement : dict) : res dict :=
  let* columns_to_rename := dsubscript statement "columns_to_rename" in
  let* pairs := py_iter columns_to_rename in
  let* target_table :=
    foldM_res (λ target_table renamed_column,
        let* columns := getattr target_table "columns" in
        match columns with
        | VList l =>
            let* l' := rename_first renamed_column l in
            Ok (dset "columns" (VList l') target_table)
        | _ =>
            let* items := py_iter columns in
            let* _ := rename_first renamed_column items in
            Ok target_table
        end) target_table pairs in
  let* alter := getattr target_table "alter" in
  let* alter := init_slot alter "renamed_columns" in
  let* slot := subscript alter "renamed_columns" in
  let* slot := py_extend slot columns_to_rename in
  let* alter := set_item alter "renamed_columns" slot in
  Ok (dset "alter" alter target_table).

(** [set_alter_to_table_data] also writes into the statement; the
    result is the statement and the table after the call. *)
Definition set_alter_to_table_data (key : string) (statement target_table : dict)
  : res (dict * dict) :=
  let slot_name := (key ++ "s")%string in
  let* alter := getattr target_table "alter" in
  let* alter := init_slot alter slot_name in
  let* statement :=
    (if has_key "using" statement then
       let* payload := dsubscript statement key in
       let* using_v := dsubscript statement "using" in
       let* payload := set_item payload "using" using_v in
       Ok (dset key payload statement)
     else Ok statement) in
  let* slot := subscript alter slot_name in
  let* payload := dsubscript statement key in
  let* slot := py_append slot payload in
  let* alter := set_item alter slot_name slot in
  Ok (statement, dset "alter" alter target_table).

Definition set_unique_columns_from_alter (statement target_table : dict)
  : res dict :=
  let* columns := getattr target_table "columns" in
  let* columns' := for_each (λ column,
      let* unique := dsubscript statement "unique" in
      let* cols := subscript unique "columns" in
      let* names := py_iter cols in
      foldM_res (λ column column_name,
          let* cname := subscript column "name" in
          if py_eq cname column_name
          then set_item column "unique" (VBool true)
          else Ok column) column names) columns in
  Ok (dset "columns" columns' target_table).

Definition set_default_columns_from_alter (statement target_table : dict)
  : res dict :=
  let* columns := getattr target_table "columns" in
  let* columns' := for_each (λ column,
      let* payload := dsubscript statement "default" in
      let* cols := subscript payload "columns" in
      if truthy cols then
        let* payload := dsubscript statement "default" in
        let* cols := subscript payload "columns" in
        let* names := py_iter cols in
        foldM_res (λ column column_name,
            let* cname := subscript column "name" in
            if py_eq cname column_name then
              let* payload := dsubscript statement "default" in
              let* v := subscript payload "value" in
              set_item column "default" v
            else Ok column) column names
      else Ok column) columns in
  Ok (dset "columns" columns' target_table).

(** The "check" branch of [add_alter_to_table]. *)
Definition alter_add_check (target_table statement : dict) : res dict :=
  let* alter := getattr target_table "alter" in
  let* alter := init_slot alter "checks" in
  let* check := dsubscript statement "check" in
  let* tokens := subscript check "statement" in
  let* joined := py_join tokens in
  let* check := set_item check "statement" joined in
  let* slot := subscript alter "checks" in
  let* slot := py_append slot check in
  let* alter := set_item alter "checks" slot in
  Ok (dset "alter" alter target_table).

(** The dispatch of [add_alter_to_table] on the table it looked up.
    The "columns" branch calls [target_table.prepare_alter_columns]:
    base_data.py defines [prepare_alter_columns] at module level, below
    the class body, so no table class has an attribute of that name and
    the call raises before anything is changed. *)
Definition apply_alter (target_table statement : dict) : res dict :=
  if has_key "columns" statement then
    Err (AttributeError "prepare_alter_columns")
  else if has_key "columns_to_rename" statement then
    alter_rename_columns target_table statement
  else if has_key "columns_to_drop" statement then
    alter_drop_columns target_table statement
  else if has_key "columns_to_modify" statement then
    alter_modify_columns target_table statement
  else if has_key "check" statement then
    alter_add_check target_table statement
  else if has_key "unique" statement then
    let* r := set_alter_to_table_data "unique" statement target_table in
    set_unique_columns_from_alter r.1 r.2
  else if has_key "default" statement then
    let* r := set_alter_to_table_data "default" statement target_table in
    set_default_columns_from_alter r.1 r.2
  else if has_key "primary_key" statement then
    let* r := set_alter_to_table_data "primary_key" statement target_table in
    Ok r.2
  else Ok target_table.

(** *** core.py: the class [Output] *)

(** An entry of [final_result].  The dictionary [to_dict] returns for
    a table shares its values (the column list, the alter ledger, the
    index list) with the table object: [OTable o ks] stands for the
    dictionary with the keys [ks] over the attributes of object [o] of
    the store.  Any other record is appended as it is. *)
Inductive out_item : Type :=
| OTable (o : nat) (output_keys : list string)
| ORecord (data : dict).

(** The state of an [Output] object.  [store] holds the table objects
    in allocation order; [tables_dict] maps a table id to the object
    registered under it. *)
Record Output : Type := {
  output_mode : string;
  group_by_type : bool;
  store : list dict;
  tables_dict : gmap table_id nat;
  final_result : list out_item
}.

(** [Output.__init__] *)
Definition Output_init (output_mode : string) (group_by_type : bool) : Output :=
  {| output_mode := output_mode; group_by_type := group_by_type;
     store := []; tables_dict := ∅; final_result := [] |}.

Definition schema_key (self : Output) : string :=
  if String.eqb (output_mode self) "bigquery" then "dataset" else "schema".

Definition with_store (self : Output) (store' : list dict) : Output :=
  {| output_mode := output_mode self; group_by_type := group_by_type self;
     store := store'; tables_dict := tables_dict self;
     final_result := final_result self |}.

Definition register (self : Output) (id : table_id) (table_data : dict) : Output :=
  {| output_mode := output_mode self; group_by_type := group_by_type self;
     store := store self ++ [table_data];
     tables_dict := <[id := length (store self)]> (tables_dict self);
     final_result := final_result self |}.

Definition emit (self : Output) (item : out_item) : Output :=
  {| output_mode := output_mode self; group_by_type := group_by_type self;
     store := store self; tables_dict := tables_dict self;
     final_result := final_result self ++ [item] |}.

(** The object found and its current attributes.  An id of the
    registry always points into the store ([registry_wf] below), so the
    inner [None] is never met in a run. *)
Definition get_table_from_tables_data (self : Output) (schema table_name : value)
  : res (nat * dict) :=
  let* table_id := get_table_id schema table_name in
  match tables_dict self !! table_id with
  | None => Err (ValueError table_id)
  | Some o =>
      match store self !! o with
      | Some target_table => Ok (o, target_table)
      | None => Err (ValueError table_id)
      end
  end.

Definition clean_up_index_statement (self : Output) (statement : dict) : res dict :=
  let* statement := ddel_item statement (schema_key self) in
  let* statement := ddel_item statement "table_name" in
  if negb (String.eqb (output_mode self) "mssql")
  then ddel_item statement "clustered"
  else Ok statement.

Definition add_index_to_table (self : Output) (statement : dict) : res Output :=
  let* schema := dsubscript statement (schema_key self) in
  let* table_name := dsubscript statement "table_name" in
  let* found := get_table_from_tables_data self schema table_name in
  let* statement := clean_up_index_statement self statement in
  let* index := getattr found.2 "index" in
  let* index := py_append index (VDict statement) in
  Ok (with_store self (<[found.1 := dset "index" index found.2]> (store self))).

Definition add_alter_to_table (self : Output) (statement : dict) : res Output :=
  let* schema := dsubscript statement "schema" in
  let* table_name := dsubscript statement "alter_table_name" in
  let* found := get_table_from_tables_data self schema table_name in
  let* target_table := apply_alter found.2 statement in
  Ok (with_store self (<[found.1 := target_table]> (store self))).

Definition process_statement_data (self : Output) (statement_data : dict)
  : res (Output * out_item) :=
  if truthy (dict_get "table_name" statement_data) then
    let statement_data := dset "output_mode" (VStr (output_mode self)) statement_data in
    let* built := TableData_init statement_data in
    let table_data := built.2 in
    let* schema_name := getattr table_data (schema_key self) in
    let* table_name := getattr table_data "table_name" in
    let* id := get_table_id schema_name table_name in
    let* data := to_dict built.1 table_data in
    Ok (register self id table_data, OTable (length (store self)) (keys data))
  else
    let* data := dialects_clean_up (output_mode self) statement_data in
    Ok (self, ORecord data).

Definition process_alter_and_index_result (self : Output) (table : dict)
  : res Output :=
  if truthy (dict_get "index_name" table) then add_index_to_table self table
  else if truthy (dict_get "alter_table_name" table) then add_alter_to_table self table
  else Ok self.

(** The body of the loop of [format]. *)
Definition format_step (self : Output) (statement : dict) : res Output :=
  if has_key "index_name" statement || has_key "alter_table_name" statement then
    process_alter_and_index_result self statement
  else
    let* r := process_statement_data self statement in
    Ok (emit r.1 r.2).

(** The dictionary an entry of [final_result] denotes at the end. *)
Definition resolve (store : list dict) (item : out_item) : dict :=
  match item with
  | ORecord data => data
  | OTable o ks =>
      omap (λ k, match store !! o ≫= dget k with
                 | Some v => Some (k, v)
                 | None => None
                 end) ks
  end.

Definition keys_map : list (string * string) :=
  [ ("table_name", "tables");
    ("sequence_name", "sequences");
    ("type_name", "types");
    ("domain_name", "domains");
    ("schema_name", "schemas");
    ("tablespace_name", "tablespaces");
    ("database_name", "databases");
    ("value", "ddl_properties");
    ("comments", "comments") ].

Definition result_as_dict_init : dict :=
  [ ("tables", VList []);
    ("types", VList []);
    ("sequences", VList []);
    ("domains", VList []);
    ("schemas", VList []);
    ("ddl_properties", VList []);
    ("comments", VList []) ].

(** The body of the outer loop of [group_by_type_result]. *)
Definition group_item (result_as_dict : dict) (item : dict) : res dict :=
  match List.find (λ kb, has_key kb.1 item) keys_map with
  | None => Ok result_as_dict
  | Some (key, bucket) =>
      let result_as_dict :=
        match dget bucket result_as_dict with
        | None | Some VNone => dset bucket (VList []) result_as_dict
        | _ => result_as_dict
        end in
      let _type := dict_get bucket result_as_dict in
      let* _type :=
        (if negb (String.eqb key "comments")
         then py_append _type (VDict item)
         else
           let* comments := dsubscript item "comments" in
           py_extend _type comments) in
      Ok (dset bucket _type result_as_dict)
  end.

Definition group_by_type_result (final_result : list dict) : res dict :=
  let* result_as_dict := foldM_res group_item result_as_dict_init final_result in
  let* comments := dsubscript result_as_dict "comments" in
  if py_eq comments (VList [])
  then ddel_item result_as_dict "comments"
  else Ok result_as_dict.

Definition format_loop (self : Output) (parser_output : list dict) : res Output :=
  foldM_res format_step self parser_output.

Definition format (self : Output) (parser_output : list dict) : res value :=
  let* self := format_loop self parser_output in
  let final_result := map (resolve (store self)) (final_result self) in
  if group_by_type self then
    let* grouped := group_by_type_result final_result in
    Ok (VDict grouped)
  else Ok (VList (map VDict final_result)).

(** ** Properties *)

(** *** Dictionaries *)

Lemma dget_dset_eq {A} (k : string) (v : A) (d : list (string * A)) :
  dget k (dset k v d) = Some v.
Proof.
  induction d as [|[k' v'] d IH]; simpl.
  - by rewrite String.eqb_refl.
  - destruct (String.eqb k k') eqn:E; simpl; rewrite E; [done | apply IH].
Qed.

Lemma dget_dset_ne {A} (k k' : string) (v : A) (d : list (string * A)) :
  k ≠ k' → dget k' (dset k v d) = dget k' d.
Proof.
  intros Hne. induction d as [|[k0 v0] d IH]; simpl.
  - destruct (String.eqb_spec k' k); [congruence | done].
  - destruct (String.eqb_spec k k0) as [->|Hk]; simpl.
    + destruct (String.eqb_spec k' k0); [congruence | done].
    + destruct (String.eqb_spec k' k0); [done | apply IH].
Qed.

Lemma dget_ddel_eq {A} (k : string) (d : list (string * A)) :
  dget k (ddel k d) = None.
Proof.
  induction d as [|[k' v'] d IH]; simpl; [done|].
  destruct (String.eqb k k') eqn:E; simpl; [apply IH | by rewrite E].
Qed.

Lemma dget_ddel_ne {A} (k k' : string) (d : list (string * A)) :
  k ≠ k' → dget k' (ddel k d) = dget k' d.
Proof.
  intros Hne. induction d as [|[k0 v0] d IH]; simpl; [done|].
  destruct (String.eqb_spec k k0) as [->|Hk]; simpl.
  - destruct (String.eqb_spec k' k0); [congruence | apply IH].
  - destruct (String.eqb_spec k' k0); [done | apply IH].
Qed.

Lemma has_key_dset_ne {A} (k k' : string) (v : A) (d : list (string * A)) :
  k ≠ k' → has_key k' (dset k v d) = has_key k' d.
Proof. intros. unfold has_key. by rewrite dget_dset_ne. Qed.

Lemma bind_Ok {A B} (m : res A) (f : A → res B) (b : B) :
  bind m f = Ok b → ∃ a, m = Ok a ∧ f a = Ok b.
Proof. destruct m; simpl; eauto; done. Qed.

(** Inversion of a successful computation: every [let*] on the way
    returned. *)
Ltac inv_ok H :=
  repeat match type of H with
  | bind ?m ?f = Ok ?b =>
      let a := fresh "a" in
      let Ha := fresh "Hb" in
      apply bind_Ok in H; destruct H as (a & Ha & H)
  | Ok _ = Ok _ => injection H as H
  | Err _ = Ok _ => discriminate H
  end.

(** *** The result grouper *)

(** The grouping as the specification words it: the bucket of the
    first discriminator key an entity carries, in the fixed order. *)
Definition routed_bucket (item : dict) : option string :=
  if has_key "table_name" item then Some "tables"
  else if has_key "sequence_name" item then Some "sequences"
  else if has_key "type_name" item then Some "types"
  else if has_key "domain_name" item then Some "domains"
  else if has_key "schema_name" item then Some "schemas"
  else if has_key "tablespace_name" item then Some "tablespaces"
  else if has_key "database_name" item then Some "databases"
  else if has_key "value" item then Some "ddl_properties"
  else if has_key "comments" item then Some "comments"
  else None.

Definition inner_comments (item : dict) : res (list value) :=
  let* comments := dsubscript item "comments" in py_iter comments.

(** What an entity adds to the bucket [b]: itself when it is routed
    there, the items of its inner list for the comments bucket. *)
Definition contribution (b : string) (item : dict) : list value :=
  match routed_bucket item with
  | Some b' =>
      if String.eqb b b' then
        if String.eqb b' "comments"
        then match inner_comments item with Ok l => l | Err _ => [] end
        else [VDict item]
      else []
  | None => []
  end.

Definition bucket_contents (b : string) (items : list dict) : list value :=
  flat_map (contribution b) items.

Definition declared_bucket (b : string) : bool :=
  existsb (String.eqb b)
    ["tables"; "types"; "sequences"; "domains"; "schemas"; "ddl_properties"].

Definition on_demand_bucket (b : string) : bool :=
  existsb (String.eqb b) ["tablespaces"; "databases"].

(** The grouped wrapper, bucket by bucket. *)
Definition expected_bucket (b : string) (items : list dict) : option value :=
  if declared_bucket b then Some (VList (bucket_contents b items))
  else if on_demand_bucket b || String.eqb b "comments" then
    match bucket_contents b items with
    | [] => None
    | l => Some (VList l)
    end
  else None.

Definition comments_iterable (item : dict) : Prop :=
  routed_bucket item = Some "comments" → ∃ l, inner_comments item = Ok l.

(** The state of the loop: [c b] is what went into bucket [b] so far;
    the comments bucket is still there when empty. *)
Definition grouping_inv (c : string → list value) (r : dict) : Prop :=
  ∀ b, dget b r =
       if declared_bucket b || String.eqb b "comments" then Some (VList (c b))
       else if on_demand_bucket b then
         match c b with [] => None | l => Some (VList l) end
       else None.

Lemma find_keys_map (item : dict) :
  List.find (λ kb, has_key kb.1 item) keys_map =
  if has_key "table_name" item then Some ("table_name", "tables")
  else if has_key "sequence_name" item then Some ("sequence_name", "sequences")
  else if has_key "type_name" item then Some ("type_name", "types")
  else if has_key "domain_name" item then Some ("domain_name", "domains")
  else if has_key "schema_name" item then Some ("schema_name", "schemas")
  else if has_key "tablespace_name" item then Some ("tablespace_name", "tablespaces")
  else if has_key "database_name" item then Some ("database_name", "databases")
  else if has_key "value" item then Some ("value", "ddl_properties")
  else if has_key "comments" item then Some ("comments", "comments")
  else None.
Proof. reflexivity. Qed.

Lemma grouping_inv_append (c : string → list value) (r : dict) (b0 : string)
    (items : list value) (add : string → list value) (ext : value → res value) :
  grouping_inv c r →
  (∀ l, ext (VList l) = Ok (VList (l ++ items))) →
  declared_bucket b0 || String.eqb b0 "comments" || on_demand_bucket b0 = true →
  add b0 = items →
  (on_demand_bucket b0 = true → items ≠ []) →
  (∀ b, b ≠ b0 → add b = []) →
  ∃ r',
    (let r1 := match dget b0 r with
               | None | Some VNone => dset b0 (VList []) r
               | _ => r
               end in
     let* t := ext (dict_get b0 r1) in Ok (dset b0 t r1)) = Ok r'
    ∧ grouping_inv (λ b, c b ++ add b) r'.
Proof.
  intros Hinv Hext Hb0 Hadd Hne Hother.
  pose proof (Hinv b0) as H0.
  destruct (declared_bucket b0 || String.eqb b0 "comments") eqn:Hd.
  - rewrite H0. unfold dict_get. rewrite H0, Hext. simpl.
    eexists; split; [reflexivity|].
    intros b. destruct (String.eqb_spec b0 b) as [<-|Hbb].
    + rewrite dget_dset_eq, Hd, Hadd. done.
    + rewrite dget_dset_ne by done. rewrite Hinv, Hother by done.
      by rewrite app_nil_r.
  - simpl in Hb0. specialize (Hne Hb0). rewrite Hb0 in H0.
    assert (Hr : ∃ r1, match dget b0 r with
               | None | Some VNone => dset b0 (VList []) r
               | _ => r
               end = r1 ∧ dget b0 r1 = Some (VList (c b0))
               ∧ ∀ b, b ≠ b0 → dget b r1 = dget b r).
    { destruct (c b0) eqn:Hc; rewrite H0.
      - eexists; split; [reflexivity|]. split; [apply dget_dset_eq|].
        intros b Hb. by rewrite dget_dset_ne.
      - eexists; split; [reflexivity|]. rewrite <- Hc, H0, Hc. split; done. }
    destruct Hr as (r1 & -> & Hr1 & Hr1o).
    unfold dict_get. rewrite Hr1, Hext. simpl.
    eexists; split; [reflexivity|].
    intros b. destruct (String.eqb_spec b0 b) as [<-|Hbb].
    + rewrite dget_dset_eq, Hd, Hb0, Hadd.
      destruct (c b0 ++ items) eqn:E; [|done].
      apply app_eq_nil in E as [_ ?]. done.
    + rewrite dget_dset_ne by done. rewrite Hr1o by done.
      rewrite Hinv, Hother by done. by rewrite app_nil_r.
Qed.

Ltac eval_string_tests :=
  repeat match goal with
  | |- context [String.eqb (String ?a ?s) (String ?b ?t)] =>
      let v := eval vm_compute in (String.eqb (String a s) (String b t)) in
      change (String.eqb (String a s) (String b t)) with v
  end;
  cbv beta iota; simpl negb; cbv beta iota.

Lemma group_item_inv (c : string → list value) (r item : dict) :
  grouping_inv c r →
  comments_iterable item →
  ∃ r', group_item r item = Ok r'
        ∧ grouping_inv (λ b, c b ++ contribution b item) r'.
Proof.
  intros Hinv Hit. unfold group_item. rewrite find_keys_map.
  unfold comments_iterable in Hit.
  unfold contribution. unfold routed_bucket in *.
  repeat match goal with
  | |- context [if has_key ?k item then _ else _] =>
      destruct (has_key k item) eqn:?
  end;
  eval_string_tests;
  try (apply grouping_inv_append
         with (items := [VDict item]) (ext := λ t, py_append t (VDict item));
       [ done | done | done | by rewrite String.eqb_refl | done
       | by intros b Hb; apply String.eqb_neq in Hb; rewrite Hb ]).
  - destruct Hit as [l Hl]; [done|]. rewrite Hl.
    apply grouping_inv_append
      with (items := l)
           (ext := λ t, let* comments := dsubscript item "comments" in
                        py_extend t comments); [done | | done | | | ].
    + intros l0. unfold inner_comments in Hl. inv_ok Hl.
      rewrite Hb. simpl. rewrite Hl. done.
    + by rewrite String.eqb_refl.
    + done.
    + by intros b Hb; apply String.eqb_neq in Hb; rewrite Hb.
  - exists r. split; [done|]. intros b. rewrite app_nil_r. apply Hinv.
Qed.

Lemma grouping_inv_init : grouping_inv (λ _, []) result_as_dict_init.
Proof.
  intros b. unfold declared_bucket, on_demand_bucket, result_as_dict_init.
  simpl.
  repeat match goal with
  | |- context [String.eqb b ?k] => destruct (String.eqb_spec b k); subst; simpl
  end; done.
Qed.

Lemma group_loop_inv (items : list dict) : ∀ (c : string → list value) (r : dict),
  grouping_inv c r →
  Forall comments_iterable items →
  ∃ r', foldM_res group_item r items = Ok r'
        ∧ grouping_inv (λ b, c b ++ bucket_contents b items) r'.
Proof.
  induction items as [|item items IH]; intros c r Hinv Hall.
  - exists r. split; [done|]. intros b. simpl. rewrite app_nil_r. apply Hinv.
  - inversion Hall as [|? ? Hitem Hrest]; subst.
    destruct (group_item_inv c r item Hinv Hitem) as (r1 & Hstep & Hinv1).
    destruct (IH _ r1 Hinv1 Hrest) as (r2 & Hloop & Hinv2).
    exists r2. simpl. rewrite Hstep. simpl. split; [done|].
    intros b. specialize (Hinv2 b). simpl in Hinv2.
    unfold bucket_contents in *. simpl. rewrite app_assoc. exact Hinv2.
Qed.

(** C9 (as amended): with [group_by_type] on, every entity goes to the
    bucket of the first discriminator key it carries (in the fixed key
    order), a comments entity contributes the items of its inner list;
    the six declared buckets are always there, the comments bucket only
    when it is not empty, and the buckets "tablespaces" and "databases"
    exist exactly when an entity was routed to them; no other key
    exists. *)
Theorem group_by_type_result_buckets (items : list dict) :
  Forall comments_iterable items →
  ∃ r, group_by_type_result items = Ok r
       ∧ ∀ b, dget b r = expected_bucket b items.
Proof.
  intros Hall.
  destruct (group_loop_inv items _ _ grouping_inv_init Hall) as (r & Hloop & Hinv).
  unfold group_by_type_result. rewrite Hloop. simpl.
  pose proof (Hinv "comments") as Hc. simpl in Hc.
  unfold dsubscript. rewrite Hc. simpl.
  destruct (bucket_contents "comments" items) as [|x l] eqn:Hcont.
  - unfold ddel_item, has_key. rewrite Hc.
    eexists; split; [reflexivity|]. intros b. unfold expected_bucket.
    destruct (String.eqb b "comments") eqn:Eb.
    + apply String.eqb_eq in Eb as ->.
      rewrite dget_ddel_eq, Hcont. reflexivity.
    + assert (Hb : "comments" ≠ b) by (intros <-; by rewrite String.eqb_refl in Eb).
      rewrite dget_ddel_ne by done. rewrite Hinv, Eb. simpl.
      rewrite !orb_false_r.
      destruct (declared_bucket b); [done|].
      destruct (on_demand_bucket b); done.
  - exists r. split; [done|]. intros b. unfold expected_bucket.
    destruct (String.eqb b "comments") eqn:Eb.
    + apply String.eqb_eq in Eb as ->.
      rewrite Hc, Hcont. reflexivity.
    + rewrite Hinv, Eb. simpl. rewrite !orb_false_r.
      destruct (declared_bucket b); [done|].
      destruct (on_demand_bucket b); done.
Qed.

(** *** The single-slot ledger of dropped and modified columns *)

(** [drop_column] and [modify_column] are one search-and-record step:
    find the first live column with the normalized name, write it into
    a ledger slot, update the column list at its index. *)
Definition record_step (slot : string) (name : res value)
    (update : nat → list value → list value) (target_table : dict) : res dict :=
  let* columns := getattr target_table "columns" in
  let* items := py_iter columns in
  let* index := find_column name items 0 in
  match index, columns with
  | None, _ => Ok target_table
  | Some i, VList l =>
      match l !! i with
      | Some column =>
          let* alter := getattr target_table "alter" in
          let* alter := set_item alter slot column in
          Ok (dset "columns" (VList (update i l))
                (dset "alter" alter target_table))
      | None => Err TypeError
      end
  | Some _, _ => Err TypeError
  end.

Lemma drop_column_record_step (t : dict) (n : value) :
  drop_column t n = record_step "dropped_columns" (Ok n) (λ i l, delete i l) t.
Proof. reflexivity. Qed.

Lemma modify_column_record_step (t : dict) (m : value) :
  modify_column t m =
  record_step "modified_columns" (subscript m "name") (λ i l, <[i := m]> l) t.
Proof. reflexivity. Qed.

(** Ghost trace of a run of steps over the column list [cols]: the
    columns written to the slot, in order, and the columns left. *)
Fixpoint record_trace (steps : list (res value * (nat → list value → list value)))
    (cols : list value) : list value * list value :=
  match steps with
  | [] => ([], cols)
  | (name, update) :: rest =>
      match find_column name cols 0 with
      | Ok (Some i) =>
          match cols !! i with
          | Some column =>
              let r := record_trace rest (update i cols) in (column :: r.1, r.2)
          | None => record_trace rest cols
          end
      | _ => record_trace rest cols
      end
  end.

Definition drop_steps (names : list value)
  : list (res value * (nat → list value → list value)) :=
  map (λ n, (Ok n, λ i l, delete i l)) names.

Definition modify_steps (modified : list value)
  : list (res value * (nat → list value → list value)) :=
  map (λ m, (subscript m "name", λ i l, <[i := m]> l)) modified.

(** The items of the list a statement carries under [key]. *)
Definition statement_items (key : string) (statement : dict) : list value :=
  match dget key statement with
  | Some v => match py_iter (K:=table_id) v with Ok l => l | Err _ => [] end
  | None => []
  end.

(** The columns removed from [cols] by a sequence of ALTER DROP COLUMN
    statements, in order of removal, and the columns replaced by a
    sequence of ALTER MODIFY COLUMN statements. *)
Definition dropped_history (statements : list dict) (cols : list value) : list value :=
  (record_trace
     (flat_map (λ s, drop_steps (statement_items "columns_to_drop" s)) statements)
     cols).1.

Definition replaced_history (statements : list dict) (cols : list value) : list value :=
  (record_trace
     (flat_map (λ s, modify_steps (statement_items "columns_to_modify" s)) statements)
     cols).1.

(** The columns left by the drops, and the columns after the
    modifications. *)
Definition columns_after_drops (statements : list dict) (cols : list value)
  : list value :=
  (record_trace
     (flat_map (λ s, drop_steps (statement_items "columns_to_drop" s)) statements)
     cols).2.

Definition columns_after_modifications (statements : list dict) (cols : list value)
  : list value :=
  (record_trace
     (flat_map (λ s, modify_steps (statement_items "columns_to_modify" s)) statements)
     cols).2.

Lemma find_column_found (name : res value) (cols : list value) : ∀ (k i : nat),
  find_column name cols k = Ok (Some i) →
  (k ≤ i)%nat ∧ ∃ column d cname,
    cols !! (i - k) = Some column ∧ column = VDict d ∧ dget "name" d = Some cname.
Proof.
  induction cols as [|c cols IH]; intros k i Hf; simpl in Hf; [done|].
  inv_ok Hf.
  destruct (py_eq a0 a2).
  - inv_ok Hf. subst i. split; [lia|].
    rewrite Nat.sub_diag. simpl.
    destruct c; simpl in Hb1; try done.
    destruct (dget "name" d) eqn:E; [|done]. eauto 6.
  - apply IH in Hf as (Hle & column & d & cname & Hl & Hc & Hn).
    split; [lia|]. exists column, d, cname.
    replace (i - k) with (S (i - S k)) by lia. done.
Qed.

(** The ledger slot [slot] of [t] holds the column [c]. *)
Definition slot_holds (slot : string) (t : dict) (c : value) : Prop :=
  ∃ alter, dget "alter" t = Some (VDict alter) ∧ dget slot alter = Some c.

Definition has_name (c : value) : Prop :=
  ∃ d cname, c = VDict d ∧ dget "name" d = Some cname.

Lemma has_name_truthy (c : value) : has_name c → truthy c = true.
Proof. intros (d & cname & -> & Hn). destruct d; done. Qed.

Lemma record_step_spec (slot : string) (name : res value)
    (update : nat → list value → list value) (t t' : dict) (cols : list value) :
  dget "columns" t = Some (VList cols) →
  record_step slot name update t = Ok t' →
  let tr := record_trace [(name, update)] cols in
  dget "columns" t' = Some (VList tr.2)
  ∧ (∀ k, k ≠ "columns" → k ≠ "alter" → dget k t' = dget k t)
  ∧ match tr.1 with
    | [] => t' = t
    | c :: _ => slot_holds slot t' c ∧ has_name c
    end.
Proof.
  intros Hcols Hstep. unfold record_step, getattr in Hstep.
  rewrite Hcols in Hstep. simpl in Hstep. inv_ok Hstep.
  simpl. rewrite Hb.
  destruct a as [i|]; [|inv_ok Hstep; subst; done].
  pose proof (find_column_found _ _ _ _ Hb) as (_ & column & d & cname & Hl & Hc & Hn).
  rewrite Nat.sub_0_r in Hl. rewrite Hl in Hstep |- *.
  inv_ok Hstep. subst t'. simpl.
  split; [by rewrite dget_dset_eq|].
  split.
  { intros k Hk1 Hk2. rewrite !dget_dset_ne by done. done. }
  split; [|by exists d, cname].
  unfold slot_holds. rewrite dget_dset_ne by done. rewrite dget_dset_eq.
  destruct a as [| | | | |al]; simpl in Hb1; try done. inv_ok Hb1. subst a0.
  eexists; split; [done|]. apply dget_dset_eq.
Qed.

Notation step := (res value * (nat → list value → list value))%type.

Definition run_steps (slot : string) (t : dict) (steps : list step) : res dict :=
  foldM_res (λ t (s : step), record_step slot s.1 s.2 t) t steps.

Lemma record_trace_app (steps1 steps2 : list step) : ∀ cols,
  record_trace (steps1 ++ steps2) cols =
  let r1 := record_trace steps1 cols in
  let r2 := record_trace steps2 r1.2 in
  (r1.1 ++ r2.1, r2.2).
Proof.
  induction steps1 as [|[name update] steps1 IH]; intros cols; simpl.
  - by destruct (record_trace steps2 cols).
  - destruct (find_column name cols 0) as [[i|]|]; try apply IH.
    destruct (cols !! i); [|apply IH]. rewrite IH. done.
Qed.

Lemma run_steps_spec (slot : string) (steps : list step) : ∀ (t t' : dict) cols,
  dget "columns" t = Some (VList cols) →
  run_steps slot t steps = Ok t' →
  let tr := record_trace steps cols in
  dget "columns" t' = Some (VList tr.2)
  ∧ (∀ k, k ≠ "columns" → k ≠ "alter" → dget k t' = dget k t)
  ∧ (tr.1 = [] → t' = t)
  ∧ (∀ c, last tr.1 = Some c → slot_holds slot t' c ∧ has_name c).
Proof.
  induction steps as [|[name update] steps IH]; intros t t' cols Hcols Hrun.
  - unfold run_steps in Hrun. simpl in Hrun. inv_ok Hrun. subst. simpl. done.
  - unfold run_steps in Hrun. simpl in Hrun. inv_ok Hrun.
    destruct (record_step_spec _ _ _ _ _ _ Hcols Hb) as (Hc1 & Hfr1 & Hs1).
    destruct (IH _ _ _ Hc1 Hrun) as (Hc2 & Hfr2 & Hnil2 & Hlast2).
    change (name, update) with ((name, update) : step) in *.
    change ((name, update) :: steps) with ([(name, update)] ++ steps).
    rewrite record_trace_app.
    set (r1 := record_trace [(name, update)] cols) in *.
    set (r2 := record_trace steps r1.2) in *.
    cbv zeta. simpl fst. simpl snd.
    split; [done|].
    split; [intros k Hk1 Hk2; rewrite Hfr2, Hfr1 by done; done|].
    split.
    + intros Hnil. apply app_eq_nil in Hnil as [Hn1 Hn2].
      rewrite Hn1 in Hs1. rewrite Hnil2 by done. done.
    + intros c Hlast. fold r2 in Hlast.
      destruct (r2.1) as [|c2 l2] eqn:E2.
      * rewrite app_nil_r in Hlast. rewrite Hnil2 by done.
        destruct (r1.1) as [|c1 l1] eqn:E1; [done|].
        assert (l1 = []) as ->.
        { subst r1. simpl in E1.
          destruct (find_column name cols 0) as [[i|]|]; simpl in E1; try done.
          destruct (cols !! i); simpl in E1; [|done]. by injection E1. }
        simpl in Hlast. injection Hlast as <-. done.
      * apply Hlast2. rewrite last_app in Hlast.
        destruct (last (c2 :: l2)) eqn:El; [done|].
        by apply last_None in El.
Qed.

(** Both alter functions: prepare the slot, then one step per item. *)
Definition record_statement (slot key : string) (mk : list value → list step)
    (t statement : dict) : res dict :=
  let* alter := getattr t "alter" in
  let* alter := init_slot alter slot in
  let t := dset "alter" alter t in
  let* v := dsubscript statement key in
  let* items := py_iter v in
  run_steps slot t (mk items).

Lemma foldM_res_map {A B S} (f : S → A → res S) (g : S → B → res S) (h : A → B)
    (l : list A) :
  (∀ s x, f s x = g s (h x)) →
  ∀ s, foldM_res f s l = foldM_res g s (map h l).
Proof.
  intros Hfg. induction l as [|x l IH]; intros s; simpl; [done|].
  rewrite Hfg. destruct (g s (h x)); simpl; [apply IH | done].
Qed.

Lemma alter_drop_columns_record (t statement : dict) :
  alter_drop_columns t statement =
  record_statement "dropped_columns" "columns_to_drop" drop_steps t statement.
Proof.
  unfold alter_drop_columns, record_statement, run_steps, drop_steps.
  destruct (getattr t "alter"); simpl; [|done].
  destruct (init_slot a "dropped_columns"); simpl; [|done].
  destruct (dsubscript statement "columns_to_drop"); simpl; [|done].
  destruct (py_iter a1); simpl; [|done].
  by apply foldM_res_map.
Qed.

Lemma alter_modify_columns_record (t statement : dict) :
  alter_modify_columns t statement =
  record_statement "modified_columns" "columns_to_modify" modify_steps t statement.
Proof.
  unfold alter_modify_columns, record_statement, run_steps, modify_steps.
  destruct (getattr t "alter"); simpl; [|done].
  destruct (init_slot a "modified_columns"); simpl; [|done].
  destruct (dsubscript statement "columns_to_modify"); simpl; [|done].
  destruct (py_iter a1); simpl; [|done].
  by apply foldM_res_map.
Qed.

Lemma init_slot_spec (alter alter' : value) (slot : string) :
  init_slot alter slot = Ok alter' →
  ∃ a, alter = VDict a
       ∧ alter' = VDict (if truthy (dict_get slot a) then a
                         else dset slot (VList []) a).
Proof.
  unfold init_slot. intros Hi. destruct alter; try done. simpl in Hi.
  exists d. split; [done|]. unfold dict_get.
  destruct (truthy _); simpl in Hi; by inv_ok Hi.
Qed.

Lemma record_statement_spec (slot key : string) (mk : list value → list step)
    (t t' statement : dict) (cols : list value) :
  dget "columns" t = Some (VList cols) →
  record_statement slot key mk t statement = Ok t' →
  let tr := record_trace (mk (statement_items key statement)) cols in
  dget "columns" t' = Some (VList tr.2)
  ∧ (∀ k, k ≠ "columns" → k ≠ "alter" → dget k t' = dget k t)
  ∧ (∀ c, last tr.1 = Some c → slot_holds slot t' c ∧ has_name c)
  ∧ (tr.1 = [] →
     ∃ a, dget "alter" t = Some (VDict a)
          ∧ dget "alter" t' =
            Some (VDict (if truthy (dict_get slot a) then a
                         else dset slot (VList []) a))).
Proof.
  intros Hcols Hrun. unfold record_statement in Hrun. inv_ok Hrun.
  apply init_slot_spec in Hb0 as (al & -> & ->).
  assert (statement_items key statement = a2) as ->.
  { unfold statement_items. unfold dsubscript in Hb1.
    destruct (dget key statement); [|done]. inv_ok Hb1. subst. by rewrite Hb2. }
  eapply run_steps_spec in Hrun as (Hc & Hfr & Hnil & Hlast);
    [|by rewrite dget_dset_ne].
  split; [done|].
  split; [intros k Hk1 Hk2; rewrite Hfr by done; by rewrite dget_dset_ne|].
  split; [done|].
  intros Hn. rewrite (Hnil Hn). exists al. split.
  - unfold getattr in Hb. destruct (dget "alter" t); [|done]. by inv_ok Hb; subst.
  - apply dget_dset_eq.
Qed.

Lemma slot_kept (slot : string) (t t' : dict) (a : dict) (c : value) :
  dget "alter" t = Some (VDict a) →
  dget "alter" t' =
    Some (VDict (if truthy (dict_get slot a) then a else dset slot (VList []) a)) →
  has_name c → slot_holds slot t c → slot_holds slot t' c.
Proof.
  intros Ha Ha' Hc (a0 & Ha0 & Hs). rewrite Ha in Ha0. injection Ha0 as <-.
  exists a. split; [|done]. rewrite Ha'. unfold dict_get. rewrite Hs.
  by rewrite has_name_truthy.
Qed.

Lemma record_sequence_spec (slot key : string) (mk : list value → list step)
    (statements : list dict) : ∀ (t t' : dict) (cols : list value),
  dget "columns" t = Some (VList cols) →
  foldM_res (record_statement slot key mk) t statements = Ok t' →
  let tr := record_trace
              (flat_map (λ s, mk (statement_items key s)) statements) cols in
  dget "columns" t' = Some (VList tr.2)
  ∧ (∀ c, last tr.1 = Some c → slot_holds slot t' c ∧ has_name c)
  ∧ (tr.1 = [] → ∀ c, has_name c → slot_holds slot t c → slot_holds slot t' c).
Proof.
  induction statements as [|st statements IH]; intros t t' cols Hcols Hrun.
  - simpl in Hrun. inv_ok Hrun. subst. simpl. done.
  - simpl in Hrun. inv_ok Hrun.
    destruct (record_statement_spec _ _ _ _ _ _ _ Hcols Hb) as (Hc1 & _ & Hl1 & Hn1).
    destruct (IH _ _ _ Hc1 Hrun) as (Hc2 & Hl2 & Hn2).
    simpl flat_map. cbv zeta. rewrite record_trace_app. cbv zeta.
    set (r1 := record_trace (mk (statement_items key st)) cols) in *.
    set (r2 := record_trace _ r1.2) in *.
    simpl fst. simpl snd.
    split; [done|]. split.
    + intros c Hlast. destruct (r2.1) as [|c2 l2] eqn:E2.
      * rewrite app_nil_r in Hlast. destruct (Hl1 _ Hlast) as [Hs Hc].
        split; [|done]. by apply Hn2.
      * apply Hl2. rewrite last_app in Hlast.
        destruct (last (c2 :: l2)) eqn:El; [done|].
        by apply last_None in El.
    + intros Hnil c Hc Hs. apply app_eq_nil in Hnil as [Hnil1 Hnil2].
      apply Hn2; [done..|].
      destruct (Hn1 Hnil1) as (a0 & Ha0 & Ha0').
      exact (slot_kept slot t a a0 c Ha0 Ha0' Hc Hs).
Qed.

(** The history of the drops is what they took out of the columns. *)
Lemma dropped_history_permutation (statements : list dict) (cols : list value) :
  cols ≡ₚ dropped_history statements cols ++ columns_after_drops statements cols.
Proof.
  unfold dropped_history, columns_after_drops.
  generalize (flat_map (λ s, statement_items "columns_to_drop" s) statements).
  assert (Hsteps : ∀ names cols,
    cols ≡ₚ (record_trace (drop_steps names) cols).1
            ++ (record_trace (drop_steps names) cols).2).
  { induction names as [|n names IH]; intros cols0; simpl; [done|].
    destruct (find_column (Ok n) cols0 0) as [[i|]|]; try apply IH.
    destruct (cols0 !! i) as [column|] eqn:Hi; [|apply IH]. simpl.
    rewrite <- IH. by apply delete_Permutation. }
  intros _. replace (flat_map _ statements)
    with (drop_steps (flat_map (λ s, statement_items "columns_to_drop" s) statements)).
  - apply Hsteps.
  - unfold drop_steps. induction statements as [|st sts IH]; simpl; [done|].
    by rewrite map_app, IH.
Qed.

(** C7: after a sequence of ALTER DROP COLUMN (respectively ALTER
    MODIFY COLUMN) statements applied to a table, the columns of the
    table are the columns left (respectively the columns with the
    replacements), and the ledger entry "dropped_columns" (respectively
    "modified_columns") is the column removed (respectively replaced)
    last, not the list of all of them. *)
Theorem ledger_slot_holds_last (statements : list dict) (t t' : dict)
    (cols : list value) :
  dget "columns" t = Some (VList cols) →
  (foldM_res alter_drop_columns t statements = Ok t' →
   dget "columns" t' = Some (VList (columns_after_drops statements cols))
   ∧ ∀ c, last (dropped_history statements cols) = Some c →
          slot_holds "dropped_columns" t' c)
  ∧ (foldM_res alter_modify_columns t statements = Ok t' →
     dget "columns" t' = Some (VList (columns_after_modifications statements cols))
     ∧ ∀ c, last (replaced_history statements cols) = Some c →
            slot_holds "modified_columns" t' c).
Proof.
  intros Hcols. split; intros Hrun.
  - rewrite (foldM_res_map _
      (record_statement "dropped_columns" "columns_to_drop" drop_steps) id)
      in Hrun by (intros; apply alter_drop_columns_record).
    rewrite map_id in Hrun.
    destruct (record_sequence_spec _ _ _ _ _ _ _ Hcols Hrun) as (Hc & Hl & _).
    split; [exact Hc|]. intros c Hlast. by apply Hl.
  - rewrite (foldM_res_map _
      (record_statement "modified_columns" "columns_to_modify" modify_steps) id)
      in Hrun by (intros; apply alter_modify_columns_record).
    rewrite map_id in Hrun.
    destruct (record_sequence_spec _ _ _ _ _ _ _ Hcols Hrun) as (Hc & Hl & _).
    split; [exact Hc|]. intros c Hlast. by apply Hl.
Qed.

(** *** ALTER DROP COLUMN without a matching column *)

(** The test of the search loop: do the name [n] of the statement and
    the live column [column] have the same normalized name? *)
Definition same_column (n column : value) : res bool :=
  let* a := normalize_name n in
  let* cname := subscript column "name" in
  let* b := normalize_name cname in
  Ok (py_eq a b).

Lemma find_column_none (n : value) (cols : list value) :
  Forall (λ column, same_column n column = Ok false) cols →
  ∀ k, find_column (Ok n) cols k = Ok None.
Proof.
  induction 1 as [|column cols Hc _ IH]; intros k; simpl; [done|].
  unfold same_column in Hc.
  destruct (normalize_name n); simpl in *; [|done].
  destruct (subscript column "name"); simpl in *; [|done].
  destruct (normalize_name a0); simpl in *; [|done].
  injection Hc as ->. apply IH.
Qed.

Lemma drop_nothing (t : dict) (cols names : list value) :
  dget "columns" t = Some (VList cols) →
  Forall (λ n, Forall (λ column, same_column n column = Ok false) cols) names →
  foldM_res drop_column t names = Ok t.
Proof.
  intros Hcols. induction 1 as [|n names Hn _ IH]; simpl; [done|].
  unfold drop_column at 1. unfold getattr. rewrite Hcols. simpl.
  rewrite find_column_none by done. simpl. apply IH.
Qed.

(** C10 (as amended): an ALTER DROP COLUMN none of whose names matches
    a live column leaves the column list as it is; when the ledger has
    no "dropped_columns" entry, or an empty one, the entry afterwards is
    the empty list, and an entry left by an earlier drop is kept. *)
Theorem alter_drop_columns_no_match (t statement a : dict) (cols names : list value) :
  dget "alter" t = Some (VDict a) →
  dget "columns" t = Some (VList cols) →
  dget "columns_to_drop" statement = Some (VList names) →
  Forall (λ n, Forall (λ column, same_column n column = Ok false) cols) names →
  ∃ t',
    alter_drop_columns t statement = Ok t'
    ∧ dget "columns" t' = Some (VList cols)
    ∧ dget "alter" t' =
      Some (VDict (if truthy (dict_get "dropped_columns" a) then a
                   else dset "dropped_columns" (VList []) a)).
Proof.
  intros Ha Hcols Hnames Hno.
  unfold alter_drop_columns, getattr, init_slot, dsubscript.
  rewrite Ha, Hnames. simpl. fold (dict_get "dropped_columns" a).
  destruct (truthy (dict_get "dropped_columns" a)); simpl;
    (rewrite drop_nothing with (cols := cols);
       [|by rewrite dget_dset_ne|done]);
    (eexists; split; [reflexivity|]);
    (split; [by rewrite dget_dset_ne | by rewrite dget_dset_eq]).
Qed.

(** *** Loops over the columns *)

Lemma mapM_res_Forall2 {A B} (f : A → res B) (l : list A) : ∀ l',
  mapM_res f l = Ok l' → Forall2 (λ x y, f x = Ok y) l l'.
Proof.
  induction l as [|x l IH]; intros l' Hm; simpl in Hm; inv_ok Hm; subst.
  - constructor.
  - constructor; [done | by apply IH].
Qed.

Lemma for_each_list (f : value → res value) (l : list value) (v : value) :
  for_each f (VList l) = Ok v →
  ∃ l', v = VList l' ∧ Forall2 (λ x y, f x = Ok y) l l'.
Proof.
  simpl. intros Hf. inv_ok Hf. subst. eauto using mapM_res_Forall2.
Qed.

Lemma Forall2_compose {A B C} (R : A → B → Prop) (S : B → C → Prop)
    (l1 : list A) (l2 : list B) (l3 : list C) :
  Forall2 R l1 l2 → Forall2 S l2 l3 →
  Forall2 (λ x z, ∃ y, R x y ∧ S y z) l1 l3.
Proof.
  intros H12. revert l3. induction H12; intros l3 H23; inversion H23; subst;
    constructor; eauto.
Qed.

(** *** Primary-key resolution *)

(** The resolution as the specification words it. *)
Definition column_name (column : value) : option value :=
  match column with VDict d => dget "name" d | _ => None end.

Definition flagged (column : value) : bool :=
  match column with
  | VDict d => match dget "primary_key" d with Some f => truthy f | None => false end
  | _ => false
  end.

(** Names of the columns carrying the flag, in column order. *)
Definition flagged_names (cols : list value) : list value :=
  omap column_name (List.filter flagged cols).

Definition constraint_columns (key_constraint : value) : list value :=
  match key_constraint with
  | VDict d =>
      match dget "columns" d with
      | Some v => match py_iter (K:=table_id) v with Ok l => l | Err _ => [] end
      | None => []
      end
  | _ => []
  end.

(** Column names of the table-level primary-key constraints, in
    declaration order. *)
Definition constraint_pk_names (constraints : value) : list value :=
  match constraints with
  | VDict d =>
      match dget "primary_keys" d with
      | Some (VList key_constraints) => flat_map constraint_columns key_constraints
      | _ => []
      end
  | _ => []
  end.

Lemma pk_scan_spec (cols : list value) : ∀ pk cols',
  pk_scan cols = Ok (pk, cols') →
  pk = flagged_names cols
  ∧ Forall2 (λ c c', del_item (K:=table_id) c "primary_key" = Ok c') cols cols'.
Proof.
  induction cols as [|c cols IH]; intros pk cols' Hs; simpl in Hs.
  - inv_ok Hs. by subst.
  - inv_ok Hs. destruct a2 as [pk0 cols0]. simpl in *. subst.
    destruct (IH _ _ Hb2) as [-> HF]. split; [|by constructor].
    unfold flagged_names. simpl.
    destruct c as [| | | | |d]; simpl in Hb; try done.
    simpl. destruct (dget "primary_key" d) as [f|]; [|done]. inv_ok Hb. subst a.
    destruct (truthy f); simpl in *.
    + inv_ok Hb0. subst a0. destruct (dget "name" d); [|done]. by inv_ok Hb; subst.
    + inv_ok Hb0. by subst.
Qed.

Lemma constraint_fold_spec (key_constraints : list value) : ∀ pk pk',
  foldM_res (λ pk kc,
      let* cols := subscript (K:=table_id) kc "columns" in
      let* items := py_iter cols in
      Ok (pk ++ items)) pk key_constraints = Ok pk' →
  pk' = pk ++ flat_map constraint_columns key_constraints.
Proof.
  induction key_constraints as [|kc kcs IH]; intros pk pk' Hf; simpl in Hf.
  - inv_ok Hf. subst. by rewrite app_nil_r.
  - inv_ok Hf. inv_ok Hb. subst a. apply IH in Hf as ->.
    rewrite <- app_assoc. f_equal.
    simpl. f_equal. unfold constraint_columns.
    destruct kc; simpl in Hb0; try done.
    destruct (dget "columns" d); [|done]. inv_ok Hb0. subst. by rewrite Hb1.
Qed.

Lemma get_pk_from_columns_and_constraints_spec (self self' : dict) (cols : list value) :
  dget "columns" self = Some (VList cols) →
  get_pk_from_columns_and_constraints self = Ok self' →
  ∃ cols',
    dget "columns" self' = Some (VList cols')
    ∧ Forall2 (λ c c', del_item (K:=table_id) c "primary_key" = Ok c') cols cols'
    ∧ dget "primary_key" self' =
      Some (VList (flagged_names cols
                   ++ constraint_pk_names (dict_get "constraints" self)))
    ∧ ∀ k, k ≠ "columns" → k ≠ "primary_key" → dget k self' = dget k self.
Proof.
  intros Hcols Hg. unfold get_pk_from_columns_and_constraints, getattr in Hg.
  rewrite Hcols in Hg. simpl in Hg.
  destruct (pk_scan cols) as [[pk0 cols0]|] eqn:Hscan; simpl in Hg; [|done].
  apply pk_scan_spec in Hscan as [-> HF].
  rewrite dget_dset_ne in Hg by done.
  unfold dict_get.
  destruct (dget "constraints" self) as [cv|]; simpl in Hg; [|done].
  destruct cv as [| | | | |cd]; simpl in Hg; try done.
  assert (Hpk : ∃ pk, self' = dset "primary_key" (VList pk) (dset "columns" (VList cols0) self)
                      ∧ pk = flagged_names cols ++ constraint_pk_names (VDict cd)).
  { unfold constraint_pk_names.
    destruct (dget "primary_keys" cd) as [pv|]; simpl in Hg.
    2:{ inv_ok Hg. subst. rewrite app_nil_r. eauto. }
    destruct (truthy pv) eqn:Ht; simpl in Hg.
    2:{ inv_ok Hg. subst. eexists; split; [done|].
        rewrite <- (app_nil_r (flagged_names cols)) at 1. f_equal.
        destruct pv as [| | | |[|]|]; done. }
    destruct (py_iter pv) as [kcs|] eqn:Hit; simpl in Hg; [|done].
    destruct (foldM_res _ (flagged_names cols) kcs) as [pk|] eqn:Hfold;
      simpl in Hg; [|done].
    inv_ok Hg. subst self'. eexists; split; [done|].
    pose proof (constraint_fold_spec _ _ _ Hfold) as ->. f_equal.
    destruct pv as [| | |s|l|d]; simpl in Hit; try done; inv_ok Hit; subst kcs.
    - destruct s; [done|]. done.
    - done.
    - destruct d as [|[k v] d]; done. }
  destruct Hpk as (pk & -> & ->).
  exists cols0.
  split; [by rewrite dget_dset_ne, dget_dset_eq|].
  split; [done|].
  split; [by rewrite dget_dset_eq|].
  intros k Hk1 Hk2. by rewrite !dget_dset_ne.
Qed.

Lemma del_item_spec (c c' : value) (k : string) :
  del_item (K:=table_id) c k = Ok c' →
  ∃ d, c = VDict d ∧ c' = VDict (ddel k d).
Proof.
  destruct c; simpl; try done. destruct (has_key k d); [|done].
  intros Hd. inv_ok Hd. eauto.
Qed.

(** The loop body "if column name in container: column[key] = v". *)
Lemma mark_spec (key : string) (v container c c' : value) :
  (let* name := subscript (K:=table_id) c "name" in
   let* b := py_in name container in
   if b then set_item c key v else Ok c) = Ok c' →
  ∃ d n (b : bool),
    c = VDict d ∧ dget "name" d = Some n ∧ py_in (K:=table_id) n container = Ok b
    ∧ c' = if b then VDict (dset key v d) else c.
Proof.
  destruct c as [| | | | |d]; simpl; try done.
  destruct (dget "name" d) as [n|] eqn:Hn; simpl; [|done].
  destruct (py_in n container) as [b|] eqn:Hin; simpl; [|done].
  intros Hm. exists d, n, b. destruct b; simpl in Hm; inv_ok Hm; subst; done.
Qed.

Lemma remove_pk_from_columns_spec (self self' : dict) (cols : list value) :
  dget "columns" self = Some (VList cols) →
  remove_pk_from_columns self = Ok self' →
  ∃ cols',
    self' = dset "columns" (VList cols') self
    ∧ Forall2 (λ c c', del_item (K:=table_id) c "primary_key" = Ok c') cols cols'.
Proof.
  intros Hcols Hr. unfold remove_pk_from_columns, getattr in Hr.
  rewrite Hcols in Hr. simpl in Hr.
  destruct (mapM_res _ cols) as [cols'|] eqn:Hm; simpl in Hr; [|done].
  inv_ok Hr. subst. exists cols'. split; [done|]. by apply mapM_res_Forall2.
Qed.

Lemma add_unique_columns_spec (self self' : dict) (cols : list value) :
  dget "columns" self = Some (VList cols) →
  add_unique_columns self = Ok self' →
  ∃ cols',
    self' = dset "columns" (VList cols') self
    ∧ Forall2 (λ c c', ∃ d, c = VDict d
                 ∧ (c' = c ∨ c' = VDict (dset "unique" (VBool true) d)))
        cols cols'.
Proof.
  intros Hcols Hr. unfold add_unique_columns, getattr in Hr.
  rewrite Hcols in Hr. simpl in Hr.
  destruct (dget "unique" self) as [u|]; simpl in Hr; [|done].
  destruct (mapM_res _ cols) as [cols'|] eqn:Hm; simpl in Hr; [|done].
  inv_ok Hr. subst. exists cols'. split; [done|].
  apply mapM_res_Forall2 in Hm.
  eapply Forall2_impl; [exact Hm|]. intros c c' Hc. simpl in Hc.
  apply mark_spec in Hc as (d & n & b & -> & _ & _ & ->).
  exists d. destruct b; auto.
Qed.

(** What the resolution leaves of the column [c]: a column [c'] of the
    same name without the transient flag, not nullable when its name is
    in the primary key [pk]. *)
Definition resolved_column (pk c c' : value) : Prop :=
  ∃ d', c' = VDict d'
        ∧ dget "primary_key" d' = None
        ∧ dget "name" d' = column_name c
        ∧ ∀ n, dget "name" d' = Some n →
               py_in (K:=table_id) n pk = Ok true →
               dget "nullable" d' = Some (VBool false).

(** [populate_keys]: the primary key of a table whose declared list is
    empty, the flag of every column and the nullability of the key
    columns. *)
Lemma populate_keys_resolves (self self' : dict) (cols : list value) :
  dget "columns" self = Some (VList cols) →
  populate_keys self = Ok self' →
  ∃ cols' pk,
    dget "columns" self' = Some (VList cols')
    ∧ dget "primary_key" self' = Some pk
    ∧ (truthy (dict_get "primary_key" self) = false →
       pk = VList (flagged_names cols
                   ++ constraint_pk_names (dict_get "constraints" self)))
    ∧ Forall2 (resolved_column pk) cols cols'.
Proof.
  intros Hcols Hp. unfold populate_keys in Hp.
  unfold getattr at 1 in Hp. unfold dict_get at 1.
  destruct (dget "primary_key" self) as [declared|] eqn:Hdecl; simpl in Hp; [|done].
  assert (Hfirst : ∃ s1 cols1 pk,
    (if negb (truthy declared)
     then get_pk_from_columns_and_constraints self
     else remove_pk_from_columns self) = Ok s1
    ∧ dget "columns" s1 = Some (VList cols1)
    ∧ Forall2 (λ c c', del_item (K:=table_id) c "primary_key" = Ok c') cols cols1
    ∧ dget "primary_key" s1 = Some pk
    ∧ (truthy declared = false →
       pk = VList (flagged_names cols
                   ++ constraint_pk_names (dict_get "constraints" self)))).
  { destruct (truthy declared); simpl in *.
    - destruct (remove_pk_from_columns self) as [s1|] eqn:H1; simpl in Hp; [|done].
      destruct (remove_pk_from_columns_spec _ _ _ Hcols H1) as (cols1 & -> & HF).
      exists (dset "columns" (VList cols1) self), cols1, declared.
      rewrite dget_dset_eq, dget_dset_ne by done. done.
    - destruct (get_pk_from_columns_and_constraints self) as [s1|] eqn:H1;
        simpl in Hp; [|done].
      destruct (get_pk_from_columns_and_constraints_spec _ _ _ Hcols H1)
        as (cols1 & Hc1 & HF & Hpk & _).
      exists s1, cols1. eexists. done. }
  destruct Hfirst as (s1 & cols1 & pk & Hs1 & Hc1 & HF1 & Hpk1 & Hpkv).
  rewrite Hs1 in Hp. simpl in Hp.
  destruct (getattr s1 "unique") as [u|] eqn:Hu; simpl in Hp; [|done].
  assert (Hsecond : ∃ s2 cols2,
    (if truthy u then add_unique_columns s1 else Ok s1) = Ok s2
    ∧ dget "columns" s2 = Some (VList cols2)
    ∧ Forall2 (λ c c', ∃ d, c = VDict d
                 ∧ (c' = c ∨ c' = VDict (dset "unique" (VBool true) d)))
        cols1 cols2
    ∧ dget "primary_key" s2 = Some pk).
  { destruct (truthy u).
    - destruct (add_unique_columns s1) as [s2|] eqn:H2; simpl in Hp; [|done].
      destruct (add_unique_columns_spec _ _ _ Hc1 H2) as (cols2 & -> & HF).
      exists (dset "columns" (VList cols2) s1), cols2.
      rewrite dget_dset_eq, dget_dset_ne by done. done.
    - exists s1, cols1. split; [done|]. split; [done|]. split; [|done].
      clear -HF1. induction HF1 as [|c c' l l' Hc _ IH]; constructor; [|done].
      apply del_item_spec in Hc as (d & -> & ->). eauto. }
  destruct Hsecond as (s2 & cols2 & Hs2 & Hc2 & HF2 & Hpk2).
  rewrite Hs2 in Hp. simpl in Hp. unfold getattr in Hp.
  rewrite Hc2, Hpk2 in Hp. simpl in Hp.
  destruct (mapM_res _ cols2) as [cols3|] eqn:Hm; simpl in Hp; [|done].
  inv_ok Hp. subst self'. apply mapM_res_Forall2 in Hm.
  exists cols3, pk.
  split; [by rewrite dget_dset_eq|].
  split; [by rewrite dget_dset_ne|].
  split; [done|].
  pose proof (Forall2_compose _ _ _ _ _ (Forall2_compose _ _ _ _ _ HF1 HF2) Hm) as HF.
  eapply Forall2_impl; [exact HF|]. clear.
  intros c c3 (c2 & (c1 & Hstrip & (d1 & -> & Hmark)) & Hnul). simpl in Hnul.
  apply del_item_spec in Hstrip as (d & -> & Hd1). injection Hd1 as ->.
  apply mark_spec in Hnul as (d2 & n & b & -> & Hn & Hin & ->).
  assert (Hd2 : dget "primary_key" d2 = None ∧ dget "name" d2 = dget "name" d).
  { destruct Hmark as [Hm|Hm]; injection Hm as ->.
    - by rewrite dget_ddel_eq, dget_ddel_ne.
    - by rewrite !dget_dset_ne, dget_ddel_eq, dget_ddel_ne. }
  destruct Hd2 as [Hpk Hname]. unfold resolved_column. simpl.
  destruct b.
  - eexists; split; [done|]. rewrite !dget_dset_ne by done.
    split; [done|]. split; [done|]. intros. apply dget_dset_eq.
  - exists d2. split; [done|]. split; [done|]. split; [done|].
    intros n' Hn' Hin'. congruence.
Qed.

(** *** What the steps of [__post_init__] leave alone *)

(** [s'] is [s] up to the attributes [ks]; no attribute is removed. *)
Definition same_except (ks : list string) (s s' : dict) : Prop :=
  (∀ k, k ∉ ks → dget k s' = dget k s)
  ∧ (∀ k, has_key k s = true → has_key k s' = true).

Lemma same_except_refl (ks : list string) (s : dict) : same_except ks s s.
Proof. split; done. Qed.

Lemma same_except_trans (ks : list string) (s1 s2 s3 : dict) :
  same_except ks s1 s2 → same_except ks s2 s3 → same_except ks s1 s3.
Proof.
  intros [H1 K1] [H2 K2]. split.
  - intros k Hk. rewrite H2, H1 by done. done.
  - intros k Hk. auto.
Qed.

(** Membership in a list of attribute names given in full. *)
Ltac names_solver := clear; set_solver.

Lemma same_except_weaken (ks ks' : list string) (s s' : dict) :
  ks ⊆ ks' → same_except ks s s' → same_except ks' s s'.
Proof.
  intros Hsub [H1 K1]. split; [|done]. intros k Hk. apply H1.
  intros Hin. apply Hk, Hsub, Hin.
Qed.

Lemma has_key_dset {A} (k k' : string) (v : A) (d : list (string * A)) :
  has_key k' d = true → has_key k' (dset k v d) = true.
Proof.
  intros Hk. destruct (String.eqb_spec k k') as [->|Hne].
  - unfold has_key. by rewrite dget_dset_eq.
  - by rewrite has_key_dset_ne.
Qed.

Lemma same_except_dset (k : string) (v : value) (ks : list string) (s : dict) :
  k ∈ ks → same_except ks s (dset k v s).
Proof.
  intros Hk. split.
  - intros k' Hk'. apply dget_dset_ne. intros ->. done.
  - intros k'. apply has_key_dset.
Qed.

Lemma set_column_unique_param_frame (self self' : dict) (key : string) :
  set_column_unique_param self key = Ok self' →
  same_except ["columns"] self self'.
Proof.
  unfold set_column_unique_param. intros Hs.
  destruct (getattr self "columns"); simpl in Hs; [|done].
  destruct (for_each _ a); simpl in Hs; [|done].
  inv_ok Hs. subst. apply same_except_dset. names_solver.
Qed.

Lemma set_unique_columns_frame (self self' : dict) :
  set_unique_columns self = Ok self' → same_except ["columns"] self self'.
Proof.
  unfold set_unique_columns. simpl. intros Hs.
  destruct (truthy (getattr_default self "unique_statement" VNone)).
  - destruct (set_column_unique_param self "unique_statement") as [s1|] eqn:H1;
      simpl in Hs; [|done].
    apply set_column_unique_param_frame in H1.
    destruct (truthy (getattr_default s1 "constraints" VNone)).
    + destruct (set_column_unique_param s1 "constraints") as [s2|] eqn:H2;
        simpl in Hs; [|done].
      apply set_column_unique_param_frame in H2. inv_ok Hs. subst.
      by eapply same_except_trans.
    + simpl in Hs. inv_ok Hs. by subst.
  - simpl in Hs.
    destruct (truthy (getattr_default self "constraints" VNone)).
    + destruct (set_column_unique_param self "constraints") as [s2|] eqn:H2;
        simpl in Hs; [|done].
      apply set_column_unique_param_frame in H2. inv_ok Hs. by subst.
    + simpl in Hs. inv_ok Hs. subst. apply same_except_refl.
Qed.

Lemma populate_keys_frame (self self' : dict) :
  populate_keys self = Ok self' →
  same_except ["columns"; "primary_key"] self self'.
Proof.
  unfold populate_keys. intros Hp.
  destruct (getattr self "primary_key") as [declared|]; simpl in Hp; [|done].
  assert (Hfirst : ∀ s1,
    (if negb (truthy declared)
     then get_pk_from_columns_and_constraints self
     else remove_pk_from_columns self) = Ok s1 →
    same_except ["columns"; "primary_key"] self s1).
  { intros s1 H1. destruct (truthy declared); simpl in H1.
    - unfold remove_pk_from_columns in H1.
      destruct (getattr self "columns"); simpl in H1; [|done].
      destruct (for_each _ a); simpl in H1; [|done].
      inv_ok H1. subst. apply same_except_dset. names_solver.
    - unfold get_pk_from_columns_and_constraints in H1.
      destruct (getattr self "columns"); simpl in H1; [|done].
      match type of H1 with bind ?m _ = _ => destruct m end; simpl in H1; [|done].
      destruct (getattr _ "constraints"); simpl in H1; [|done].
      destruct (get_method _ "primary_keys" VNone); simpl in H1; [|done].
      match type of H1 with bind ?m _ = _ => destruct m end; simpl in H1; [|done].
      inv_ok H1. subst.
      eapply same_except_trans; apply same_except_dset; names_solver. }
  match type of Hp with bind ?m _ = _ => destruct m as [s1|] eqn:H1 end;
    simpl in Hp; [|done].
  specialize (Hfirst _ eq_refl). clear H1.
  destruct (getattr s1 "unique") as [u|]; simpl in Hp; [|done].
  assert (Hsecond : ∀ s2,
    (if truthy u then add_unique_columns s1 else Ok s1) = Ok s2 →
    same_except ["columns"; "primary_key"] s1 s2).
  { intros s2 H2. destruct (truthy u).
    - unfold add_unique_columns in H2.
      destruct (getattr s1 "columns"); simpl in H2; [|done].
      destruct (getattr s1 "unique"); simpl in H2; [|done].
      destruct (for_each _ a); simpl in H2; [|done].
      inv_ok H2. subst. apply same_except_dset. names_solver.
    - inv_ok H2. subst. apply same_except_refl. }
  match type of Hp with bind ?m _ = _ => destruct m as [s2|] eqn:H2 end;
    simpl in Hp; [|done].
  specialize (Hsecond _ eq_refl). clear H2.
  destruct (getattr s2 "columns"); simpl in Hp; [|done].
  destruct (getattr s2 "primary_key"); simpl in Hp; [|done].
  destruct (for_each _ a); simpl in Hp; [|done].
  inv_ok Hp. subst.
  eapply same_except_trans; [exact Hfirst|].
  eapply same_except_trans; [exact Hsecond|].
  apply same_except_dset. names_solver.
Qed.

Lemma foldM_res_inv {A S} (f : S → A → res S) (P : S → Prop) (l : list A) :
  (∀ s x s', P s → f s x = Ok s' → P s') →
  ∀ s s', P s → foldM_res f s l = Ok s' → P s'.
Proof.
  intros Hstep. induction l as [|x l IH]; intros s s' Hs Hf; simpl in Hf.
  - inv_ok Hf. by subst.
  - destruct (f s x) as [s1|] eqn:H1; simpl in Hf; [|done]. eauto.
Qed.

Lemma normalize_ref_columns_frame (self self' : dict) :
  normalize_ref_columns_in_final_output self = Ok self' →
  same_except ["columns"; "ref_columns"] self self'.
Proof.
  unfold normalize_ref_columns_in_final_output. intros Hn.
  destruct (getattr self "ref_columns") as [rc|]; simpl in Hn; [|done].
  destruct (py_iter rc) as [refs|]; simpl in Hn; [|done].
  match type of Hn with bind ?m _ = _ => destruct m as [r|] eqn:Hf end;
    simpl in Hn; [|done].
  assert (Hr : same_except ["columns"; "ref_columns"] self r.2).
  { revert Hf. apply (foldM_res_inv _
      (λ acc, same_except ["columns"; "ref_columns"] self acc.2));
      [|apply same_except_refl].
    intros acc col_ref acc' Hacc Hstep.
    destruct (subscript col_ref "name"); simpl in Hstep; [|done].
    destruct (getattr acc.2 "columns"); simpl in Hstep; [|done].
    match type of Hstep with bind ?m _ = _ => destruct m end;
      simpl in Hstep; [|done].
    inv_ok Hstep. subst acc'. simpl.
    eapply same_except_trans; [exact Hacc|]. apply same_except_dset. names_solver. }
  inv_ok Hn. subst self'. destruct rc; try done.
  eapply same_except_trans; [exact Hr|]. apply same_except_dset. names_solver.
Qed.

Lemma post_init_BaseData_frame (self self' : dict) :
  post_init BaseData self = Ok self' →
  same_except ["columns"; "primary_key"; "ref_columns"] self self'.
Proof.
  unfold post_init. intros Hp.
  destruct (set_unique_columns self) as [s1|] eqn:H1; simpl in Hp; [|done].
  destruct (populate_keys s1) as [s2|] eqn:H2; simpl in Hp; [|done].
  destruct (normalize_ref_columns_in_final_output s2) as [s3|] eqn:H3;
    simpl in Hp; [|done].
  inv_ok Hp. subst.
  apply set_unique_columns_frame in H1.
  apply populate_keys_frame in H2.
  apply normalize_ref_columns_frame in H3.
  eapply same_except_trans;
    [eapply same_except_weaken; [|exact H1]; names_solver|].
  eapply same_except_trans;
    [eapply same_except_weaken; [|exact H2]; names_solver|].
  eapply same_except_weaken; [|exact H3]. names_solver.
Qed.

(** *** The field filter *)

(** The classification of a field, read off the metadata, and the
    rule of the specification: always-excluded, then not-provided, then
    empty, then dialect restriction; the first that applies excludes. *)
Definition classified (flag : field → bool) (cls : dataclass) (fld : string) : bool :=
  existsb (λ f, String.eqb fld (f_name f) && flag f) (dataclass_fields cls).

Definition restricted_to_other_dialects (self : dict) (f : field) : bool :=
  match output_modes f with
  | Some modes =>
      negb (existsb (λ m, py_eq m (getattr_default self "output_mode" VNone)) modes)
  | None => false
  end.

Definition filter_cascade (cls : dataclass) (self init_data : dict) (fld : string)
  : bool :=
  if classified exclude_always cls fld then false
  else if classified exclude_if_not_provided cls fld && negb (has_key fld init_data)
  then false
  else if classified exclude_if_empty cls fld
          && negb (truthy (getattr_default self fld VNone))
  then false
  else if classified (restricted_to_other_dialects self) cls fld then false
  else true.

Lemma classified_guarded (flag : field → bool) (cls : dataclass) (fld : string) :
  classified exclude_always cls fld = false →
  existsb (λ f, String.eqb fld (f_name f) && negb (exclude_always f) && flag f)
    (dataclass_fields cls)
  = classified flag cls fld.
Proof.
  unfold classified. induction (dataclass_fields cls) as [|f l IH]; simpl; [done|].
  intros Hal. apply orb_false_iff in Hal as [Hf Hl]. rewrite IH by done.
  f_equal. destruct (String.eqb fld (f_name f)); simpl in *; [|done].
  by rewrite Hf.
Qed.

Lemma filter_out_output_cascade (cls : dataclass) (self init_data : dict)
    (fld : string) :
  dget "init_data" self = Some (VDict init_data) →
  filter_out_output cls self fld = Ok (filter_cascade cls self init_data fld).
Proof.
  intros Hinit. unfold filter_out_output, filter_cascade.
  change (in_exclude_always cls fld) with (classified exclude_always cls fld).
  destruct (classified exclude_always cls fld) eqn:Hal; [done|].
  unfold in_exclude_if_not_provided, in_exclude_if_empty,
    in_exclude_by_dialect_filter.
  rewrite (classified_guarded exclude_if_not_provided), (classified_guarded exclude_if_empty)
    by done.
  rewrite (classified_guarded (restricted_to_other_dialects self)) by done.
  destruct (classified exclude_if_not_provided cls fld); simpl.
  - unfold getattr. rewrite Hinit. simpl.
    destruct (has_key fld init_data); simpl; [|done].
    destruct (classified exclude_if_empty cls fld
              && negb (truthy (getattr_default self fld VNone))); [done|].
    by destruct (classified (restricted_to_other_dialects self) cls fld).
  - destruct (classified exclude_if_empty cls fld
              && negb (truthy (getattr_default self fld VNone))); [done|].
    by destruct (classified (restricted_to_other_dialects self) cls fld).
Qed.

Lemma to_dict_from_lookup (cls : dataclass) (self : dict) (items : dict) :
  ∀ out, to_dict_from cls self items = Ok out →
  ∀ fld,
    (has_key fld items = false → has_key fld out = false)
    ∧ (has_key fld items = true →
       ∃ b, filter_out_output cls self fld = Ok b
            ∧ dget fld out = if b then dget fld items else None).
Proof.
  induction items as [|[k v] items IH]; intros out Ht fld; simpl in Ht.
  - inv_ok Ht. subst. split; done.
  - destruct (filter_out_output cls self k) as [keep|] eqn:Hk; simpl in Ht; [|done].
    destruct (to_dict_from cls self items) as [out0|] eqn:H0; simpl in Ht; [|done].
    inv_ok Ht. subst out. destruct (IH _ eq_refl fld) as [IHn IHy].
    unfold has_key in *. simpl.
    destruct (String.eqb_spec fld k) as [->|Hne].
    + split; [done|]. intros _. exists keep. split; [done|].
      destruct keep; simpl.
      * by rewrite String.eqb_refl.
      * destruct (dget k items) eqn:Hi.
        -- destruct IHy as (b & Hb & Hout); [done|].
           rewrite Hk in Hb. injection Hb as <-. done.
        -- destruct (dget k out0); [|done]. by discriminate IHn.
    + destruct keep; simpl.
      * destruct (String.eqb_spec fld k); [done|]. split; done.
      * split; done.
Qed.

(** *** The raw input kept by [pre_load_mods] *)

Lemma has_key_dupdate {A} (other d : list (string * A)) (k : string) :
  has_key k (dupdate d other) = has_key k d || has_key k other.
Proof.
  unfold dupdate. revert d. induction other as [|[k0 v0] other IH]; intros d; simpl.
  - by rewrite orb_false_r.
  - rewrite IH. unfold has_key. simpl.
    destruct (String.eqb_spec k k0) as [->|Hne].
    + rewrite dget_dset_eq. simpl. by rewrite orb_true_r.
    + rewrite dget_dset_ne by done. done.
Qed.

Lemma has_key_filter {A} (p : string → bool) (d : list (string * A)) (k : string) :
  has_key k (List.filter (λ kv, p kv.1) d) = has_key k d && p k.
Proof.
  unfold has_key. induction d as [|[k0 v0] d IH]; simpl; [done|].
  destruct (p k0) eqn:Hp; simpl.
  - destruct (String.eqb_spec k k0) as [->|Hne]; [by rewrite Hp | done].
  - destruct (String.eqb_spec k k0) as [->|Hne]; [|done].
    rewrite IH, Hp. by rewrite andb_false_r.
Qed.

(** The "init_data" that [pre_load_mods] builds has the keys of the
    keyword dictionary it works on. *)
Lemma pre_load_mods_init_data (cls : dataclass) (kwargs : dict) :
  ∃ init_data,
    dget "init_data" (pre_load_mods cls kwargs).2 = Some (VDict init_data)
    ∧ ∀ k, has_key k init_data = has_key k (pre_load_mods cls kwargs).1.
Proof.
  unfold pre_load_mods. simpl. rewrite dget_dset_eq.
  eexists; split; [done|]. intros k.
  rewrite !has_key_dupdate. simpl.
  rewrite (has_key_filter (λ k, negb (has_key k _))).
  rewrite (has_key_filter (is_field cls)).
  match goal with |- context [has_key k ?d] => destruct (has_key k d) end;
    simpl; [|done].
  by destruct (is_field cls k).
Qed.



Lemma to_dict_presence (cls : dataclass) (self init_data out : dict) (fld : string) :
  dget "init_data" self = Some (VDict init_data) →
  to_dict cls self = Ok out →
  has_key fld self = true →
  has_key fld out = filter_cascade cls self init_data fld.
Proof.
  intros Hinit Ht Hfld.
  destruct (to_dict_from_lookup _ _ _ _ Ht fld) as [_ Hy].
  destruct (Hy Hfld) as (b & Hb & Hout).
  rewrite (filter_out_output_cascade _ _ _ _ Hinit) in Hb. injection Hb as <-.
  unfold has_key in *. rewrite Hout.
  destruct (filter_cascade cls self init_data fld); done.
Qed.


(** *** The table registry *)

(** A CREATE INDEX record and an ALTER record, as the dispatch of
    [format] and [process_alter_and_index_result] tells them apart,
    with the schema and table name they carry. *)
Definition index_record (self : Output) (statement : dict)
    (schema table_name : value) : Prop :=
  truthy (dict_get "index_name" statement) = true
  ∧ dget (schema_key self) statement = Some schema
  ∧ dget "table_name" statement = Some table_name.

Definition alter_record (statement : dict) (schema table_name : value) : Prop :=
  truthy (dict_get "index_name" statement) = false
  ∧ truthy table_name = true
  ∧ dget "schema" statement = Some schema
  ∧ dget "alter_table_name" statement = Some table_name.

Lemma foldM_res_app {A S} (f : S → A → res S) (l1 l2 : list A) (s : S) :
  foldM_res f s (l1 ++ l2) = let* s1 := foldM_res f s l1 in foldM_res f s1 l2.
Proof.
  revert s. induction l1 as [|x l1 IH]; intros s; simpl; [done|].
  destruct (f s x); simpl; [apply IH | done].
Qed.

Lemma format_step_unknown_table (self : Output) (statement : dict)
    (schema table_name : value) (id : table_id) :
  index_record self statement schema table_name
  ∨ alter_record statement schema table_name →
  get_table_id schema table_name = Ok id →
  tables_dict self !! id = None →
  format_step self statement = Err (ValueError id).
Proof.
  intros Hrec Hid Hnone. unfold format_step, process_alter_and_index_result.
  destruct Hrec as [(Hidx & Hs & Ht) | (Hidx & Htr & Hs & Ht)].
  - assert (has_key "index_name" statement = true) as ->.
    { unfold has_key, dict_get in *. by destruct (dget "index_name" statement). }
    simpl. rewrite Hidx. unfold add_index_to_table, dsubscript.
    rewrite Hs, Ht. simpl. unfold get_table_from_tables_data.
    rewrite Hid. simpl. by rewrite Hnone.
  - assert (has_key "alter_table_name" statement = true) as ->.
    { unfold has_key. by rewrite Ht. }
    rewrite orb_true_r, Hidx. unfold dict_get. rewrite Ht, Htr.
    unfold add_alter_to_table, dsubscript. rewrite Hs, Ht. simpl.
    unfold get_table_from_tables_data. rewrite Hid. simpl. by rewrite Hnone.
Qed.

(** *** The steps of [format] on the state *)

(** What one statement does to the state: a table is built, stored and
    emitted; a record is emitted; a registered table is updated in
    place; or nothing happens. *)
Inductive step_effect (self : Output) (statement : dict) : Output → Prop :=
| step_create id table_data ks :
    truthy (dict_get "table_name" statement) = true →
    step_effect self statement
      (emit (register self id table_data) (OTable (length (store self)) ks))
| step_pass data :
    truthy (dict_get "table_name" statement) = false →
    dialects_clean_up (output_mode self) statement = Ok data →
    step_effect self statement (emit self (ORecord data))
| step_alter schema table_name id o target_table target_table' :
    alter_record statement schema table_name →
    get_table_id schema table_name = Ok id →
    tables_dict self !! id = Some o →
    store self !! o = Some target_table →
    apply_alter target_table statement = Ok target_table' →
    step_effect self statement (with_store self (<[o := target_table']> (store self)))
| step_index schema table_name id o target_table statement' index index' :
    index_record self statement schema table_name →
    get_table_id schema table_name = Ok id →
    tables_dict self !! id = Some o →
    store self !! o = Some target_table →
    clean_up_index_statement self statement = Ok statement' →
    dget "index" target_table = Some index →
    py_append (K:=table_id) index (VDict statement') = Ok index' →
    step_effect self statement
      (with_store self (<[o := dset "index" index' target_table]> (store self)))
| step_skip :
    has_key "index_name" statement || has_key "alter_table_name" statement = true →
    truthy (dict_get "index_name" statement) = false →
    truthy (dict_get "alter_table_name" statement) = false →
    step_effect self statement self.

Lemma get_table_from_tables_data_Ok (self : Output) (schema table_name : value)
    (o : nat) (target_table : dict) :
  get_table_from_tables_data self schema table_name = Ok (o, target_table) →
  ∃ id, get_table_id schema table_name = Ok id
        ∧ tables_dict self !! id = Some o
        ∧ store self !! o = Some target_table.
Proof.
  unfold get_table_from_tables_data. intros Hg.
  destruct (get_table_id schema table_name) as [id|]; simpl in Hg; [|done].
  destruct (tables_dict self !! id) as [o'|] eqn:Ho; [|done].
  destruct (store self !! o') as [t|] eqn:Ht; [|done].
  simplify_eq. eauto.
Qed.

Lemma format_step_effect (self self' : Output) (statement : dict) :
  format_step self statement = Ok self' → step_effect self statement self'.
Proof.
  unfold format_step. intros Hs.
  destruct (has_key "index_name" statement || has_key "alter_table_name" statement)
    eqn:Hkind.
  - unfold process_alter_and_index_result in Hs.
    destruct (truthy (dict_get "index_name" statement)) eqn:Hidx.
    + unfold add_index_to_table, dsubscript in Hs.
      destruct (dget (schema_key self) statement) as [schema|] eqn:Hsch;
        simpl in Hs; [|done].
      destruct (dget "table_name" statement) as [tn|] eqn:Htn; simpl in Hs; [|done].
      destruct (get_table_from_tables_data self schema tn) as [[o t]|] eqn:Hg;
        simpl in Hs; [|done].
      apply get_table_from_tables_data_Ok in Hg as (id & Hid & Ho & Ht).
      destruct (clean_up_index_statement self statement) as [st'|] eqn:Hcl;
        simpl in Hs; [|done].
      unfold getattr in Hs.
      destruct (dget "index" t) as [index|] eqn:Hi; simpl in Hs; [|done].
      destruct (py_append index (VDict st')) as [index'|] eqn:Hap;
        simpl in Hs; [|done].
      inv_ok Hs. subst self'. by eapply step_index.
    + destruct (truthy (dict_get "alter_table_name" statement)) eqn:Halt.
      * unfold add_alter_to_table, dsubscript in Hs.
        destruct (dget "schema" statement) as [schema|] eqn:Hsch;
          simpl in Hs; [|done].
        destruct (dget "alter_table_name" statement) as [tn|] eqn:Htn;
          simpl in Hs; [|done].
        destruct (get_table_from_tables_data self schema tn) as [[o t]|] eqn:Hg;
          simpl in Hs; [|done].
        apply get_table_from_tables_data_Ok in Hg as (id & Hid & Ho & Ht).
        destruct (apply_alter t statement) as [t'|] eqn:Hap; simpl in Hs; [|done].
        inv_ok Hs. subst self'. eapply step_alter; try done.
        unfold alter_record. unfold dict_get in Halt. rewrite Htn in Halt. done.
      * inv_ok Hs. subst. by apply step_skip.
  - unfold process_statement_data in Hs.
    destruct (truthy (dict_get "table_name" statement)) eqn:Htab.
    + destruct (TableData_init _) as [built|]; simpl in Hs; [|done].
      destruct (getattr built.2 (schema_key self)); simpl in Hs; [|done].
      destruct (getattr built.2 "table_name"); simpl in Hs; [|done].
      destruct (get_table_id a a0) as [id|]; simpl in Hs; [|done].
      destruct (to_dict built.1 built.2); simpl in Hs; [|done].
      inv_ok Hs. subst. by apply step_create.
    + destruct (dialects_clean_up (output_mode self) statement) as [data|] eqn:Hcl;
        simpl in Hs; [|done].
      inv_ok Hs. subst. by apply step_pass.
Qed.

(** Every registered id points into the store. *)
Definition registry_wf (self : Output) : Prop :=
  ∀ id o, tables_dict self !! id = Some o → (o < length (store self))%nat.

Lemma step_effect_wf (self self' : Output) (statement : dict) :
  step_effect self statement self' → registry_wf self → registry_wf self'.
Proof.
  intros Hstep Hwf id' o'. destruct Hstep; simpl; try apply Hwf.
  - rewrite length_app. simpl. intros Hl.
    apply lookup_insert_Some in Hl as [[_ <-]|[_ Hl]]; [lia|].
    apply Hwf in Hl. lia.
  - rewrite length_insert. apply Hwf.
  - rewrite length_insert. apply Hwf.
Qed.

Lemma format_loop_wf (parser_output : list dict) (self self' : Output) :
  format_loop self parser_output = Ok self' → registry_wf self → registry_wf self'.
Proof.
  unfold format_loop. intros Hl Hwf. revert Hl.
  apply (foldM_res_inv format_step registry_wf); [|done].
  intros s x s' Hs Hstep. apply format_step_effect in Hstep.
  by eapply step_effect_wf.
Qed.

Lemma Output_init_wf (mode : string) (g : bool) : registry_wf (Output_init mode g).
Proof. intros id o. simpl. by rewrite lookup_empty. Qed.

(** C1: when an ALTER or CREATE INDEX record names a table id under
    which nothing is registered, processing it raises the [ValueError]
    that carries the missing id, and [format] ends with that error
    whatever follows; and the lookup returns the table object
    registered under the id whenever there is one. *)
Theorem unknown_table_aborts (mode : string) (g : bool) (self : Output)
    (pre rest : list dict) (statement : dict) (schema table_name : value)
    (id : table_id) :
  format_loop (Output_init mode g) pre = Ok self →
  get_table_id schema table_name = Ok id →
  (index_record self statement schema table_name
   ∨ alter_record statement schema table_name →
   tables_dict self !! id = None →
   format_step self statement = Err (ValueError id)
   ∧ format (Output_init mode g) (pre ++ statement :: rest) = Err (ValueError id))
  ∧ (∀ o, tables_dict self !! id = Some o →
       ∃ target_table,
         store self !! o = Some target_table
         ∧ get_table_from_tables_data self schema table_name
           = Ok (o, target_table)).
Proof.
  intros Hpre Hid. split.
  - intros Hrec Hnone.
    pose proof (format_step_unknown_table _ _ _ _ _ Hrec Hid Hnone) as Hstep.
    split; [done|]. unfold format, format_loop in *.
    rewrite foldM_res_app, Hpre. simpl. by rewrite Hstep.
  - intros o Ho.
    pose proof (format_loop_wf _ _ _ Hpre (Output_init_wf mode g) _ _ Ho) as Hlt.
    apply lookup_lt_is_Some in Hlt as [target_table Hst].
    exists target_table. split; [done|]. unfold get_table_from_tables_data.
    rewrite Hid. simpl. by rewrite Ho, Hst.
Qed.

(** The statements [format] appends an entry for. *)
Definition emitted (statement : dict) : bool :=
  negb (has_key "index_name" statement || has_key "alter_table_name" statement).

Ltac run_binds H :=
  repeat (match type of H with bind ?m _ = _ => destruct m end;
          simpl in H; [|done]).

Lemma format_step_final_result (self self' : Output) (statement : dict) :
  format_step self statement = Ok self' →
  output_mode self' = output_mode self
  ∧ group_by_type self' = group_by_type self
  ∧ ∃ more, final_result self' = final_result self ++ more
            ∧ length more = length (List.filter emitted [statement]).
Proof.
  intros Hs. unfold format_step in Hs. simpl. unfold emitted.
  destruct (has_key "index_name" statement || has_key "alter_table_name" statement)
    eqn:Hkind; simpl.
  - assert (output_mode self' = output_mode self
            ∧ group_by_type self' = group_by_type self
            ∧ final_result self' = final_result self) as (-> & -> & ->).
    { unfold process_alter_and_index_result in Hs.
      destruct (truthy (dict_get "index_name" statement)).
      - unfold add_index_to_table in Hs. run_binds Hs. by simplify_eq.
      - destruct (truthy (dict_get "alter_table_name" statement)).
        + unfold add_alter_to_table in Hs. run_binds Hs. by simplify_eq.
        + by simplify_eq. }
    split; [done|]. split; [done|]. exists []. by rewrite app_nil_r.
  - destruct (process_statement_data self statement) as [[s1 item]|] eqn:Hp;
      simpl in Hs; [|done].
    inv_ok Hs. subst self'. simpl.
    assert (output_mode s1 = output_mode self ∧ group_by_type s1 = group_by_type self
            ∧ final_result s1 = final_result self) as (-> & -> & ->).
    { unfold process_statement_data in Hp.
      destruct (truthy (dict_get "table_name" statement)).
      - run_binds Hp. by simplify_eq.
      - run_binds Hp. by simplify_eq. }
    split; [done|]. split; [done|]. by exists [item].
Qed.

Lemma format_loop_final_result (parser_output : list dict) : ∀ (self self' : Output),
  format_loop self parser_output = Ok self' →
  output_mode self' = output_mode self
  ∧ group_by_type self' = group_by_type self
  ∧ ∃ more, final_result self' = final_result self ++ more
            ∧ length more = length (List.filter emitted parser_output).
Proof.
  unfold format_loop.
  induction parser_output as [|st l IH]; intros self self' Hl; simpl in Hl.
  - inv_ok Hl. subst. split; [done|]. split; [done|]. exists [].
    by rewrite app_nil_r.
  - destruct (format_step self st) as [s1|] eqn:Hs; simpl in Hl; [|done].
    apply format_step_final_result in Hs as (Hm & Hg & more1 & Hf1 & Hl1).
    apply IH in Hl as (Hm' & Hg' & more2 & Hf2 & Hl2).
    split; [congruence|]. split; [congruence|].
    exists (more1 ++ more2). rewrite Hf2, Hf1, <- app_assoc. split; [done|].
    rewrite length_app, Hl1, Hl2. simpl.
    destruct (emitted st); simpl; lia.
Qed.

(** C8 (as amended): a record without a (truthy) "table_name" that is
    not an ALTER or CREATE INDEX record (it has no "index_name" and no
    "alter_table_name" key) is not registered; with [group_by_type]
    off, the result holds the record as [dialects_clean_up] leaves it,
    at its position among the records that are not ALTER or CREATE
    INDEX records. *)
Theorem pass_through_record (mode : string) (pre rest : list dict)
    (statement data : dict) (self : Output) :
  truthy (dict_get "table_name" statement) = false →
  has_key "index_name" statement = false →
  has_key "alter_table_name" statement = false →
  dialects_clean_up mode statement = Ok data →
  format_loop (Output_init mode false) pre = Ok self →
  format_step self statement = Ok (emit self (ORecord data))
  ∧ tables_dict (emit self (ORecord data)) = tables_dict self
  ∧ ∀ result,
      format (Output_init mode false) (pre ++ statement :: rest) = Ok result →
      ∃ items, result = VList items
               ∧ items !! length (List.filter emitted pre) = Some (VDict data).
Proof.
  intros Htab Hidx Halt Hclean Hpre.
  destruct (format_loop_final_result _ _ _ Hpre) as (Hmode & Hgroup & more & Hfr & Hlen).
  simpl in Hmode, Hgroup, Hfr.
  assert (Hstep : format_step self statement = Ok (emit self (ORecord data))).
  { unfold format_step, process_statement_data.
    rewrite Hidx, Halt, Htab, Hmode, Hclean. done. }
  split; [done|]. split; [done|].
  intros result Hres. unfold format in Hres.
  destruct (format_loop _ (pre ++ statement :: rest)) as [selfN|] eqn:HN;
    simpl in Hres; [|done].
  unfold format_loop in HN, Hpre. rewrite foldM_res_app, Hpre in HN.
  simpl in HN. rewrite Hstep in HN. simpl in HN.
  destruct (format_loop_final_result _ _ _ HN) as (_ & HgN & moreN & HfrN & _).
  simpl in HgN, HfrN. rewrite HgN, Hgroup in Hres. inv_ok Hres. subst result.
  eexists; split; [done|].
  rewrite HfrN, Hfr, <- Hlen. rewrite !list_lookup_fmap.
  rewrite <- app_assoc. simpl. rewrite list_lookup_middle by done. done.
Qed.

(** *** The unique flag of a column over the run *)

Definition is_unique (c : value) : Prop :=
  ∃ d, c = VDict d ∧ dget "unique" d = Some (VBool true).

(** [c'] is what a step made of the column [c]: still unique if [c] was. *)
Definition keeps_unique (c c' : value) : Prop := is_unique c → is_unique c'.

Lemma keeps_unique_refl (c : value) : keeps_unique c c.
Proof. by intros ?. Qed.

Lemma Forall2_keeps_unique_refl (l : list value) : Forall2 keeps_unique l l.
Proof. induction l; constructor; [apply keeps_unique_refl | done]. Qed.

Lemma Forall2_keeps_unique_trans (l1 l2 l3 : list value) :
  Forall2 keeps_unique l1 l2 → Forall2 keeps_unique l2 l3 →
  Forall2 keeps_unique l1 l3.
Proof.
  intros H12 H23. pose proof (Forall2_compose _ _ _ _ _ H12 H23) as H13.
  eapply Forall2_impl; [exact H13|]. intros c c' (c0 & Ha & Hb) Hu. auto.
Qed.

Lemma set_item_keeps_unique (c c' : value) (k : string) (v : value) :
  set_item (K:=table_id) c k v = Ok c' →
  k ≠ "unique" ∨ v = VBool true →
  keeps_unique c c'.
Proof.
  destruct c as [| | | | |d]; simpl; try done. intros Hs Hk (d0 & Hd & Hu).
  inv_ok Hs. subst c'. injection Hd as <-. eexists; split; [done|].
  destruct (String.eqb_spec k "unique") as [->|Hne].
  - destruct Hk as [?| ->]; [done|]. apply dget_dset_eq.
  - by rewrite dget_dset_ne.
Qed.

Lemma del_item_keeps_unique (c c' : value) :
  del_item (K:=table_id) c "primary_key" = Ok c' → keeps_unique c c'.
Proof.
  intros Hd (d0 & -> & Hu). apply del_item_spec in Hd as (d & Hd & ->).
  injection Hd as <-. eexists; split; [done|]. by rewrite dget_ddel_ne.
Qed.

Lemma mark_keeps_unique (key : string) (v container c c' : value) :
  key ≠ "unique" ∨ v = VBool true →
  (let* name := subscript (K:=table_id) c "name" in
   let* b := py_in name container in
   if b then set_item c key v else Ok c) = Ok c' →
  keeps_unique c c'.
Proof.
  intros Hk Hm. apply mark_spec in Hm as (d & n & b & -> & _ & _ & ->).
  destruct b; [|apply keeps_unique_refl].
  by apply (set_item_keeps_unique _ _ key v).
Qed.

Lemma for_each_keeps_unique (f : value → res value) (l : list value) (v : value) :
  (∀ c c', f c = Ok c' → keeps_unique c c') →
  for_each f (VList l) = Ok v →
  ∃ l', v = VList l' ∧ Forall2 keeps_unique l l'.
Proof.
  intros Hf Hfe. apply for_each_list in Hfe as (l' & -> & HF).
  exists l'. split; [done|]. eapply Forall2_impl; [exact HF|]. apply Hf.
Qed.

(** A step of the build on the columns of the table. *)
Definition columns_keep_unique (self self' : dict) : Prop :=
  ∀ cols, dget "columns" self = Some (VList cols) →
  ∃ cols', dget "columns" self' = Some (VList cols')
           ∧ Forall2 keeps_unique cols cols'.

Lemma columns_keep_unique_refl (self : dict) : columns_keep_unique self self.
Proof. intros cols Hc. eauto using Forall2_keeps_unique_refl. Qed.

Lemma columns_keep_unique_trans (s1 s2 s3 : dict) :
  columns_keep_unique s1 s2 → columns_keep_unique s2 s3 →
  columns_keep_unique s1 s3.
Proof.
  intros H12 H23 cols Hc. destruct (H12 _ Hc) as (cols2 & Hc2 & HF2).
  destruct (H23 _ Hc2) as (cols3 & Hc3 & HF3).
  eauto using Forall2_keeps_unique_trans.
Qed.

Lemma columns_keep_unique_dset (self : dict) (k : string) (v : value) :
  k ≠ "columns" → columns_keep_unique self (dset k v self).
Proof.
  intros Hk cols Hc. exists cols. rewrite dget_dset_ne by done.
  eauto using Forall2_keeps_unique_refl.
Qed.

Lemma columns_keep_unique_for_each (self : dict) (f : value → res value)
    (cv cv' : value) :
  (∀ c c', f c = Ok c' → keeps_unique c c') →
  getattr self "columns" = Ok cv →
  for_each f cv = Ok cv' →
  columns_keep_unique self (dset "columns" cv' self).
Proof.
  intros Hf Hg Hfe cols Hc. unfold getattr in Hg. rewrite Hc in Hg.
  inv_ok Hg. subst cv.
  destruct (for_each_keeps_unique _ _ _ Hf Hfe) as (l' & -> & HF).
  exists l'. by rewrite dget_dset_eq.
Qed.

(** The steps that write one attribute of the columns, for any
    relation [R] on columns that such a write respects. *)
Section ColumnsRelated.
Context (R : value → value → Prop) {R_refl : Reflexive R} {R_trans : Transitive R}.
Set Default Proof Using "R_refl R_trans".

Definition columns_related (self self' : dict) : Prop :=
  ∀ cols, dget "columns" self = Some (VList cols) →
  ∃ cols', dget "columns" self' = Some (VList cols') ∧ Forall2 R cols cols'.

Lemma columns_related_refl (self : dict) : columns_related self self.
Proof. intros cols Hc. exists cols. split; [done|]. by apply Forall_Forall2_diag, Forall_true. Qed.

Lemma columns_related_trans (s1 s2 s3 : dict) :
  columns_related s1 s2 → columns_related s2 s3 → columns_related s1 s3.
Proof.
  intros H12 H23 cols Hc. destruct (H12 _ Hc) as (cols2 & Hc2 & HF2).
  destruct (H23 _ Hc2) as (cols3 & Hc3 & HF3).
  exists cols3. split; [done|].
  pose proof (Forall2_compose _ _ _ _ _ HF2 HF3) as HF.
  eapply Forall2_impl; [exact HF|]. intros c c' (c0 & Ha & Hb). by etrans.
Qed.

Lemma columns_related_dset (self : dict) (k : string) (v : value) :
  k ≠ "columns" → columns_related self (dset k v self).
Proof.
  intros Hk cols Hc. exists cols. rewrite dget_dset_ne by done.
  split; [done|]. by apply Forall_Forall2_diag, Forall_true.
Qed.

Lemma columns_related_for_each (self : dict) (f : value → res value)
    (cv cv' : value) :
  (∀ c c', f c = Ok c' → R c c') →
  getattr self "columns" = Ok cv →
  for_each f cv = Ok cv' →
  columns_related self (dset "columns" cv' self).
Proof.
  intros Hf Hg Hfe cols Hc. unfold getattr in Hg. rewrite Hc in Hg.
  inv_ok Hg. subst cv.
  apply for_each_list in Hfe as (l' & -> & HF).
  exists l'. rewrite dget_dset_eq. split; [done|].
  eapply Forall2_impl; [exact HF|]. apply Hf.
Qed.

Lemma mark_related (key : string) (v container c c' : value) :
  (∀ c c', set_item (K:=table_id) c key v = Ok c' → R c c') →
  (let* name := subscript (K:=table_id) c "name" in
   let* b := py_in name container in
   if b then set_item c key v else Ok c) = Ok c' →
  R c c'.
Proof.
  intros HR Hm. destruct (subscript c "name") as [n|]; simpl in Hm; [|done].
  destruct (py_in n container) as [[|]|]; simpl in Hm; [by apply HR| |done].
  inv_ok Hm. by subst.
Qed.

Lemma set_unique_columns_related (self self' : dict) :
  (∀ c c', set_item (K:=table_id) c "unique" (VBool true) = Ok c' → R c c') →
  set_unique_columns self = Ok self' → columns_related self self'.
Proof.
  intros HR.
  assert (Hparam : ∀ s key s',
    set_column_unique_param s key = Ok s' → columns_related s s').
  { unfold set_column_unique_param. intros s key s' Hs.
    destruct (getattr s "columns") as [cv|] eqn:Hg; simpl in Hs; [|done].
    destruct (for_each _ cv) as [cv'|] eqn:Hfe; simpl in Hs; [|done].
    inv_ok Hs. subst s'.
    eapply columns_related_for_each; [|exact Hg|exact Hfe].
    intros c c' Hc. simpl in Hc.
    match type of Hc with bind ?m _ = _ => destruct m as [check_in|] end;
      simpl in Hc; [|done].
    by eapply mark_related. }
  assert (Hone : ∀ s key s',
    (if truthy (getattr_default s key VNone)
     then set_column_unique_param s key else Ok s) = Ok s' →
    columns_related s s').
  { intros s key s' H1. destruct (truthy _); [by eapply Hparam|].
    inv_ok H1. subst. apply columns_related_refl. }
  unfold set_unique_columns. simpl. intros Hs.
  match type of Hs with bind ?m _ = _ => destruct m as [s1|] eqn:H1 end;
    simpl in Hs; [|done].
  match type of Hs with bind ?m _ = _ => destruct m as [s2|] eqn:H2 end;
    simpl in Hs; [|done].
  inv_ok Hs. subst.
  eapply columns_related_trans; eauto.
Qed.

Lemma attach_ref_related (name : value) (cols : list value) :
  (∀ c c' v, set_item (K:=table_id) c "references" v = Ok c' → R c c') →
  ∀ col_ref r, attach_ref name col_ref cols = Ok r → Forall2 R cols r.2.
Proof.
  intros HR. induction cols as [|c cols IH]; intros col_ref r Ha; simpl in Ha.
  - inv_ok Ha. subst. constructor.
  - destruct (subscript c "name") as [cname|]; simpl in Ha; [|done].
    match type of Ha with bind ?m _ = _ => destruct m as [[ref1 c1]|] eqn:H1 end;
      simpl in Ha; [|done].
    destruct (attach_ref name ref1 cols) as [r'|] eqn:H2; simpl in Ha; [|done].
    inv_ok Ha. subst r. simpl. constructor; [|by eapply IH].
    destruct (py_eq name cname).
    + destruct (del_item col_ref "name") as [ref'|]; simpl in H1; [|done].
      destruct (set_item c "references" ref') as [c'|] eqn:Hs; simpl in H1; [|done].
      simplify_eq. by eapply HR.
    + by simplify_eq.
Qed.

Lemma normalize_ref_columns_related (self self' : dict) :
  (∀ c c' v, set_item (K:=table_id) c "references" v = Ok c' → R c c') →
  normalize_ref_columns_in_final_output self = Ok self' →
  columns_related self self'.
Proof.
  intros HR. unfold normalize_ref_columns_in_final_output. intros Hn.
  destruct (getattr self "ref_columns") as [rc|]; simpl in Hn; [|done].
  destruct (py_iter rc) as [refs|]; simpl in Hn; [|done].
  match type of Hn with bind ?m _ = _ => destruct m as [r|] eqn:Hf end;
    simpl in Hn; [|done].
  assert (Hr : columns_related self r.2).
  { revert Hf. apply (foldM_res_inv _ (λ acc, columns_related self acc.2));
      [|apply columns_related_refl].
    intros acc col_ref acc' Hacc Hstep.
    destruct (subscript col_ref "name") as [name|]; simpl in Hstep; [|done].
    destruct (getattr acc.2 "columns") as [cv|] eqn:Hg; simpl in Hstep; [|done].
    match type of Hstep with bind ?m _ = _ => destruct m as [r1|] eqn:H1 end;
      simpl in Hstep; [|done].
    inv_ok Hstep. subst acc'. simpl.
    eapply columns_related_trans; [exact Hacc|].
    intros cols Hc. unfold getattr in Hg. rewrite Hc in Hg. inv_ok Hg. subst cv.
    destruct (attach_ref name col_ref cols) as [r2|] eqn:H2; simpl in H1; [|done].
    inv_ok H1. subst r1. simpl. rewrite dget_dset_eq.
    eexists; split; [done|]. by eapply attach_ref_related. }
  inv_ok Hn. subst self'. destruct rc; try done.
  eapply columns_related_trans; [exact Hr|].
  by apply columns_related_dset.
Qed.
End ColumnsRelated.
Set Default Proof Using "Type".

Global Instance keeps_unique_reflexive : Reflexive keeps_unique.
Proof. intros c. apply keeps_unique_refl. Qed.

Global Instance keeps_unique_transitive : Transitive keeps_unique.
Proof. intros c1 c2 c3 H12 H23 Hu. auto. Qed.

Lemma set_unique_columns_keeps (self self' : dict) :
  set_unique_columns self = Ok self' → columns_keep_unique self self'.
Proof.
  apply (set_unique_columns_related keeps_unique).
  intros c c' Hs. eapply set_item_keeps_unique; [exact Hs|]. by right.
Qed.

Lemma normalize_ref_columns_keeps (self self' : dict) :
  normalize_ref_columns_in_final_output self = Ok self' →
  columns_keep_unique self self'.
Proof.
  apply (normalize_ref_columns_related keeps_unique).
  intros c c' v Hs. eapply set_item_keeps_unique; [exact Hs|]. by left.
Qed.

Lemma Forall2_del_item_keeps (cols cols' : list value) :
  Forall2 (λ c c', del_item (K:=table_id) c "primary_key" = Ok c') cols cols' →
  Forall2 keeps_unique cols cols'.
Proof.
  intros HF. eapply Forall2_impl; [exact HF|]. apply del_item_keeps_unique.
Qed.

Lemma populate_keys_keeps (self self' : dict) :
  populate_keys self = Ok self' → columns_keep_unique self self'.
Proof.
  unfold populate_keys. intros Hp.
  destruct (getattr self "primary_key") as [declared|]; simpl in Hp; [|done].
  match type of Hp with bind ?m _ = _ => destruct m as [s1|] eqn:H1 end;
    simpl in Hp; [|done].
  assert (K1 : columns_keep_unique self s1).
  { intros cols Hc. destruct (truthy declared); simpl in H1.
    - destruct (remove_pk_from_columns_spec _ _ _ Hc H1) as (cols1 & -> & HF).
      exists cols1. rewrite dget_dset_eq. eauto using Forall2_del_item_keeps.
    - destruct (get_pk_from_columns_and_constraints_spec _ _ _ Hc H1)
        as (cols1 & Hc1 & HF & _).
      eauto using Forall2_del_item_keeps. }
  destruct (getattr s1 "unique") as [u|]; simpl in Hp; [|done].
  match type of Hp with bind ?m _ = _ => destruct m as [s2|] eqn:H2 end;
    simpl in Hp; [|done].
  assert (K2 : columns_keep_unique s1 s2).
  { destruct (truthy u).
    - unfold add_unique_columns in H2.
      destruct (getattr s1 "columns") as [cv|] eqn:Hg; simpl in H2; [|done].
      destruct (getattr s1 "unique") as [uv|]; simpl in H2; [|done].
      destruct (for_each _ cv) as [cv'|] eqn:Hfe; simpl in H2; [|done].
      inv_ok H2. subst s2.
      eapply columns_keep_unique_for_each; [|exact Hg|exact Hfe].
      intros c c'. apply mark_keeps_unique. by right.
    - inv_ok H2. subst. apply columns_keep_unique_refl. }
  destruct (getattr s2 "columns") as [cv|] eqn:Hg; simpl in Hp; [|done].
  destruct (getattr s2 "primary_key") as [pk|]; simpl in Hp; [|done].
  destruct (for_each _ cv) as [cv'|] eqn:Hfe; simpl in Hp; [|done].
  inv_ok Hp. subst self'.
  eapply columns_keep_unique_trans; [exact K1|].
  eapply columns_keep_unique_trans; [exact K2|].
  eapply columns_keep_unique_for_each; [|exact Hg|exact Hfe].
  intros c c'. apply mark_keeps_unique. by left.
Qed.

Lemma post_init_BaseData_keeps (self self' : dict) :
  post_init BaseData self = Ok self' → columns_keep_unique self self'.
Proof.
  unfold post_init. intros Hp.
  destruct (set_unique_columns self) as [s1|] eqn:H1; simpl in Hp; [|done].
  destruct (populate_keys s1) as [s2|] eqn:H2; simpl in Hp; [|done].
  destruct (normalize_ref_columns_in_final_output s2) as [s3|] eqn:H3;
    simpl in Hp; [|done].
  inv_ok Hp. subst.
  eapply columns_keep_unique_trans; [by apply set_unique_columns_keeps|].
  eapply columns_keep_unique_trans; [by apply populate_keys_keeps|].
  by apply normalize_ref_columns_keeps.
Qed.

(** An ALTER step on the columns of the table: either the column list
    stays in place, every column keeping its unique mark, or columns
    are removed whole and the columns left are columns of before, as
    they were and in their order. *)
Definition alter_keeps_unique (t t' : dict) : Prop :=
  ∀ cols, dget "columns" t = Some (VList cols) →
  ∃ cols', dget "columns" t' = Some (VList cols')
           ∧ (Forall2 keeps_unique cols cols' ∨ cols' `sublist_of` cols).

Lemma columns_keep_alter_keeps (t t' : dict) :
  columns_keep_unique t t' → alter_keeps_unique t t'.
Proof.
  intros Hk cols Hc. destruct (Hk _ Hc) as (cols' & Hc' & HF).
  exists cols'. split; [done|]. by left.
Qed.

Lemma rename_first_keeps (renamed_column : value) (cols : list value) :
  ∀ cols', rename_first renamed_column cols = Ok cols' →
  Forall2 keeps_unique cols cols'.
Proof.
  induction cols as [|c cols IH]; intros cols' Hr; simpl in Hr.
  - inv_ok Hr. subst. constructor.
  - destruct (subscript renamed_column "from") as [old|]; simpl in Hr; [|done].
    destruct (normalize_name old) as [a|]; simpl in Hr; [|done].
    destruct (subscript c "name") as [cname|]; simpl in Hr; [|done].
    destruct (normalize_name cname) as [b|]; simpl in Hr; [|done].
    destruct (py_eq a b).
    + destruct (subscript renamed_column "to") as [new|]; simpl in Hr; [|done].
      destruct (set_item c "name" new) as [c'|] eqn:Hs; simpl in Hr; [|done].
      inv_ok Hr. subst. constructor; [|apply Forall2_keeps_unique_refl].
      eapply set_item_keeps_unique; [exact Hs|]. by left.
    + destruct (rename_first renamed_column cols) as [rest'|] eqn:H1;
        simpl in Hr; [|done].
      inv_ok Hr. subst. constructor; [apply keeps_unique_refl | by apply IH].
Qed.

Lemma alter_rename_columns_keeps (t t' statement : dict) :
  alter_rename_columns t statement = Ok t' → columns_keep_unique t t'.
Proof.
  unfold alter_rename_columns. intros Hr.
  destruct (dsubscript statement "columns_to_rename") as [v|]; simpl in Hr; [|done].
  destruct (py_iter v) as [pairs|]; simpl in Hr; [|done].
  match type of Hr with bind ?m _ = _ => destruct m as [t1|] eqn:Hf end;
    simpl in Hr; [|done].
  assert (K1 : columns_keep_unique t t1).
  { revert Hf. apply (foldM_res_inv _ (λ s, columns_keep_unique t s));
      [|apply columns_keep_unique_refl].
    intros s rc s' Hs Hstep.
    eapply columns_keep_unique_trans; [exact Hs|].
    destruct (getattr s "columns") as [cv|] eqn:Hg; simpl in Hstep; [|done].
    intros cols Hc. unfold getattr in Hg. rewrite Hc in Hg. inv_ok Hg. subst cv.
    destruct (rename_first rc cols) as [l'|] eqn:H1; simpl in Hstep; [|done].
    inv_ok Hstep. subst s'. rewrite dget_dset_eq.
    eexists; split; [done|]. by eapply rename_first_keeps. }
  run_binds Hr. inv_ok Hr. subst t'.
  eapply columns_keep_unique_trans; [exact K1|].
  by apply columns_keep_unique_dset.
Qed.

Lemma set_alter_to_table_data_keeps (key : string) (statement t : dict)
    (r : dict * dict) :
  set_alter_to_table_data key statement t = Ok r →
  columns_keep_unique t r.2.
Proof.
  unfold set_alter_to_table_data. intros Hs. run_binds Hs.
  inv_ok Hs. subst r. simpl. by apply columns_keep_unique_dset.
Qed.

Lemma set_unique_columns_from_alter_keeps (statement t t' : dict) :
  set_unique_columns_from_alter statement t = Ok t' → columns_keep_unique t t'.
Proof.
  unfold set_unique_columns_from_alter. intros Hs.
  destruct (getattr t "columns") as [cv|] eqn:Hg; simpl in Hs; [|done].
  destruct (for_each _ cv) as [cv'|] eqn:Hfe; simpl in Hs; [|done].
  inv_ok Hs. subst t'.
  eapply columns_keep_unique_for_each; [|exact Hg|exact Hfe].
  intros c c' Hc. simpl in Hc. run_binds Hc. revert Hc.
  apply (foldM_res_inv _ (λ x, keeps_unique c x)); [|apply keeps_unique_refl].
  intros x n x' Hx Hstep Hu. specialize (Hx Hu).
  destruct (subscript x "name") as [cname|]; simpl in Hstep; [|done].
  destruct (py_eq cname n).
  - eapply set_item_keeps_unique; [exact Hstep| |exact Hx]. by right.
  - inv_ok Hstep. by subst.
Qed.

Lemma set_default_columns_from_alter_keeps (statement t t' : dict) :
  set_default_columns_from_alter statement t = Ok t' → columns_keep_unique t t'.
Proof.
  unfold set_default_columns_from_alter. intros Hs.
  destruct (getattr t "columns") as [cv|] eqn:Hg; simpl in Hs; [|done].
  destruct (for_each _ cv) as [cv'|] eqn:Hfe; simpl in Hs; [|done].
  inv_ok Hs. subst t'.
  eapply columns_keep_unique_for_each; [|exact Hg|exact Hfe].
  intros c c' Hc. simpl in Hc.
  destruct (dsubscript statement "default") as [payload|]; simpl in Hc; [|done].
  destruct (subscript payload "columns") as [cols|]; simpl in Hc; [|done].
  destruct (truthy cols); [|inv_ok Hc; subst; apply keeps_unique_refl].
  destruct (py_iter cols) as [names|]; simpl in Hc; [|done].
  revert Hc.
  apply (foldM_res_inv _ (λ x, keeps_unique c x)); [|apply keeps_unique_refl].
  intros x n x' Hx Hstep Hu. specialize (Hx Hu).
  destruct (subscript x "name") as [cname|]; simpl in Hstep; [|done].
  destruct (py_eq cname n).
  - destruct (subscript payload "value") as [v|]; simpl in Hstep; [|done].
    eapply set_item_keeps_unique; [exact Hstep| |exact Hx]. by left.
  - inv_ok Hstep. by subst.
Qed.

Lemma record_trace_drop_sublist (names : list value) : ∀ cols,
  (record_trace (drop_steps names) cols).2 `sublist_of` cols.
Proof.
  induction names as [|n names IH]; intros cols; simpl; [done|].
  destruct (find_column (Ok n) cols 0) as [[i|]|]; try apply IH.
  destruct (cols !! i); [|apply IH]. simpl.
  etrans; [apply IH|]. apply sublist_delete.
Qed.

Lemma alter_drop_columns_keeps (t t' statement : dict) :
  alter_drop_columns t statement = Ok t' → alter_keeps_unique t t'.
Proof.
  rewrite alter_drop_columns_record. intros Hd cols Hc.
  destruct (record_statement_spec _ _ _ _ _ _ _ Hc Hd) as (Hc' & _).
  eexists. split; [exact Hc'|]. right.
  apply record_trace_drop_sublist.
Qed.

Lemma apply_alter_keeps (t t' statement : dict) :
  has_key "columns_to_modify" statement = false →
  apply_alter t statement = Ok t' →
  alter_keeps_unique t t'
  ∧ (has_key "columns_to_drop" statement = false → columns_keep_unique t t').
Proof.
  intros Hmod Ha. unfold apply_alter in Ha. rewrite Hmod in Ha.
  assert (Hin_place : columns_keep_unique t t' →
            alter_keeps_unique t t'
            ∧ (has_key "columns_to_drop" statement = false →
               columns_keep_unique t t'))
    by (intros Hk; split; [by apply columns_keep_alter_keeps|done]).
  destruct (has_key "columns" statement); [done|].
  destruct (has_key "columns_to_rename" statement).
  { by apply Hin_place, (alter_rename_columns_keeps _ _ statement). }
  destruct (has_key "columns_to_drop" statement).
  { split; [by apply (alter_drop_columns_keeps _ _ statement)|done]. }
  apply Hin_place.
  destruct (has_key "check" statement).
  { unfold alter_add_check in Ha. run_binds Ha. inv_ok Ha. subst.
    by apply columns_keep_unique_dset. }
  destruct (has_key "unique" statement).
  { destruct (set_alter_to_table_data "unique" statement t) as [r|] eqn:Hr;
      simpl in Ha; [|done].
    eapply columns_keep_unique_trans;
      [by eapply set_alter_to_table_data_keeps|].
    by eapply set_unique_columns_from_alter_keeps. }
  destruct (has_key "default" statement).
  { destruct (set_alter_to_table_data "default" statement t) as [r|] eqn:Hr;
      simpl in Ha; [|done].
    eapply columns_keep_unique_trans;
      [by eapply set_alter_to_table_data_keeps|].
    by eapply set_default_columns_from_alter_keeps. }
  destruct (has_key "primary_key" statement).
  { destruct (set_alter_to_table_data "primary_key" statement t) as [r|] eqn:Hr;
      simpl in Ha; [|done].
    inv_ok Ha. subst. by eapply set_alter_to_table_data_keeps. }
  inv_ok Ha. subst. apply columns_keep_unique_refl.
Qed.

(** *** Primary-key resolution over the whole build *)

(** What [set_unique_columns] may change of a column: neither its name
    nor its primary-key flag. *)
Definition same_flags (c c' : value) : Prop :=
  column_name c' = column_name c ∧ flagged c' = flagged c.

Global Instance same_flags_reflexive : Reflexive same_flags.
Proof. by intros c. Qed.

Global Instance same_flags_transitive : Transitive same_flags.
Proof. intros c1 c2 c3 [H1 K1] [H2 K2]. split; congruence. Qed.

(** What [normalize_ref_columns_in_final_output] may change of a
    column: its "references" entry only. *)
Definition only_references (c c' : value) : Prop :=
  c' = c
  ∨ ∃ d d', c = VDict d ∧ c' = VDict d'
            ∧ ∀ k, k ≠ "references" → dget k d' = dget k d.

Global Instance only_references_reflexive : Reflexive only_references.
Proof. intros c. by left. Qed.

Global Instance only_references_transitive : Transitive only_references.
Proof.
  intros c1 c2 c3 [->|(d1 & d2 & -> & -> & H12)] H23; [done|].
  destruct H23 as [->|(d2' & d3 & Hd & -> & H23)].
  - right. eauto.
  - injection Hd as <-. right. exists d1, d3. split; [done|]. split; [done|].
    intros k Hk. rewrite H23, H12 by done. done.
Qed.

Lemma flagged_names_same_flags (l l' : list value) :
  Forall2 same_flags l l' → flagged_names l' = flagged_names l.
Proof.
  unfold flagged_names. induction 1 as [|c c' l l' [Hn Hf] _ IH]; [done|].
  simpl. rewrite Hf. destruct (flagged c); [|done].
  change (omap column_name (c' :: List.filter flagged l')
          = omap column_name (c :: List.filter flagged l)).
  cbn [omap list_omap]. rewrite Hn.
  change (list_omap value value column_name) with (omap column_name).
  by rewrite IH.
Qed.

Lemma resolved_column_only_references (pk c c1 c2 : value) :
  resolved_column pk c c1 → only_references c1 c2 → resolved_column pk c c2.
Proof.
  intros (d1 & -> & Hpk & Hname & Hnull) [->|(d & d2 & Hd & -> & Hsame)].
  - by exists d1.
  - injection Hd as <-. exists d2. split; [done|].
    rewrite !Hsame by done. done.
Qed.

(** C3: when a table is built ([__post_init__] of [BaseData]) and its
    declared primary key is empty, the resulting "primary_key" is the
    names of the columns carrying a true "primary_key" flag, in column
    order, followed by the column names of the table-level primary-key
    constraints, in declaration order; whether the declared list was
    empty or not, every column loses its "primary_key" flag, and every
    column whose name is in the final primary key has "nullable"
    false. *)
Theorem primary_key_resolution (self self' : dict) (cols : list value) :
  dget "columns" self = Some (VList cols) →
  post_init BaseData self = Ok self' →
  ∃ cols' pk,
    dget "columns" self' = Some (VList cols')
    ∧ dget "primary_key" self' = Some pk
    ∧ (truthy (dict_get "primary_key" self) = false →
       pk = VList (flagged_names cols
                   ++ constraint_pk_names (dict_get "constraints" self)))
    ∧ Forall2 (resolved_column pk) cols cols'.
Proof.
  intros Hcols Hp. unfold post_init in Hp.
  destruct (set_unique_columns self) as [s1|] eqn:H1; simpl in Hp; [|done].
  destruct (populate_keys s1) as [s2|] eqn:H2; simpl in Hp; [|done].
  destruct (normalize_ref_columns_in_final_output s2) as [s3|] eqn:H3;
    simpl in Hp; [|done].
  inv_ok Hp. subst s3.
  pose proof (set_unique_columns_frame _ _ H1) as [Hfr1 _].
  destruct (set_unique_columns_related same_flags self s1) with (cols := cols)
    as (cols1 & Hc1 & HF1); [|done|done|].
  { intros c c' Hs. destruct c; simpl in Hs; try done. inv_ok Hs. subst c'.
    unfold same_flags. simpl. by rewrite !dget_dset_ne. }
  destruct (populate_keys_resolves _ _ _ Hc1 H2) as (cols2 & pk & Hc2 & Hpk2 & Hpkv & HF2).
  pose proof (normalize_ref_columns_frame _ _ H3) as [Hfr3 _].
  destruct (normalize_ref_columns_related only_references s2 self') with (cols := cols2)
    as (cols3 & Hc3 & HF3); [|done|done|].
  { intros c c' v Hs. destruct c; simpl in Hs; try done. inv_ok Hs. subst c'.
    right. eexists _, _. split; [done|]. split; [done|].
    intros k Hk. by rewrite dget_dset_ne. }
  exists cols3, pk. split; [done|].
  split; [by rewrite Hfr3 by names_solver|].
  split.
  - intros Hdecl. unfold dict_get in *.
    rewrite !Hfr1 in Hpkv by names_solver.
    rewrite Hpkv by done. by rewrite (flagged_names_same_flags _ _ HF1).
  - pose proof (Forall2_compose _ _ _ _ _ (Forall2_compose _ _ _ _ _ HF1 HF2) HF3) as HF.
    eapply Forall2_impl; [exact HF|].
    intros c c3 (c2 & (c1 & [Hn _] & Hres) & Href).
    eapply resolved_column_only_references; [|exact Href].
    destruct Hres as (d' & -> & Hpk' & Hname & Hnull).
    exists d'. split; [done|]. split; [done|]. split; [congruence|]. done.
Qed.

(** C4 (as amended): a column that is unique stays unique through
    the build of its table ([__post_init__] of [BaseData]) and through
    every later statement of the run that is not an ALTER MODIFY
    COLUMN, for as long as it is a column of the table.  Such a
    statement either leaves the column list in place, the column at
    every position keeping its unique mark, or removes columns whole,
    and then every column left is a column of before, as it was, in the
    order of before; the second case needs a "columns_to_drop" entry
    in the statement. *)
Theorem unique_is_kept :
  (∀ self self', post_init BaseData self = Ok self' →
                 columns_keep_unique self self')
  ∧ (∀ self self' statement o t,
       format_step self statement = Ok self' →
       has_key "columns_to_modify" statement = false →
       store self !! o = Some t →
       ∃ t', store self' !! o = Some t'
             ∧ (∀ cols, dget "columns" t = Some (VList cols) →
                  ∃ cols', dget "columns" t' = Some (VList cols')
                           ∧ (Forall2 keeps_unique cols cols'
                              ∨ cols' `sublist_of` cols))
             ∧ (has_key "columns_to_drop" statement = false →
                columns_keep_unique t t')).
Proof.
  split; [exact post_init_BaseData_keeps|].
  intros self self' statement o t Hstep Hmod Ho.
  apply format_step_effect in Hstep.
  change (∃ t', store self' !! o = Some t'
                ∧ alter_keeps_unique t t'
                ∧ (has_key "columns_to_drop" statement = false →
                   columns_keep_unique t t')).
  assert (Hin_place : ∀ t', columns_keep_unique t t' →
            alter_keeps_unique t t'
            ∧ (has_key "columns_to_drop" statement = false →
               columns_keep_unique t t'))
    by (intros t' Hk; split; [by apply columns_keep_alter_keeps|done]).
  assert (Hsame : alter_keeps_unique t t
                  ∧ (has_key "columns_to_drop" statement = false →
                     columns_keep_unique t t))
    by apply Hin_place, columns_keep_unique_refl.
  destruct Hstep as [id td ks _ | data _ _
                    | schema tn id o0 t0 t0' _ _ _ Ho0 Hap
                    | schema tn id o0 t0 st' idx idx' _ _ _ Ho0 _ _ _ | _ _ _];
    simpl.
  - exists t. split; [|done]. apply lookup_app_l_Some. done.
  - eauto.
  - destruct (decide (o = o0)) as [->|Hne].
    + rewrite Ho in Ho0. injection Ho0 as <-. exists t0'. split.
      * apply list_lookup_insert_eq. by eapply lookup_lt_Some.
      * by eapply apply_alter_keeps.
    + exists t. by rewrite list_lookup_insert_ne.
  - destruct (decide (o = o0)) as [->|Hne].
    + rewrite Ho in Ho0. injection Ho0 as <-. eexists. split.
      * apply list_lookup_insert_eq. by eapply lookup_lt_Some.
      * by apply Hin_place, columns_keep_unique_dset.
    + exists t. by rewrite list_lookup_insert_ne.
  - eauto.
Qed.

(** *** The registry over a run of ALTER statements *)

(** An ALTER statement changes the one table object registered under
    the id it names, by [apply_alter], and nothing else of the state. *)
Lemma add_alter_to_table_frame (self self' : Output) (statement : dict) :
  add_alter_to_table self statement = Ok self' →
  ∃ schema table_name id o target_table target_table',
    dget "schema" statement = Some schema
    ∧ dget "alter_table_name" statement = Some table_name
    ∧ get_table_id schema table_name = Ok id
    ∧ tables_dict self !! id = Some o
    ∧ store self !! o = Some target_table
    ∧ apply_alter target_table statement = Ok target_table'
    ∧ store self' !! o = Some target_table'
    ∧ (∀ o', o' ≠ o → store self' !! o' = store self !! o')
    ∧ tables_dict self' = tables_dict self
    ∧ final_result self' = final_result self.
Proof.
  unfold add_alter_to_table, dsubscript. intros Ha.
  destruct (dget "schema" statement) as [schema|]; simpl in Ha; [|done].
  destruct (dget "alter_table_name" statement) as [tn|]; simpl in Ha; [|done].
  destruct (get_table_from_tables_data self schema tn) as [[o t]|] eqn:Hg;
    simpl in Ha; [|done].
  apply get_table_from_tables_data_Ok in Hg as (id & Hid & Ho & Ht).
  destruct (apply_alter t statement) as [t'|] eqn:Hap; simpl in Ha; [|done].
  inv_ok Ha. subst self'. simpl.
  exists schema, tn, id, o, t, t'. repeat split; try done.
  - apply list_lookup_insert_eq. by eapply lookup_lt_Some.
  - intros o' Hne. by rewrite list_lookup_insert_ne.
Qed.

(** A statement changes no table object but the one registered under
    the id it names as an ALTER or CREATE INDEX record. *)
Lemma other_tables_untouched (self self' : Output) (statement : dict)
    (o : nat) (t : dict) :
  format_step self statement = Ok self' →
  store self !! o = Some t →
  (∀ schema table_name id,
     index_record self statement schema table_name
     ∨ alter_record statement schema table_name →
     get_table_id schema table_name = Ok id →
     tables_dict self !! id ≠ Some o) →
  store self' !! o = Some t.
Proof.
  intros Hstep Ho Hother. apply format_step_effect in Hstep.
  destruct Hstep as [id td ks _ | data _ _
                    | schema tn id o0 t0 t0' Hrec Hid Hreg _ _
                    | schema tn id o0 t0 st' idx idx' Hrec Hid Hreg _ _ _ _ | _ _ _];
    simpl; try done.
  - by apply lookup_app_l_Some.
  - rewrite list_lookup_insert_ne; [done|]. intros ->.
    by apply (Hother schema tn id); [right|..].
  - rewrite list_lookup_insert_ne; [done|]. intros ->.
    by apply (Hother schema tn id); [left|..].
Qed.

(** A run of ALTER statements that all name the id [id]: the table
    registered under [id] ends as the statements applied to it in
    input order, every other table object is as before. *)
Lemma alters_on_one_table (statements : list dict) (id : table_id) :
  ∀ (self self' : Output) (o : nat) (t : dict),
  Forall (λ st, ∃ schema table_name,
            dget "schema" st = Some schema
            ∧ dget "alter_table_name" st = Some table_name
            ∧ get_table_id schema table_name = Ok id) statements →
  tables_dict self !! id = Some o →
  store self !! o = Some t →
  foldM_res add_alter_to_table self statements = Ok self' →
  ∃ t', foldM_res apply_alter t statements = Ok t'
        ∧ store self' !! o = Some t'
        ∧ (∀ o', o' ≠ o → store self' !! o' = store self !! o')
        ∧ tables_dict self' = tables_dict self
        ∧ final_result self' = final_result self.
Proof.
  induction statements as [|st statements IH]; intros self self' o t Hall Ho Ht Hrun;
    simpl in Hrun.
  - inv_ok Hrun. subst. exists t. done.
  - inversion Hall as [|? ? (schema & tn & Hs & Hn & Hid) Hrest]; subst.
    destruct (add_alter_to_table self st) as [s1|] eqn:H1; simpl in Hrun; [|done].
    apply add_alter_to_table_frame in H1
      as (schema' & tn' & id' & o1 & t1 & t1' & Hs' & Hn' & Hid' & Ho1 & Ht1
          & Hap & Hst1 & Hfr1 & Htd1 & Hfin1).
    assert (schema' = schema) as -> by congruence.
    assert (tn' = tn) as -> by congruence.
    assert (id' = id) as -> by congruence.
    assert (o1 = o) as -> by congruence.
    assert (t1 = t) as -> by congruence.
    destruct (IH s1 self' o t1' Hrest) as (t' & Hfold & Hst & Hfr & Htd & Hfin);
      [by rewrite Htd1 | done | done |].
    exists t'. simpl. rewrite Hap. simpl.
    split; [done|]. split; [done|].
    split; [intros o' Hne; rewrite Hfr, Hfr1 by done; done|].
    split; congruence.
Qed.

(** ** Further properties of the code *)

(** *** The index attacher *)

(** The keys [clean_up_index_statement] deletes. *)
Definition index_echo_keys (self : Output) : list string :=
  schema_key self :: "table_name"
  :: (if negb (String.eqb (output_mode self) "mssql") then ["clustered"] else []).

Lemma schema_key_cases (self : Output) :
  schema_key self = "dataset" ∨ schema_key self = "schema".
Proof. unfold schema_key. destruct (String.eqb _ _); auto. Qed.

Lemma has_key_ddel_ne {A} (k k' : string) (d : list (string * A)) :
  k ≠ k' → has_key k' (ddel k d) = has_key k' d.
Proof. intros. unfold has_key. by rewrite dget_ddel_ne. Qed.

(** X1: [clean_up_index_statement] on a record that has the schema
    key and "table_name" removes the keys it echoes and keeps every
    other entry as it was: "clustered" goes too unless the mode is
    "mssql", and a record without "clustered" in another mode raises
    [KeyError] (in "mssql" mode the key is not looked at). *)
Theorem clean_up_index_statement_spec (self : Output) (statement : dict) :
  has_key (schema_key self) statement = true →
  has_key "table_name" statement = true →
  (String.eqb (output_mode self) "mssql" = true
   ∨ has_key "clustered" statement = true →
   ∃ statement',
     clean_up_index_statement self statement = Ok statement'
     ∧ ∀ k, dget k statement'
            = if bool_decide (k ∈ index_echo_keys self) then None
              else dget k statement)
  ∧ (String.eqb (output_mode self) "mssql" = false →
     has_key "clustered" statement = false →
     clean_up_index_statement self statement = Err (KeyError "clustered")).
Proof.
  intros Hs Ht.
  assert (Hne : schema_key self ≠ "table_name" ∧ schema_key self ≠ "clustered")
    by (destruct (schema_key_cases self) as [-> | ->]; done).
  destruct Hne as [Hne1 Hne2].
  unfold clean_up_index_statement, ddel_item, index_echo_keys.
  rewrite Hs. cbn [bind]. rewrite has_key_ddel_ne, Ht by done. cbn [bind].
  split.
  - intros Hall. destruct (String.eqb (output_mode self) "mssql"); simpl in *.
    + eexists; split; [done|]. intros k.
      case_bool_decide as Hk.
      * apply elem_of_cons in Hk as [->|Hk];
          [by rewrite dget_ddel_ne by done; rewrite dget_ddel_eq|].
        apply list_elem_of_singleton in Hk as ->. apply dget_ddel_eq.
      * rewrite !dget_ddel_ne; [done|..]; intros <-; apply Hk; names_solver.
    + assert (Hc : has_key "clustered" statement = true) by (by destruct Hall).
      rewrite !has_key_ddel_ne, Hc by done.
      eexists; split; [done|]. intros k.
      case_bool_decide as Hk.
      * apply elem_of_cons in Hk as [->|Hk];
          [by do 2 (rewrite dget_ddel_ne by done); rewrite dget_ddel_eq|].
        apply elem_of_cons in Hk as [->|Hk];
          [by rewrite dget_ddel_ne by done; rewrite dget_ddel_eq|].
        apply list_elem_of_singleton in Hk as ->. apply dget_ddel_eq.
      * rewrite !dget_ddel_ne; [done|..]; intros <-; apply Hk; names_solver.
  - intros Hm Hc. rewrite Hm. simpl.
    by rewrite !has_key_ddel_ne, Hc.
Qed.

(** X2: a CREATE INDEX statement on a registered table appends the
    cleaned statement at the end of the table's "index" list; no other
    attribute of the table, no other table object, no registry entry
    and no entry of the result changes. *)
Theorem add_index_to_table_appends (self self' : Output) (statement : dict) :
  add_index_to_table self statement = Ok self' →
  ∃ schema table_name id o target_table index statement',
    dget (schema_key self) statement = Some schema
    ∧ dget "table_name" statement = Some table_name
    ∧ get_table_id schema table_name = Ok id
    ∧ tables_dict self !! id = Some o
    ∧ store self !! o = Some target_table
    ∧ dget "index" target_table = Some (VList index)
    ∧ clean_up_index_statement self statement = Ok statement'
    ∧ store self' !! o
      = Some (dset "index" (VList (index ++ [VDict statement'])) target_table)
    ∧ (∀ o', o' ≠ o → store self' !! o' = store self !! o')
    ∧ tables_dict self' = tables_dict self
    ∧ final_result self' = final_result self.
Proof.
  unfold add_index_to_table, dsubscript. intros Ha.
  destruct (dget (schema_key self) statement) as [schema|]; simpl in Ha; [|done].
  destruct (dget "table_name" statement) as [tn|]; simpl in Ha; [|done].
  destruct (get_table_from_tables_data self schema tn) as [[o t]|] eqn:Hg;
    simpl in Ha; [|done].
  apply get_table_from_tables_data_Ok in Hg as (id & Hid & Ho & Ht).
  destruct (clean_up_index_statement self statement) as [st'|] eqn:Hcl;
    simpl in Ha; [|done].
  unfold getattr in Ha.
  destruct (dget "index" t) as [index|] eqn:Hi; simpl in Ha; [|done].
  destruct index as [| | | |idx|]; simpl in Ha; try done.
  inv_ok Ha. subst self'. simpl.
  exists schema, tn, id, o, t, idx, st'. repeat split; try done.
  - apply list_lookup_insert_eq. by eapply lookup_lt_Some.
  - intros o' Hne. by rewrite list_lookup_insert_ne.
Qed.


(** *** The ledger of ALTER statements *)

Lemma dset_dset {A} (k : string) (v v' : A) (d : list (string * A)) :
  dset k v' (dset k v d) = dset k v' d.
Proof.
  induction d as [|[k0 v0] d IH]; simpl.
  - by rewrite String.eqb_refl.
  - destruct (String.eqb k k0) eqn:E; simpl; rewrite E; [done|]. by rewrite IH.
Qed.

Lemma dset_same {A} (k : string) (v : A) (d : list (string * A)) :
  dget k d = Some v → dset k v d = d.
Proof.
  induction d as [|[k0 v0] d IH]; simpl; [done|].
  destruct (String.eqb k k0) eqn:E.
  - by intros [= ->].
  - intros Hd. by rewrite IH.
Qed.

Lemma init_slot_dict (slot : string) (a : dict) :
  init_slot (VDict a) slot
  = Ok (VDict (if truthy (dict_get slot a) then a else dset slot (VList []) a)).
Proof.
  unfold init_slot, dict_get. simpl.
  by destruct (truthy (match dget slot a with Some x => x | None => VNone end)).
Qed.

(** The entries a list-valued slot of the ledger holds; a slot that is
    missing or falsy is started afresh by [init_slot]. *)
Definition ledger_entries (slot : string) (a : dict) : list value :=
  match dict_get slot a with VList l => l | _ => [] end.

(** [init_slot] followed by an append or an extend of [more]. *)
Lemma ledger_append (slot : string) (alter alter1 slotv slotv' : value)
    (a : dict) (more : list value) :
  alter = VDict a →
  init_slot alter slot = Ok alter1 →
  subscript (K:=table_id) alter1 slot = Ok slotv →
  (∀ l, slotv = VList l → slotv' = VList (l ++ more)) →
  (∃ l, slotv = VList l) →
  set_item (K:=table_id) alter1 slot slotv'
  = Ok (VDict (dset slot (VList (ledger_entries slot a ++ more)) a)).
Proof.
  intros -> Hinit Hsub Hext [l ->].
  apply init_slot_spec in Hinit as (a' & [= <-] & ->).
  unfold ledger_entries. simpl in *.
  destruct (truthy (dict_get slot a)) eqn:Ht.
  - unfold dict_get in *. destruct (dget slot a) as [x|]; [|done].
    injection Hsub as ->. by rewrite (Hext l eq_refl).
  - rewrite dget_dset_eq in Hsub. injection Hsub as <-.
    rewrite (Hext [] eq_refl), dset_dset. simpl.
    by destruct (dict_get slot a) as [| | | |[|]|].
Qed.

(** A column after a rename: the same column, or the same with a new
    value under "name". *)
Definition renamed_only (c c' : value) : Prop :=
  c' = c ∨ ∃ d n, c = VDict d ∧ c' = VDict (dset "name" n d).

Lemma renamed_only_trans (c1 c2 c3 : value) :
  renamed_only c1 c2 → renamed_only c2 c3 → renamed_only c1 c3.
Proof.
  intros [->|(d & n & -> & ->)] [->|(d' & n' & Hd & ->)];
    [by left | right; eauto | right; eauto |].
  injection Hd as <-. right. exists d, n'. by rewrite dset_dset.
Qed.

Lemma rename_first_renamed_only (renamed_column : value) (cols : list value) :
  ∀ cols', rename_first renamed_column cols = Ok cols' →
  Forall2 renamed_only cols cols'.
Proof.
  induction cols as [|c cols IH]; intros cols' Hr; simpl in Hr.
  - injection Hr as <-. constructor.
  - destruct (subscript renamed_column "from") as [old|]; simpl in Hr; [|done].
    destruct (normalize_name old) as [a|]; simpl in Hr; [|done].
    destruct (subscript c "name") as [cname|]; simpl in Hr; [|done].
    destruct (normalize_name cname) as [b|]; simpl in Hr; [|done].
    destruct (py_eq a b).
    + destruct (subscript renamed_column "to") as [new|]; simpl in Hr; [|done].
      destruct c as [| | | | |d]; simpl in Hr; try done.
      injection Hr as <-.
      constructor; [right; eauto|].
      apply Forall_Forall2_diag, Forall_forall. by left.
    + destruct (rename_first renamed_column cols) as [rest'|] eqn:H1;
        simpl in Hr; [|done].
      injection Hr as <-. constructor; [by left | by apply IH].
Qed.

(** X3: [alter_rename_columns] keeps the number and the order of the
    columns and changes nothing of a column but the value under
    "name"; the pairs of the statement are appended to the
    "renamed_columns" list of the ledger, after the pairs of earlier
    statements, whether or not a column matched; no attribute besides
    "columns" and "alter" changes. *)
Theorem alter_rename_columns_spec (t t' statement a : dict) (cols : list value) :
  dget "columns" t = Some (VList cols) →
  dget "alter" t = Some (VDict a) →
  alter_rename_columns t statement = Ok t' →
  ∃ cols',
    dget "columns" t' = Some (VList cols')
    ∧ Forall2 renamed_only cols cols'
    ∧ dget "alter" t'
      = Some (VDict (dset "renamed_columns"
                       (VList (ledger_entries "renamed_columns" a
                               ++ statement_items "columns_to_rename" statement))
                       a))
    ∧ ∀ k, k ≠ "columns" → k ≠ "alter" → dget k t' = dget k t.
Proof.
  intros Hcols Halter Hr. unfold alter_rename_columns, dsubscript in Hr.
  unfold statement_items.
  destruct (dget "columns_to_rename" statement) as [ctr|]; simpl in Hr; [|done].
  destruct (py_iter ctr) as [pairs|] eqn:Hpairs; simpl in Hr; [|done].
  set (body := λ (target_table : dict) (renamed_column : value), _) in Hr.
  destruct (foldM_res body t pairs) as [t1|] eqn:Hfold; simpl in Hr; [|done].
  assert (Hinv : (∀ k, k ≠ "columns" → dget k t1 = dget k t)
                 ∧ ∃ cols', dget "columns" t1 = Some (VList cols')
                            ∧ Forall2 renamed_only cols cols').
  { revert Hfold.
    apply (foldM_res_inv body
             (λ s, (∀ k, k ≠ "columns" → dget k s = dget k t)
                   ∧ ∃ cols', dget "columns" s = Some (VList cols')
                              ∧ Forall2 renamed_only cols cols')).
    - intros s x s' [Hframe (c1 & Hc1 & Hrel)] Hb. unfold body, getattr in Hb.
      rewrite Hc1 in Hb. simpl in Hb.
      destruct (rename_first x c1) as [l'|] eqn:Hrf; simpl in Hb; [|done].
      injection Hb as <-. split.
      + intros k Hk. by rewrite dget_dset_ne, Hframe.
      + exists l'. split; [apply dget_dset_eq|].
        apply rename_first_renamed_only in Hrf.
        clear -Hrel Hrf. revert l' Hrf.
        induction Hrel; intros l2 Hrf; inversion Hrf; subst; constructor;
          eauto using renamed_only_trans.
    - split; [done|]. exists cols. split; [done|].
      apply Forall_Forall2_diag, Forall_forall. by left. }
  destruct Hinv as [Hframe (cols' & Hc' & Hrel)].
  unfold getattr in Hr. rewrite Hframe, Halter in Hr by done. simpl in Hr.
  destruct (init_slot (VDict a) "renamed_columns") as [a1|] eqn:Hinit;
    simpl in Hr; [|done].
  destruct (subscript a1 "renamed_columns") as [slotv|] eqn:Hsub;
    simpl in Hr; [|done].
  destruct (py_extend slotv ctr) as [slotv'|] eqn:Hext; simpl in Hr; [|done].
  assert (Hl : ∃ l, slotv = VList l).
  { destruct slotv; simpl in Hext; try done. eauto. }
  rewrite (ledger_append "renamed_columns" (VDict a) a1 slotv slotv' a pairs)
    in Hr; try done.
  - simpl in Hr. injection Hr as <-. exists cols'. repeat split.
    + by rewrite dget_dset_ne.
    + done.
    + apply dget_dset_eq.
    + intros k Hk1 Hk2. by rewrite dget_dset_ne, Hframe.
  - intros l ->. simpl in Hext. rewrite Hpairs in Hext. simpl in Hext.
    by injection Hext as <-.
Qed.

(** X4: [set_alter_to_table_data key] appends the payload [statement[key]]
    at the end of the list [key + "s"] of the ledger, after the
    payloads of earlier statements; when the statement has a "using"
    entry its value is first copied into the payload, in the statement
    too; no attribute of the table besides "alter" changes. *)
Theorem set_alter_to_table_data_spec (key : string) (statement statement' t t' a : dict) :
  dget "alter" t = Some (VDict a) →
  set_alter_to_table_data key statement t = Ok (statement', t') →
  ∃ payload,
    dget key statement' = Some payload
    ∧ match dget "using" statement with
      | None => statement' = statement
      | Some using_v =>
          ∃ p, dget key statement = Some (VDict p)
               ∧ payload = VDict (dset "using" using_v p)
               ∧ statement' = dset key payload statement
      end
    ∧ t' = dset "alter"
             (VDict (dset (key ++ "s")
                       (VList (ledger_entries (key ++ "s") a ++ [payload])) a)) t.
Proof.
  intros Halter Hs. unfold set_alter_to_table_data, getattr in Hs.
  rewrite Halter in Hs. simpl in Hs.
  destruct (init_slot (VDict a) (key ++ "s")) as [a1|] eqn:Hinit;
    simpl in Hs; [|done].
  assert (Htail : ∀ st payload,
    dget key st = Some payload →
    (let* slot := subscript (K:=table_id) a1 (key ++ "s") in
     let* payload := dsubscript st key in
     let* slot := py_append slot payload in
     let* alter := set_item a1 (key ++ "s") slot in
     Ok (st, dset "alter" alter t)) = Ok (statement', t') →
    statement' = st
    ∧ t' = dset "alter"
             (VDict (dset (key ++ "s")
                       (VList (ledger_entries (key ++ "s") a ++ [payload])) a)) t).
  { intros st payload Hpay Ht. unfold dsubscript in Ht. rewrite Hpay in Ht.
    destruct (subscript a1 (key ++ "s")) as [slotv|] eqn:Hsub; simpl in Ht; [|done].
    destruct (py_append slotv payload) as [slotv'|] eqn:Happ; simpl in Ht; [|done].
    assert (Hl : ∃ l, slotv = VList l).
    { destruct slotv; simpl in Happ; try done. eauto. }
    rewrite (ledger_append (key ++ "s") (VDict a) a1 slotv slotv' a [payload])
      in Ht; try done.
    - simpl in Ht. by injection Ht as <- <-.
    - intros l ->. simpl in Happ. by injection Happ as <-. }
  unfold has_key in Hs.
  destruct (dget "using" statement) as [u|] eqn:Hu.
  - unfold dsubscript in Hs at 1 2. rewrite Hu in Hs.
    destruct (dget key statement) as [p0|] eqn:Hk; simpl in Hs; [|done].
    destruct p0 as [| | | | |p]; simpl in Hs; try done.
    apply (Htail _ (VDict (dset "using" u p))) in Hs as [-> ->];
      [|apply dget_dset_eq].
    exists (VDict (dset "using" u p)). split; [apply dget_dset_eq|].
    split; [|done]. eauto.
  - simpl in Hs.
    destruct (dget key statement) as [payload|] eqn:Hk.
    + apply (Htail _ payload) in Hs as [-> ->]; [|done]. eauto.
    + unfold dsubscript in Hs. rewrite Hk in Hs.
      by destruct (subscript a1 (key ++ "s")).
Qed.

(** *** Flags set by ALTER statements *)

(** The column list [names] holds the name of [c], compared as
    [==] compares. *)
Definition named_in (names : list value) (c : value) : bool :=
  match column_name c with
  | Some n => existsb (py_eq n) names
  | None => false
  end.

(** The column [c] with [key] set to [v] when its name is in [names]. *)
Definition mark_named (key : string) (v : value) (names : list value) (c : value)
  : value :=
  match c with
  | VDict d => if named_in names c then VDict (dset key v d) else c
  | _ => c
  end.

Lemma mark_loop (key : string) (v : value) (n : value) (names : list value)
    (payload : res value) :
  key ≠ "name" →
  (existsb (py_eq n) names = true → payload = Ok v) →
  ∀ d, dget "name" d = Some n →
  foldM_res (λ column column_name,
      let* cname := subscript (K:=table_id) column "name" in
      if py_eq cname column_name then
        let* v := payload in set_item column key v
      else Ok column) (VDict d) names
  = Ok (if existsb (py_eq n) names then VDict (dset key v d) else VDict d).
Proof.
  intros Hkey. induction names as [|x names IH]; intros Hpay d Hn; simpl; [done|].
  rewrite Hn. simpl. destruct (py_eq n x) eqn:Hx; simpl.
  - simpl in Hpay. rewrite Hx in Hpay. pose proof (Hpay eq_refl) as ->. simpl.
    rewrite IH.
    + rewrite dset_dset. by destruct (existsb _ _).
    + done.
    + by rewrite dget_dset_ne.
  - apply IH; [|done]. intros He. apply Hpay. simpl. by rewrite He, orb_true_r.
Qed.

Lemma mapM_res_map {A B} (f : A → res B) (g : A → B) (l : list A) :
  Forall (λ x, f x = Ok (g x)) l → mapM_res f l = Ok (map g l).
Proof.
  induction 1 as [|x l Hx _ IH]; simpl; [done|]. by rewrite Hx, IH.
Qed.

(** X5: on a table whose columns all have a name, ALTER ADD UNIQUE
    sets "unique" to [True] on exactly the columns whose name equals,
    as written, one of the names of the statement, and leaves every
    other column and every other attribute of the table as it is. *)
Theorem set_unique_columns_from_alter_spec (statement t unique : dict)
    (names cols : list value) :
  dget "unique" statement = Some (VDict unique) →
  dget "columns" unique = Some (VList names) →
  dget "columns" t = Some (VList cols) →
  Forall has_name cols →
  set_unique_columns_from_alter statement t
  = Ok (dset "columns"
          (VList (map (mark_named "unique" (VBool true) names) cols)) t).
Proof.
  intros Hu Hnames Hcols Hall. unfold set_unique_columns_from_alter, getattr.
  rewrite Hcols. simpl.
  rewrite (mapM_res_map _ (mark_named "unique" (VBool true) names)); [done|].
  eapply Forall_impl; [exact Hall|]. intros c (d & n & -> & Hn).
  unfold dsubscript. rewrite Hu. simpl. rewrite Hnames. simpl.
  rewrite (mark_loop "unique" (VBool true) n names (Ok (VBool true)));
    try done.
  unfold named_in. simpl. by rewrite Hn.
Qed.

(** X6: ALTER ADD DEFAULT sets "default" to the value of the statement
    on exactly the columns whose name equals, as written, one of the
    names of the statement.  When the statement holds a falsy column
    list (an empty list, or [None]) the table is left as it is, and
    the value is not even looked up. *)
Theorem set_default_columns_from_alter_spec (statement t payload : dict)
    (cols : list value) :
  dget "default" statement = Some (VDict payload) →
  dget "columns" t = Some (VList cols) →
  Forall has_name cols →
  (∀ names v,
     dget "columns" payload = Some (VList names) →
     dget "value" payload = Some v →
     set_default_columns_from_alter statement t
     = Ok (dset "columns" (VList (map (mark_named "default" v names) cols)) t))
  ∧ (∀ columns,
       dget "columns" payload = Some columns →
       truthy columns = false →
       set_default_columns_from_alter statement t = Ok t).
Proof.
  intros Hp Hcols Hall. split.
  - intros names v Hnames Hv. unfold set_default_columns_from_alter, getattr.
    rewrite Hcols. simpl.
    rewrite (mapM_res_map _ (mark_named "default" v names)); [done|].
    eapply Forall_impl; [exact Hall|]. intros c (d & n & -> & Hn).
    unfold dsubscript. rewrite Hp. simpl. rewrite Hnames. simpl.
    unfold named_in. simpl. rewrite Hn, Hv.
    destruct names as [|x names]; [done|].
    by refine (eq_trans (mark_loop "default" v n (x :: names) (Ok v) _ _ d Hn) _).
  - intros columns Hc Hf. unfold set_default_columns_from_alter, getattr.
    rewrite Hcols. simpl.
    rewrite (mapM_res_map _ id).
    + simpl. by rewrite map_id, dset_same.
    + eapply Forall_impl; [exact Hall|]. intros c _.
      unfold dsubscript. rewrite Hp. simpl. rewrite Hc. simpl. by rewrite Hf.
Qed.

(** *** The checks of the ledger *)

Lemma join_strs_concat (tokens : list string) :
  join_strs (K:=table_id) (map VStr tokens) = Ok (String.concat " " tokens).
Proof.
  induction tokens as [|s tokens IH]; [done|].
  destruct tokens as [|s' tokens]; [done|].
  change (map VStr (s :: s' :: tokens)) with (VStr s :: map VStr (s' :: tokens)).
  change (join_strs (VStr s :: map VStr (s' :: tokens)))
    with (let* r := join_strs (K:=table_id) (map VStr (s' :: tokens)) in
          Ok (s ++ " " ++ r)%string).
  by rewrite IH.
Qed.

(** X7: ALTER ADD CHECK joins the tokens of the check with single
    spaces, writes the joined text back under "statement", and appends
    the check at the end of the "checks" list of the ledger; the rest
    of the check and of the table is as before. *)
Theorem alter_add_check_spec (t statement a check : dict) (tokens : list string) :
  dget "alter" t = Some (VDict a) →
  (truthy (dict_get "checks" a) = true → ∃ l, dict_get "checks" a = VList l) →
  dget "check" statement = Some (VDict check) →
  dget "statement" check = Some (VList (map VStr tokens)) →
  alter_add_check t statement
  = Ok (dset "alter"
          (VDict (dset "checks"
                    (VList (ledger_entries "checks" a
                            ++ [VDict (dset "statement"
                                         (VStr (String.concat " " tokens)) check)]))
                    a)) t).
Proof.
  intros Halter Hledger Hcheck Htokens. unfold alter_add_check, getattr, dsubscript.
  rewrite Halter, Hcheck. cbn [bind]. rewrite init_slot_dict. cbn [bind].
  unfold subscript at 1. rewrite Htokens. unfold py_join. cbn [bind py_iter].
  rewrite join_strs_concat. cbn [bind set_item].
  set (entry := VDict (dset "statement" _ check)).
  set (a1 := if truthy (dict_get "checks" a) then a else dset "checks" (VList []) a).
  assert (Hslot : ∃ l, subscript (K:=table_id) (VDict a1) "checks" = Ok (VList l)).
  { subst a1. simpl. destruct (truthy (dict_get "checks" a)) eqn:Ht.
    - destruct (Hledger eq_refl) as [l Hl]. exists l. unfold dict_get in Hl, Ht.
      destruct (dget "checks" a); [by subst|]. by subst.
    - exists []. by rewrite dget_dset_eq. }
  destruct Hslot as [l Hl]. rewrite Hl. cbn [bind py_append].
  pose proof (ledger_append "checks" (VDict a) (VDict a1) (VList l)
                (VList (l ++ [entry])) a [entry] eq_refl
                (init_slot_dict "checks" a) Hl) as Hset.
  cbn [set_item] in Hset.
  assert (Heq : VDict (dset "checks" (VList (l ++ [entry])) a1)
                = VDict (dset "checks"
                           (VList (ledger_entries "checks" a ++ [entry])) a)).
  { assert (Hok : ∀ x y : value, Ok (K:=table_id) x = Ok y → x = y)
      by (by intros x y [= ->]).
    apply Hok, Hset; [by intros ? [= <-] | eauto]. }
  by rewrite Heq.
Qed.

(** *** The first matching column *)

Lemma find_column_first (n : value) (pre post : list value) (c : value) :
  Forall (λ column, same_column n column = Ok false) pre →
  same_column n c = Ok true →
  ∀ k, find_column (Ok n) (pre ++ c :: post) k = Ok (Some (k + length pre)).
Proof.
  intros Hpre Hc. induction Hpre as [|column pre Hcol _ IH]; intros k; simpl.
  - unfold same_column in Hc.
    destruct (normalize_name n); simpl in *; [|done].
    destruct (subscript c "name"); simpl in *; [|done].
    destruct (normalize_name a0); simpl in *; [|done].
    injection Hc as ->. by rewrite Nat.add_0_r.
  - unfold same_column in Hcol.
    destruct (normalize_name n); simpl in *; [|done].
    destruct (subscript column "name"); simpl in *; [|done].
    destruct (normalize_name a0); simpl in *; [|done].
    injection Hcol as ->. rewrite IH. do 2 f_equal. lia.
Qed.

(** X8: an ALTER DROP COLUMN whose name matches, by normalized name,
    removes the first matching column only: the columns before it and
    all the columns after it, later matches included, stay in order;
    the "dropped_columns" entry of the ledger becomes the removed
    column itself, whatever it held before. *)
Theorem alter_drop_columns_first_match (t statement a : dict) (n c : value)
    (pre post : list value) :
  dget "alter" t = Some (VDict a) →
  dget "columns" t = Some (VList (pre ++ c :: post)) →
  dget "columns_to_drop" statement = Some (VList [n]) →
  Forall (λ column, same_column n column = Ok false) pre →
  same_column n c = Ok true →
  alter_drop_columns t statement
  = Ok (dset "columns" (VList (pre ++ post))
          (dset "alter" (VDict (dset "dropped_columns" c a)) t)).
Proof.
  intros Ha Hcols Hnames Hpre Hc.
  unfold alter_drop_columns, getattr, dsubscript.
  rewrite Ha, Hnames. cbn [bind]. rewrite init_slot_dict. cbn [bind py_iter foldM_res].
  unfold drop_column, getattr. rewrite dget_dset_ne, Hcols by done.
  cbn [bind py_iter]. rewrite (find_column_first n pre post c Hpre Hc).
  cbn [bind]. rewrite Nat.add_0_l, list_lookup_middle by done.
  rewrite dget_dset_eq. cbn [bind set_item].
  rewrite delete_middle, !dset_dset.
  by destruct (truthy (dict_get "dropped_columns" a)); rewrite ?dset_dset.
Qed.

(** X9: an ALTER MODIFY COLUMN whose column matches, by normalized
    name, replaces the first matching column, at its position, by the
    column of the statement as it is: nothing of the old column is
    carried over.  The other columns stay, and the "modified_columns"
    entry of the ledger becomes the replaced column. *)
Theorem alter_modify_columns_first_match (t statement a : dict) (m n c : value)
    (pre post : list value) :
  dget "alter" t = Some (VDict a) →
  dget "columns" t = Some (VList (pre ++ c :: post)) →
  dget "columns_to_modify" statement = Some (VList [m]) →
  subscript (K:=table_id) m "name" = Ok n →
  Forall (λ column, same_column n column = Ok false) pre →
  same_column n c = Ok true →
  alter_modify_columns t statement
  = Ok (dset "columns" (VList (pre ++ m :: post))
          (dset "alter" (VDict (dset "modified_columns" c a)) t)).
Proof.
  intros Ha Hcols Hnames Hm Hpre Hc.
  unfold alter_modify_columns, getattr, dsubscript.
  rewrite Ha, Hnames. cbn [bind]. rewrite init_slot_dict. cbn [bind py_iter foldM_res].
  unfold modify_column, getattr. rewrite dget_dset_ne, Hcols by done.
  cbn [bind py_iter]. rewrite Hm, (find_column_first n pre post c Hpre Hc).
  cbn [bind]. rewrite Nat.add_0_l, list_lookup_middle by done.
  rewrite dget_dset_eq. cbn [bind set_item].
  replace (<[length pre := m]> (pre ++ c :: post)) with (pre ++ m :: post).
  - rewrite !dset_dset.
    by destruct (truthy (dict_get "modified_columns" a)); rewrite ?dset_dset.
  - rewrite <-(Nat.add_0_r (length pre)). by rewrite insert_app_r.
Qed.

(** *** What an ALTER statement leaves alone *)

Lemma same_except_dset_dset (k1 k2 : string) (v1 v2 : value) (ks : list string)
    (s : dict) :
  k1 ∈ ks → k2 ∈ ks → same_except ks s (dset k1 v1 (dset k2 v2 s)).
Proof.
  intros H1 H2. eapply same_except_trans; by apply same_except_dset.
Qed.

Lemma record_step_frame (slot : string) (name : res value)
    (update : nat → list value → list value) (t t' : dict) :
  record_step slot name update t = Ok t' →
  same_except ["columns"; "alter"] t t'.
Proof.
  unfold record_step. intros Hr.
  destruct (getattr t "columns") as [columns|]; simpl in Hr; [|done].
  destruct (py_iter columns) as [items|]; simpl in Hr; [|done].
  destruct (find_column name items 0) as [[i|]|]; simpl in Hr; [| |done].
  - destruct columns as [| | | |l|]; try done.
    destruct (l !! i); [|done].
    destruct (getattr t "alter") as [alter|]; simpl in Hr; [|done].
    destruct (set_item alter slot v) as [alter'|]; simpl in Hr; [|done].
    injection Hr as <-. apply same_except_dset_dset; names_solver.
  - injection Hr as <-. apply same_except_refl.
Qed.

Lemma record_statement_frame (slot key : string) (mk : list value → list step)
    (t t' statement : dict) :
  record_statement slot key mk t statement = Ok t' →
  same_except ["columns"; "alter"] t t'.
Proof.
  unfold record_statement. intros Hr.
  destruct (getattr t "alter") as [alter|]; simpl in Hr; [|done].
  destruct (init_slot alter slot) as [alter'|]; simpl in Hr; [|done].
  destruct (dsubscript statement key) as [v|]; simpl in Hr; [|done].
  destruct (py_iter v) as [items|]; simpl in Hr; [|done].
  revert Hr. unfold run_steps.
  apply (foldM_res_inv _ (λ s, same_except ["columns"; "alter"] t s)).
  - intros s x s' Hs Hstep. eapply same_except_trans; [exact Hs|].
    by eapply record_step_frame.
  - apply same_except_dset. names_solver.
Qed.

(** X10: whatever its kind, an ALTER statement changes nothing of the
    table besides its "columns" and its "alter" ledger, and removes no
    attribute: the name, the schema, the index list and the
    "primary_key" list are as before, the last one also after ALTER
    ADD PRIMARY KEY, which only adds to the ledger. *)
Theorem apply_alter_frame (t t' statement : dict) :
  apply_alter t statement = Ok t' →
  (∀ k, k ≠ "columns" → k ≠ "alter" → dget k t' = dget k t)
  ∧ (∀ k, has_key k t = true → has_key k t' = true).
Proof.
  intros Ha.
  assert (Hframe : same_except ["columns"; "alter"] t t').
  { unfold apply_alter in Ha.
    destruct (has_key "columns" statement); [done|].
    destruct (has_key "columns_to_rename" statement).
    { unfold alter_rename_columns in Ha.
      destruct (dsubscript statement "columns_to_rename") as [ctr|];
        simpl in Ha; [|done].
      destruct (py_iter ctr) as [pairs|]; simpl in Ha; [|done].
      set (body := λ (target_table : dict) (renamed_column : value), _) in Ha.
      destruct (foldM_res body t pairs) as [t1|] eqn:Hfold; simpl in Ha; [|done].
      assert (H1 : same_except ["columns"; "alter"] t t1).
      { revert Hfold.
        apply (foldM_res_inv body (λ s, same_except ["columns"; "alter"] t s));
          [|apply same_except_refl].
        intros s x s' Hs Hb. unfold body in Hb.
        destruct (getattr s "columns") as [columns|]; simpl in Hb; [|done].
        eapply same_except_trans; [exact Hs|].
        destruct columns as [| | | |l|].
        5: { destruct (rename_first x l); simpl in Hb; [|done].
             injection Hb as <-. apply same_except_dset. names_solver. }
        all: destruct (py_iter _) as [items|]; simpl in Hb; [|done];
          destruct (rename_first x items); simpl in Hb; [|done];
          injection Hb as <-; apply same_except_refl. }
      destruct (getattr t1 "alter") as [alter|]; simpl in Ha; [|done].
      destruct (init_slot alter "renamed_columns") as [a1|]; simpl in Ha; [|done].
      destruct (subscript a1 "renamed_columns") as [sl|]; simpl in Ha; [|done].
      destruct (py_extend sl ctr) as [sl'|]; simpl in Ha; [|done].
      destruct (set_item a1 "renamed_columns" sl') as [a2|]; simpl in Ha; [|done].
      injection Ha as <-. eapply same_except_trans; [exact H1|].
      apply same_except_dset. names_solver. }
    destruct (has_key "columns_to_drop" statement).
    { rewrite alter_drop_columns_record in Ha. by eapply record_statement_frame. }
    destruct (has_key "columns_to_modify" statement).
    { rewrite alter_modify_columns_record in Ha. by eapply record_statement_frame. }
    destruct (has_key "check" statement).
    { unfold alter_add_check in Ha. run_binds Ha. injection Ha as <-.
      apply same_except_dset. names_solver. }
    assert (Hset : ∀ key r, set_alter_to_table_data key statement t = Ok r →
                            same_except ["columns"; "alter"] t r.2).
    { intros key r Hr. unfold set_alter_to_table_data in Hr.
      run_binds Hr. injection Hr as <-. apply same_except_dset. names_solver. }
    destruct (has_key "unique" statement).
    { destruct (set_alter_to_table_data "unique" statement t) as [r|] eqn:Hr;
        simpl in Ha; [|done].
      eapply same_except_trans; [by eapply Hset|].
      unfold set_unique_columns_from_alter in Ha. run_binds Ha.
      injection Ha as <-. apply same_except_dset. names_solver. }
    destruct (has_key "default" statement).
    { destruct (set_alter_to_table_data "default" statement t) as [r|] eqn:Hr;
        simpl in Ha; [|done].
      eapply same_except_trans; [by eapply Hset|].
      unfold set_default_columns_from_alter in Ha. run_binds Ha.
      injection Ha as <-. apply same_except_dset. names_solver. }
    destruct (has_key "primary_key" statement).
    { destruct (set_alter_to_table_data "primary_key" statement t) as [r|] eqn:Hr;
        simpl in Ha; [|done].
      injection Ha as <-. by eapply Hset. }
    injection Ha as <-. apply same_except_refl. }
  destruct Hframe as [Hget Hkeys]. split; [|done].
  intros k Hk1 Hk2. apply Hget. clear -Hk1 Hk2.
  rewrite !elem_of_cons, elem_of_nil. naive_solver.
Qed.

(** *** The registry along a run *)

(** The statements for which [format] builds a table object. *)
Definition creates_table (statement : dict) : bool :=
  emitted statement && truthy (dict_get "table_name" statement).

Lemma process_statement_data_create (self : Output) (statement_data : dict)
    (r : Output * out_item) :
  truthy (dict_get "table_name" statement_data) = true →
  process_statement_data self statement_data = Ok r →
  ∃ cls table_data schema_name table_name id data,
    TableData_init (dset "output_mode" (VStr (output_mode self)) statement_data)
    = Ok (cls, table_data)
    ∧ dget (schema_key self) table_data = Some schema_name
    ∧ dget "table_name" table_data = Some table_name
    ∧ get_table_id schema_name table_name = Ok id
    ∧ to_dict cls table_data = Ok data
    ∧ r = (register self id table_data,
           OTable (length (store self)) (keys data)).
Proof.
  intros Ht Hp. unfold process_statement_data in Hp. rewrite Ht in Hp.
  destruct (TableData_init _) as [[cls table_data]|] eqn:Hinit;
    cbn [bind fst snd] in Hp; [|done].
  unfold getattr in Hp.
  destruct (dget (schema_key self) table_data) as [schema_name|] eqn:Hsch;
    cbn [bind] in Hp; [|done].
  destruct (dget "table_name" table_data) as [table_name|] eqn:Htn;
    cbn [bind] in Hp; [|done].
  destruct (get_table_id schema_name table_name) as [id|] eqn:Hid;
    cbn [bind] in Hp; [|done].
  destruct (to_dict cls table_data) as [data|] eqn:Hto; cbn [bind] in Hp; [|done].
  injection Hp as <-. by exists cls, table_data, schema_name, table_name, id, data.
Qed.

Lemma format_step_registry (self self' : Output) (statement : dict) :
  format_step self statement = Ok self' →
  registry_wf self →
  length (store self')
  = (length (store self) + if creates_table statement then 1 else 0)%nat
  ∧ (∀ id o, tables_dict self !! id = Some o →
       ∃ o', tables_dict self' !! id = Some o' ∧ (o ≤ o')%nat)
  ∧ (∀ o t, creates_table statement = true →
       store self !! o = Some t → store self' !! o = Some t).
Proof.
  intros Hs Hwf. unfold format_step in Hs. unfold creates_table, emitted.
  destruct (has_key "index_name" statement || has_key "alter_table_name" statement);
    simpl.
  - assert (Hsame : length (store self') = length (store self)
                    ∧ tables_dict self' = tables_dict self).
    { unfold process_alter_and_index_result in Hs.
      destruct (truthy (dict_get "index_name" statement)).
      - unfold add_index_to_table in Hs. run_binds Hs. injection Hs as <-.
        simpl. by rewrite length_insert.
      - destruct (truthy (dict_get "alter_table_name" statement)).
        + unfold add_alter_to_table in Hs. run_binds Hs. injection Hs as <-.
          simpl. by rewrite length_insert.
        + by injection Hs as <-. }
    destruct Hsame as [Hlen Hreg]. rewrite Hlen, Hreg, Nat.add_0_r.
    split; [done|]. split; [eauto|done].
  - destruct (process_statement_data self statement) as [r|] eqn:Hp;
      simpl in Hs; [|done].
    injection Hs as <-.
    destruct (truthy (dict_get "table_name" statement)) eqn:Ht.
    + apply process_statement_data_create in Hp
        as (cls & td & sn & tn & id0 & data & _ & _ & _ & _ & _ & ->); [|done].
      simpl. rewrite length_app. simpl.
      split; [done|]. split.
      * intros id o Ho. destruct (decide (id = id0)) as [->|Hne].
        -- rewrite lookup_insert_eq. eexists; split; [done|].
           apply Hwf in Ho. lia.
        -- rewrite lookup_insert_ne by done. eauto.
      * intros o t' _ Ho. by apply lookup_app_l_Some.
    + unfold process_statement_data in Hp. rewrite Ht in Hp.
      destruct (dialects_clean_up _ _); simpl in Hp; [|done].
      injection Hp as <-. simpl. rewrite Nat.add_0_r.
      split; [done|]. split; [eauto|done].
Qed.

(** X11: along a run of [format], a table object is allocated for
    every statement that is neither an index nor an alter record and
    has a truthy "table_name", and for no other; an id once
    registered stays registered, possibly rebound to a later object;
    every id of the registry points to an allocated object. *)
Theorem format_loop_registry (parser_output : list dict) :
  ∀ (self self' : Output),
  format_loop self parser_output = Ok self' →
  registry_wf self →
  length (store self')
  = (length (store self) + length (List.filter creates_table parser_output))%nat
  ∧ (∀ id o, tables_dict self !! id = Some o →
       ∃ o', tables_dict self' !! id = Some o' ∧ (o ≤ o')%nat)
  ∧ registry_wf self'.
Proof.
  unfold format_loop.
  induction parser_output as [|st rest IH]; intros self self' Hl Hwf; simpl in Hl.
  - injection Hl as <-. simpl. rewrite Nat.add_0_r. eauto.
  - destruct (format_step self st) as [self1|] eqn:Hst; simpl in Hl; [|done].
    pose proof (format_step_registry _ _ _ Hst Hwf) as (Hlen1 & Hreg1 & _).
    assert (Hwf1 : registry_wf self1).
    { eapply step_effect_wf; [by apply format_step_effect|done]. }
    destruct (IH _ _ Hl Hwf1) as (Hlen & Hreg & Hwf').
    split; [|split; [|done]].
    + rewrite Hlen, Hlen1. simpl. destruct (creates_table st); simpl; lia.
    + intros id o Ho. destruct (Hreg1 _ _ Ho) as (o1 & Ho1 & Hle1).
      destruct (Hreg _ _ Ho1) as (o2 & Ho2 & Hle2).
      exists o2. split; [done|lia].
Qed.

Lemma format_loop_app (self : Output) (l1 l2 : list dict) :
  format_loop self (l1 ++ l2)
  = let* self1 := format_loop self l1 in format_loop self1 l2.
Proof. apply foldM_res_app. Qed.

(** X12: a record that has an "index_name" or an "alter_table_name"
    key whose values are both falsy (missing, [None] or empty) is
    dropped without a trace: it reaches no table, is not part of the
    result and raises nothing, so the run gives what it gives without
    the record. *)
Theorem falsy_alter_record_is_skipped (self : Output) (pre rest : list dict)
    (statement : dict) :
  has_key "index_name" statement || has_key "alter_table_name" statement = true →
  truthy (dict_get "index_name" statement) = false →
  truthy (dict_get "alter_table_name" statement) = false →
  format self (pre ++ statement :: rest) = format self (pre ++ rest).
Proof.
  intros Hkind Hi Ha. unfold format. rewrite !format_loop_app.
  destruct (format_loop self pre) as [self1|]; [|done].
  cbn [bind]. unfold format_loop at 1. cbn [foldM_res].
  unfold format_step at 1, process_alter_and_index_result.
  by rewrite Hkind, Hi, Ha.
Qed.

(** X13: without grouping, [format] returns a list with one entry for
    every statement that is neither an index nor an alter record, and
    with grouping a dictionary. *)
Theorem format_result_shape (mode : string) (g : bool) (parser_output : list dict)
    (result : value) :
  format (Output_init mode g) parser_output = Ok result →
  if g then ∃ grouped, result = VDict grouped
  else ∃ items, result = VList items
                ∧ length items = length (List.filter emitted parser_output).
Proof.
  unfold format. intros Hf.
  destruct (format_loop (Output_init mode g) parser_output) as [self|] eqn:Hl;
    simpl in Hf; [|done].
  apply format_loop_final_result in Hl as (_ & Hg & more & Hfin & Hlen).
  simpl in Hg, Hfin. rewrite Hg in Hf. destruct g.
  - destruct (group_by_type_result _); simpl in Hf; [|done].
    injection Hf as <-. eauto.
  - injection Hf as <-. eexists; split; [done|].
    by rewrite !length_map, Hfin.
Qed.

(** X14: a statement with a truthy "table_name" that is neither an
    index nor an alter record builds a table object, registers it
    under the id of the schema and the name the object carries, and
    appends one entry for it to the result; a lookup with that schema
    and name then finds the new object, and the objects allocated
    before are as they were. *)
Theorem created_table_is_found (self self' : Output) (statement : dict) :
  emitted statement = true →
  truthy (dict_get "table_name" statement) = true →
  format_step self statement = Ok self' →
  ∃ cls table_data schema_name table_name data,
    TableData_init (dset "output_mode" (VStr (output_mode self)) statement)
    = Ok (cls, table_data)
    ∧ dget (schema_key self) table_data = Some schema_name
    ∧ dget "table_name" table_data = Some table_name
    ∧ to_dict cls table_data = Ok data
    ∧ get_table_from_tables_data self' schema_name table_name
      = Ok (length (store self), table_data)
    ∧ final_result self'
      = final_result self ++ [OTable (length (store self)) (keys data)]
    ∧ ∀ o t, store self !! o = Some t → store self' !! o = Some t.
Proof.
  intros He Ht Hs. unfold format_step in Hs. unfold emitted in He.
  apply negb_true_iff in He. rewrite He in Hs.
  destruct (process_statement_data self statement) as [r|] eqn:Hp;
    simpl in Hs; [|done].
  injection Hs as <-.
  apply process_statement_data_create in Hp
    as (cls & td & sn & tn & id & data & Hinit & Hsn & Htn & Hid & Hto & ->);
    [|done].
  exists cls, td, sn, tn, data. repeat split; try done.
  - unfold get_table_from_tables_data. rewrite Hid. simpl.
    rewrite lookup_insert_eq. by rewrite list_lookup_middle.
  - intros o t Ho. simpl. by apply lookup_app_l_Some.
Qed.

(** *** The keyword dictionary of [TableData.init] *)

Lemma filter_nonempty {A} (p : A → bool) (l : list A) :
  match List.filter p l with [] => false | _ => true end = existsb p l.
Proof.
  induction l as [|x l IH]; simpl; [done|]. by destruct (p x).
Qed.

Lemma filter_ext_in' {A} (p q : A → bool) (l : list A) :
  (∀ x, x ∈ l → p x = q x) → List.filter p l = List.filter q l.
Proof.
  induction l as [|x l IH]; intros Hpq; simpl; [done|].
  rewrite (Hpq x) by left. rewrite IH; [done|].
  intros y Hy. apply Hpq. by right.
Qed.

Lemma has_key_elem_of {A} (k : string) (v : A) (d : list (string * A)) :
  (k, v) ∈ d → has_key k d = true.
Proof.
  unfold has_key. induction d as [|[k0 v0] d IH]; intros Hin; simpl.
  - by apply elem_of_nil in Hin.
  - destruct (String.eqb_spec k k0) as [->|Hne]; [done|].
    apply elem_of_cons in Hin as [[= -> ->]|Hin]; [done|]. by apply IH.
Qed.

(** The keywords that are no field of the class. *)
Definition other_keywords (cls : dataclass) (kwargs : dict) : dict :=
  List.filter (λ kv : string * value, negb (is_field cls kv.1)) kwargs.

Lemma pre_load_mods_table_properties (cls : dataclass) (kwargs : dict) :
  ∀ kwargs1, kwargs1 = (pre_load_mods cls kwargs).1 →
  (pre_load_mods cls kwargs).2
  = dset "init_data"
      (VDict (dupdate (dupdate [] (List.filter (λ kv : string * value,
                                                  is_field cls kv.1) kwargs1))
                (other_keywords cls kwargs1)))
      (dset "table_properties" (VDict (other_keywords cls kwargs1))
         (List.filter (λ kv : string * value, is_field cls kv.1) kwargs1)).
Proof.
  unfold pre_load_mods, other_keywords. cbn [fst snd]. intros kwargs1 ->.
  set (kwargs1 := if (_ : bool) then _ else kwargs).
  assert (Hf : List.filter
                 (λ kv : string * value,
                    negb (has_key kv.1
                            (List.filter (λ kv : string * value,
                                            is_field cls kv.1) kwargs1)))
                 kwargs1
               = List.filter (λ kv : string * value, negb (is_field cls kv.1))
                   kwargs1).
  { apply filter_ext_in'. intros [k v] Hin. simpl.
    rewrite (has_key_filter (is_field cls)).
    by rewrite (has_key_elem_of k v kwargs1 Hin). }
  by rewrite Hf.
Qed.

Lemma pre_load_mods_idem (cls : dataclass) (kwargs : dict) :
  pre_load_mods cls (pre_load_mods cls kwargs).1 = pre_load_mods cls kwargs.
Proof.
  assert (Hidem : (pre_load_mods cls (pre_load_mods cls kwargs).1).1
                  = (pre_load_mods cls kwargs).1).
  { unfold pre_load_mods. cbn [fst].
    destruct (String.eqb (d_name cls) "bigquery"
              && truthy (dict_get "schema" kwargs)) eqn:Hc; [|by rewrite Hc].
    assert (dict_get "schema" (dset "dataset" (dict_get "schema" kwargs) kwargs)
            = dict_get "schema" kwargs) as ->
      by (unfold dict_get; by rewrite dget_dset_ne).
    by rewrite Hc, dset_dset. }
  apply injective_projections; [exact Hidem|].
  rewrite (pre_load_mods_table_properties cls _ _ eq_refl).
  rewrite (pre_load_mods_table_properties cls kwargs _ eq_refl).
  by rewrite Hidem.
Qed.

(** X15: [TableData.init] calls [pre_load_mods] twice and uses the
    second result only; the first call changes nothing the second one
    would not do: on the keyword dictionary the first call leaves,
    [pre_load_mods] gives what it gives on the original one.  And no
    keyword is ever rejected by the constructor of a class that has
    the fields "table_properties" and "init_data", since the keywords
    that are no field of the class are moved into "table_properties". *)
Theorem pre_load_mods_twice (cls : dataclass) (kwargs : dict) :
  pre_load_mods cls (pre_load_mods cls kwargs).1 = pre_load_mods cls kwargs
  ∧ (is_field cls "table_properties" = true →
     is_field cls "init_data" = true →
     forallb (λ kv, is_field cls kv.1) (pre_load_mods cls kwargs).2 = true).
Proof.
  split; [apply pre_load_mods_idem|].
  intros Htp Hid. rewrite (pre_load_mods_table_properties cls kwargs _ eq_refl).
  apply forallb_forall. intros [k v] Hin. apply list_elem_of_In in Hin.
  simpl.
  assert (Hk : has_key k
                 (dset "init_data"
                    (VDict (dupdate (dupdate [] (List.filter
                                                   (λ kv : string * value,
                                                      is_field cls kv.1)
                                                   (pre_load_mods cls kwargs).1))
                              (other_keywords cls (pre_load_mods cls kwargs).1)))
                    (dset "table_properties"
                       (VDict (other_keywords cls (pre_load_mods cls kwargs).1))
                       (List.filter (λ kv : string * value, is_field cls kv.1)
                          (pre_load_mods cls kwargs).1))) = true)
    by (by eapply has_key_elem_of).
  destruct (String.eqb_spec "init_data" k) as [<-|Hne1]; [done|].
  rewrite has_key_dset_ne in Hk by done.
  destruct (String.eqb_spec "table_properties" k) as [<-|Hne2]; [done|].
  rewrite has_key_dset_ne in Hk by done.
  rewrite (has_key_filter (is_field cls)) in Hk.
  by apply andb_true_iff in Hk as [_ Hk].
Qed.


(** The default of the field [k] of a class. *)
Definition field_default (cls : dataclass) (k : string) : option value :=
  f_default <$> List.find (λ f, String.eqb k (f_name f)) (dataclass_fields cls).

Lemma dget_construct (fields : list field) (kwargs : dict) (k : string) :
  dget k (map (λ f, (f_name f,
                     match dget (f_name f) kwargs with
                     | Some v => v
                     | None => f_default f
                     end)) fields)
  = match List.find (λ f, String.eqb k (f_name f)) fields with
    | Some f => Some (match dget k kwargs with Some v => v | None => f_default f end)
    | None => None
    end.
Proof.
  induction fields as [|f fields IH]; simpl; [done|].
  destruct (String.eqb_spec k (f_name f)) as [->|Hne]; [done|apply IH].
Qed.

Lemma dget_filter {A} (p : string → bool) (d : list (string * A)) (k : string) :
  p k = true → dget k (List.filter (λ kv, p kv.1) d) = dget k d.
Proof.
  intros Hp. induction d as [|[k0 v0] d IH]; simpl; [done|].
  destruct (p k0) eqn:Hp0; simpl.
  - by rewrite IH.
  - destruct (String.eqb_spec k k0) as [->|Hne]; [congruence|done].
Qed.

Lemma is_field_find (cls : dataclass) (k : string) :
  is_field cls k
  = match List.find (λ f, String.eqb k (f_name f)) (dataclass_fields cls) with
    | Some _ => true
    | None => false
    end.
Proof.
  unfold is_field. induction (dataclass_fields cls) as [|f l IH]; simpl; [done|].
  by destruct (String.eqb k (f_name f)).
Qed.

(** The attributes the constructor of [BaseData] starts from and the
    object [__post_init__] makes of them. *)
Lemma TableData_init_BaseData (kwargs self : dict) :
  TableData_init kwargs = Ok (BaseData, self) →
  ∃ self0 init_data,
    post_init BaseData self0 = Ok self
    ∧ dget "init_data" self0 = Some (VDict init_data)
    ∧ (∀ k, has_key k init_data = has_key k kwargs)
    ∧ dget "table_properties" self0 = Some (VDict (other_keywords BaseData kwargs))
    ∧ (∀ k, k ≠ "table_properties" → k ≠ "init_data" →
         dget k self0 = match dget k kwargs with
                        | Some v => if is_field BaseData k then Some v else None
                        | None => field_default BaseData k
                        end).
Proof.
  intros Hinit. unfold TableData_init in Hinit.
  destruct (get_dialect_class kwargs) as [main_cls|]; cbn [bind] in Hinit; [|done].
  rewrite (pre_load_mods_idem main_cls kwargs) in Hinit.
  destruct (construct main_cls _) as [ret|] eqn:Hc; cbn [bind] in Hinit; [|done].
  injection Hinit as -> ->.
  unfold construct in Hc. destruct (forallb _ _); [|done].
  destruct (pre_load_mods_init_data BaseData kwargs) as (init_data & Hid & Hkeys).
  eexists _, init_data. split; [exact Hc|].
  change (dataclass_fields BaseData) with BaseData_fields.
  rewrite (pre_load_mods_table_properties BaseData kwargs _ eq_refl) in Hid |- *.
  change (pre_load_mods BaseData kwargs).1 with kwargs in *.
  split; [|split; [done|split]].
  - rewrite dget_construct. cbn [List.find BaseData_fields f_name plain
      always_excluded if_provided if_not_empty]. simpl String.eqb. cbv iota.
    by rewrite Hid.
  - rewrite dget_construct. simpl List.find. rewrite dget_dset_ne by done.
    by rewrite dget_dset_eq.
  - intros k Hk1 Hk2. rewrite dget_construct.
    rewrite !dget_dset_ne by done.
    unfold field_default. rewrite is_field_find.
    change (dataclass_fields BaseData) with BaseData_fields.
    destruct (List.find _ BaseData_fields) as [f|] eqn:Hf; simpl.
    + rewrite (dget_filter (is_field BaseData)).
      * by destruct (dget k kwargs).
      * rewrite is_field_find.
        change (dataclass_fields BaseData) with BaseData_fields. by rewrite Hf.
    + by destruct (dget k kwargs).
Qed.

(** X16: the table object [TableData.init] builds for the generic
    schema holds, under every field but the ones [__post_init__]
    works on, the value of the keyword of that name, or the default of
    the field when there is no such keyword; the keywords that are no
    field are collected, in the order of the input and with their
    values, under "table_properties". *)
Theorem TableData_init_attributes (kwargs self : dict) :
  TableData_init kwargs = Ok (BaseData, self) →
  dget "table_properties" self = Some (VDict (other_keywords BaseData kwargs))
  ∧ ∀ k, is_field BaseData k = true →
         k ∉ ["columns"; "primary_key"; "ref_columns"; "table_properties";
              "init_data"] →
         dget k self = match dget k kwargs with
                       | Some v => Some v
                       | None => field_default BaseData k
                       end.
Proof.
  intros Hinit.
  apply TableData_init_BaseData in Hinit
    as (self0 & init_data & Hpost & _ & _ & Htp & Hrest).
  apply post_init_BaseData_frame in Hpost as [Hsame _].
  split.
  - rewrite Hsame; [done|]. names_solver.
  - intros k Hf Hk. rewrite Hsame.
    + rewrite Hrest, Hf; [done|..]; intros ->; apply Hk; names_solver.
    + intros Hin. apply Hk. clear -Hin. set_solver.
Qed.

(** The keys of the dictionary [to_dict] returns for a table of the
    generic schema built from the keywords [kwargs]. *)
Definition in_output (kwargs : dict) (k : string) : bool :=
  existsb (String.eqb k)
    ["table_name"; "schema"; "primary_key"; "columns"; "alter"; "checks";
     "index"; "partitioned_by"; "tablespace"]
  || existsb (String.eqb k)
       ["constraints"; "if_not_exists"; "partition_by"; "replace"; "comment"; "like"]
     && has_key k kwargs
  || String.eqb k "table_properties"
     && existsb (λ kv : string * value, negb (is_field BaseData kv.1)) kwargs.

Lemma is_field_BaseData_names (k : string) :
  is_field BaseData k = true →
  k ∈ ["table_name"; "init_data"; "output_mode"; "schema"; "primary_key";
       "columns"; "alter"; "checks"; "index"; "partitioned_by"; "constraints";
       "tablespace"; "if_not_exists"; "partition_by"; "table_properties";
       "replace"; "comment"; "like"; "unique"; "unique_statement";
       "ref_columns"; "references"].
Proof.
  unfold is_field. intros Hf. apply existsb_exists in Hf as (f & Hin & Hf).
  apply String.eqb_eq in Hf as ->. simpl in Hin.
  repeat (destruct Hin as [<-|Hin]; [simpl; names_solver|]). done.
Qed.

(** X17: the dictionary [to_dict] returns for a table of the generic
    schema has the nine keys "table_name", "schema", "primary_key",
    "columns", "alter", "checks", "index", "partitioned_by" and
    "tablespace" whatever the input; each of "constraints",
    "if_not_exists", "partition_by", "replace", "comment" and "like"
    exactly when the input has that key; "table_properties" exactly
    when the input has a key that is no field of the schema; and no
    other key, the parser-only fields in particular. *)
Theorem BaseData_output_keys (kwargs self out : dict) :
  TableData_init kwargs = Ok (BaseData, self) →
  to_dict BaseData self = Ok out →
  ∀ k, has_key k out = in_output kwargs k.
Proof.
  intros Hinit Hto k.
  apply TableData_init_BaseData in Hinit
    as (self0 & init_data & Hpost & Hid & Hkeys & Htp & Hrest).
  apply post_init_BaseData_frame in Hpost as [Hsame Hkept].
  assert (Hid' : dget "init_data" self = Some (VDict init_data))
    by (rewrite Hsame; [done|names_solver]).
  assert (Htp' : dget "table_properties" self
                 = Some (VDict (other_keywords BaseData kwargs)))
    by (rewrite Hsame; [done|names_solver]).
  destruct (is_field BaseData k) eqn:Hf.
  - assert (Hin : has_key k self = true).
    { apply Hkept. unfold has_key.
      destruct (String.eqb_spec k "table_properties") as [->|Hne1];
        [by rewrite Htp|].
      destruct (String.eqb_spec k "init_data") as [->|Hne2]; [by rewrite Hid|].
      rewrite Hrest, Hf by done. destruct (dget k kwargs); [done|].
      unfold field_default. rewrite is_field_find in Hf.
      by destruct (List.find _ _). }
    rewrite (to_dict_presence _ _ _ _ _ Hid' Hto Hin).
    apply is_field_BaseData_names in Hf.
    unfold in_output, filter_cascade, getattr_default.
    repeat (apply elem_of_cons in Hf as [->|Hf];
            [first [ reflexivity
                   | by rewrite <-Hkeys; simpl; destruct (has_key _ init_data)
                   | rewrite Htp'; unfold other_keywords; simpl;
                     by rewrite <-filter_nonempty;
                       destruct (List.filter _ kwargs) ]|]).
    by apply elem_of_nil in Hf.
  - destruct (to_dict_from_lookup _ _ _ _ Hto k) as [Hno _].
    rewrite Hno.
    + unfold in_output. unfold is_field in Hf. simpl in Hf.
      repeat (apply orb_false_elim in Hf as [? Hf]). simpl.
      repeat match goal with
             | E : String.eqb k _ = false |- _ => rewrite E; clear E
             end.
      done.
    + unfold has_key. rewrite Hsame.
      * rewrite Hrest.
        -- rewrite Hf. destruct (dget k kwargs); [done|].
           unfold field_default. rewrite is_field_find in Hf.
           by destruct (List.find _ _).
        -- by intros ->.
        -- by intros ->.
      * intros Hin. clear -Hf Hin.
        repeat (apply elem_of_cons in Hin as [->|Hin]; [done|]).
        by apply elem_of_nil in Hin.
Qed.

(** *** Reference descriptors *)

(** The column [c] carries the name [name]. *)
Definition ref_matches (name c : value) : bool :=
  match column_name c with Some n => py_eq name n | None => false end.

(** The column [c] with [ref] under "references" when it carries the
    name [name]. *)
Definition with_reference (name ref c : value) : value :=
  match c with
  | VDict d => if ref_matches name c then VDict (dset "references" ref d) else c
  | _ => c
  end.

Lemma with_reference_no_match (name ref : value) (cols : list value) :
  existsb (ref_matches name) cols = false →
  map (with_reference name ref) cols = cols.
Proof.
  induction cols as [|c cols IH]; simpl; [done|].
  intros [Hc Hrest]%orb_false_elim. rewrite IH by done.
  unfold with_reference. rewrite Hc. by destruct c.
Qed.

(** A descriptor that has lost its "name" cannot be attached again. *)
Lemma attach_ref_stale (name : value) (r : dict) (cols : list value) :
  Forall has_name cols →
  has_key "name" r = false →
  attach_ref name (VDict r) cols
  = if existsb (ref_matches name) cols then Err (KeyError "name")
    else Ok (VDict r, cols).
Proof.
  intros Hall Hr. induction Hall as [|c cols (d & n & -> & Hn) _ IH]; [done|].
  assert (Hm : ref_matches name (VDict d) = py_eq name n)
    by (unfold ref_matches; simpl; by rewrite Hn).
  cbn [attach_ref subscript existsb]. rewrite Hn, Hm. cbn [bind].
  destruct (py_eq name n); cbn [orb bind].
  - unfold del_item. by rewrite Hr.
  - cbn [fst snd]. rewrite IH. by destruct (existsb _ _).
Qed.

Lemma attach_ref_spec (name : value) (r : dict) (cols : list value) :
  Forall has_name cols →
  has_key "name" r = true →
  attach_ref name (VDict r) cols
  = match List.filter (ref_matches name) cols with
    | [] => Ok (VDict r, cols)
    | [_] => Ok (VDict (ddel "name" r),
                 map (with_reference name (VDict (ddel "name" r))) cols)
    | _ => Err (KeyError "name")
    end.
Proof.
  intros Hall Hr. induction Hall as [|c cols (d & n & -> & Hn) Hall IH]; [done|].
  assert (Hm : ref_matches name (VDict d) = py_eq name n)
    by (unfold ref_matches; simpl; by rewrite Hn).
  cbn [attach_ref subscript List.filter map with_reference].
  rewrite Hn, !Hm. cbn [bind].
  destruct (py_eq name n); cbn [bind].
  - unfold del_item. rewrite Hr. cbn [bind set_item fst snd].
    rewrite attach_ref_stale; [|done|].
    + rewrite <-filter_nonempty.
      destruct (List.filter (ref_matches name) cols) as [|x l] eqn:Hfl; [|done].
      cbn [bind fst snd]. rewrite with_reference_no_match; [done|].
      by rewrite <-filter_nonempty, Hfl.
    + unfold has_key. by rewrite dget_ddel_eq.
  - cbn [fst snd]. rewrite IH.
    destruct (List.filter (ref_matches name) cols) as [|x [|y l]]; done.
Qed.

(** X18: [normalize_ref_columns_in_final_output] with one descriptor:
    when no column carries the name of the descriptor the table is
    left as it is; when exactly one does, the descriptor loses its
    "name" and goes under "references" of that column; when two or
    more do, the second attachment finds the "name" gone and the call
    raises [KeyError]. *)
Theorem normalize_ref_columns_spec (self r : dict) (name : value)
    (cols : list value) :
  dget "ref_columns" self = Some (VList [VDict r]) →
  dget "name" r = Some name →
  dget "columns" self = Some (VList cols) →
  Forall has_name cols →
  normalize_ref_columns_in_final_output self
  = match List.filter (ref_matches name) cols with
    | [] => Ok self
    | [_] =>
        Ok (dset "ref_columns" (VList [VDict (ddel "name" r)])
              (dset "columns"
                 (VList (map (with_reference name (VDict (ddel "name" r))) cols))
                 self))
    | _ => Err (KeyError "name")
    end.
Proof.
  intros Hrefs Hname Hcols Hall.
  unfold normalize_ref_columns_in_final_output, getattr.
  rewrite Hrefs. cbn [bind py_iter foldM_res subscript fst snd].
  rewrite Hname, Hcols. cbn [bind].
  rewrite attach_ref_spec; [|done|by unfold has_key; rewrite Hname].
  destruct (List.filter (ref_matches name) cols) as [|x [|y l]]; cbn [bind fst snd].
  - simpl. rewrite (dset_same "columns") by done. by rewrite dset_same.
  - done.
  - done.
Qed.

(** *** The primary key *)

(** The column carries a "primary_key" flag. *)
Definition has_flag (c : value) : bool :=
  match c with VDict d => has_key "primary_key" d | _ => false end.

Lemma pk_scan_needs_flags (cols : list value) :
  Forall has_name cols →
  Exists (λ c, has_flag c = false) cols →
  pk_scan cols = Err (KeyError "primary_key").
Proof.
  intros Hall Hex. induction Hall as [|c cols (d & n & -> & Hn) _ IH].
  - by apply Exists_nil in Hex.
  - cbn [pk_scan subscript]. unfold has_flag, has_key in Hex.
    destruct (dget "primary_key" d) as [flag|] eqn:Hflag; [|done].
    cbn [bind]. rewrite Hn.
    assert (Hrest : Exists (λ c, has_flag c = false) cols).
    { apply Exists_cons in Hex as [Hex|Hex]; [|done]. simpl in Hex.
      by rewrite Hflag in Hex. }
    unfold del_item, has_key. rewrite Hflag.
    destruct (truthy flag); cbn [bind]; by rewrite (IH Hrest).
Qed.

Lemma remove_flags_needs_flags (cols : list value) :
  Forall has_name cols →
  Exists (λ c, has_flag c = false) cols →
  mapM_res (λ column, del_item (K:=table_id) column "primary_key") cols
  = Err (KeyError "primary_key").
Proof.
  intros Hall Hex. induction Hall as [|c cols (d & n & -> & Hn) _ IH].
  - by apply Exists_nil in Hex.
  - cbn [mapM_res del_item]. unfold has_flag in Hex.
    destruct (has_key "primary_key" d) eqn:Hflag; [|done].
    cbn [bind]. rewrite IH; [done|].
    apply Exists_cons in Hex as [Hex|Hex]; [|done]. simpl in Hex. congruence.
Qed.

(** X19: every column of a table has to carry a "primary_key" flag:
    when one column lacks it, [populate_keys] raises [KeyError],
    whether or not the table declares a primary key of its own. *)
Theorem populate_keys_needs_flags (self : dict) (pk : value) (cols : list value) :
  dget "primary_key" self = Some pk →
  dget "columns" self = Some (VList cols) →
  Forall has_name cols →
  Exists (λ c, has_flag c = false) cols →
  populate_keys self = Err (KeyError "primary_key").
Proof.
  intros Hpk Hcols Hall Hex. unfold populate_keys, getattr.
  rewrite Hpk. cbn [bind]. destruct (truthy pk); cbn [negb].
  - unfold remove_pk_from_columns, getattr. rewrite Hcols. cbn [bind for_each].
    by rewrite remove_flags_needs_flags.
  - unfold get_pk_from_columns_and_constraints, getattr. rewrite Hcols.
    cbn [bind]. by rewrite pk_scan_needs_flags.
Qed.

(** X20: a primary key the table declares itself is final: when the
    "primary_key" attribute is truthy, [__post_init__] leaves it as it
    is, and neither the flags of the columns nor the primary-key
    constraints add to it. *)
Theorem declared_primary_key_is_kept (self self' : dict) :
  truthy (dict_get "primary_key" self) = true →
  post_init BaseData self = Ok self' →
  dget "primary_key" self' = dget "primary_key" self.
Proof.
  intros Ht Hp. unfold post_init in Hp.
  destruct (set_unique_columns self) as [s1|] eqn:H1; cbn [bind] in Hp; [|done].
  destruct (populate_keys s1) as [s2|] eqn:H2; cbn [bind] in Hp; [|done].
  destruct (normalize_ref_columns_in_final_output s2) as [s3|] eqn:H3;
    cbn [bind] in Hp; [|done].
  injection Hp as <-.
  apply set_unique_columns_frame in H1 as [Hs1 _].
  apply normalize_ref_columns_frame in H3 as [Hs3 _].
  rewrite Hs3, <-(Hs1 "primary_key") by names_solver.
  assert (Ht1 : truthy (dict_get "primary_key" s1) = true).
  { unfold dict_get. rewrite Hs1 by names_solver. exact Ht. }
  clear -H2 Ht1. unfold populate_keys, getattr in H2. unfold dict_get in Ht1.
  destruct (dget "primary_key" s1) as [pk|] eqn:Hpk; [|done].
  cbn [bind] in H2. rewrite Ht1 in H2. cbn [negb] in H2.
  destruct (remove_pk_from_columns s1) as [s2a|] eqn:Hr; cbn [bind] in H2; [|done].
  assert (Ha : dget "primary_key" s2a = Some pk).
  { unfold remove_pk_from_columns in Hr. run_binds Hr. injection Hr as <-.
    by rewrite dget_dset_ne. }
  destruct (dget "unique" s2a) as [u|]; cbn [bind] in H2; [|done].
  assert (Hb : ∃ s2b, (if truthy u then add_unique_columns s2a else Ok s2a) = Ok s2b
                      ∧ dget "primary_key" s2b = Some pk).
  { destruct (truthy u); [|eauto].
    destruct (add_unique_columns s2a) as [s2b|] eqn:Hu; [|done].
    exists s2b. split; [done|].
    unfold add_unique_columns in Hu. run_binds Hu. injection Hu as <-.
    by rewrite dget_dset_ne. }
  destruct Hb as (s2b & Hb & Hpkb). rewrite Hb in H2. cbn [bind] in H2.
  run_binds H2. injection H2 as <-. by rewrite dget_dset_ne.
Qed.

(** *** Attribute updates *)

Lemma dget_dupdate {A} (other d : list (string * A)) (k : string) :
  NoDup (keys other) →
  dget k (dupdate d other)
  = match dget k other with Some v => Some v | None => dget k d end.
Proof.
  unfold dupdate. revert d.
  induction other as [|[k0 v0] other IH]; intros d Hnd; simpl; [done|].
  apply NoDup_cons in Hnd as [Hk0 Hnd]. rewrite IH by done.
  destruct (String.eqb_spec k k0) as [->|Hne].
  - assert (Hnone : dget k0 other = None).
    { clear -Hk0. induction other as [|[k1 v1] other IH]; simpl; [done|].
      simpl in Hk0. apply not_elem_of_cons in Hk0 as [Hne Hk0].
      destruct (String.eqb_spec k0 k1); [done|by apply IH]. }
    by rewrite Hnone, dget_dset_eq.
  - by rewrite dget_dset_ne.
Qed.

Lemma dget_if_not_exist_update (input_dict : dict) : ∀ (self : dict) (k : string),
  dget k (if_not_exist_update self input_dict)
  = match dget k self with Some v => Some v | None => dget k input_dict end.
Proof.
  unfold if_not_exist_update.
  induction input_dict as [|[k0 v0] input_dict IH]; intros self k; simpl.
  - by destruct (dget k self).
  - rewrite IH. unfold has_key.
    destruct (dget k0 self) as [x|] eqn:Hk0.
    + destruct (dget k self) eqn:Hk; [done|].
      destruct (String.eqb_spec k k0) as [->|Hne]; [congruence|done].
    + destruct (String.eqb_spec k k0) as [->|Hne].
      * by rewrite dget_dset_eq, Hk0.
      * by rewrite dget_dset_ne.
Qed.

Lemma if_not_exist_update_present (input_dict : dict) : ∀ self : dict,
  (∀ k v, (k, v) ∈ input_dict → has_key k self = true) →
  if_not_exist_update self input_dict = self.
Proof.
  unfold if_not_exist_update.
  induction input_dict as [|[k0 v0] input_dict IH]; intros self Hall; simpl; [done|].
  rewrite (Hall k0 v0) by left. apply IH. intros k v Hin. apply (Hall k v). by right.
Qed.

(** X21: [if_not_exist_update] never overwrites: an attribute the
    object has keeps its value, and an attribute it lacks gets the
    value of the input; [update] is the opposite, the input wins.
    Updating a second time with the same input changes nothing, in
    either way. *)
Theorem attribute_updates (self input_dict : dict) :
  NoDup (keys input_dict) →
  (∀ k, dget k (if_not_exist_update self input_dict)
        = match dget k self with Some v => Some v | None => dget k input_dict end)
  ∧ (∀ k, dget k (BaseData_update self input_dict)
          = match dget k input_dict with Some v => Some v | None => dget k self end)
  ∧ (∀ k dflt, BaseData_get (if_not_exist_update self input_dict) k dflt
               = BaseData_get self k (BaseData_get input_dict k dflt))
  ∧ if_not_exist_update (if_not_exist_update self input_dict) input_dict
    = if_not_exist_update self input_dict.
Proof.
  intros Hnd. split; [apply dget_if_not_exist_update|].
  split; [intros k; by apply dget_dupdate|]. split.
  - intros k dflt. unfold BaseData_get. rewrite dget_if_not_exist_update.
    by destruct (dget k self).
  - apply if_not_exist_update_present. intros k v Hin.
    unfold has_key. rewrite dget_if_not_exist_update.
    destruct (dget k self); [done|].
    apply has_key_elem_of in Hin. unfold has_key in Hin.
    by destruct (dget k input_dict).
Qed.

(** *** UNIQUE statements and dialects *)

(** The column [c] with "unique" set when its name is in the list. *)
Definition mark_listed (names : list value) (c : value) : value :=
  match c with
  | VDict d =>
      match dget "name" d with
      | Some n =>
          if existsb (λ e, py_eq e n) names
          then VDict (dset "unique" (VBool true) d)
          else c
      | None => c
      end
  | _ => c
  end.

Lemma mark_listed_nil (cols : list value) : map (mark_listed []) cols = cols.
Proof.
  induction cols as [|c cols IH]; simpl; [done|]. rewrite IH.
  destruct c as [| | | | |d]; try done. simpl. by destruct (dget "name" d).
Qed.

Lemma set_column_unique_param_listed (self : dict) (key : string)
    (names cols : list value) :
  String.eqb key "constraints" = false →
  dget key self = Some (VList names) →
  dget "columns" self = Some (VList cols) →
  Forall has_name cols →
  set_column_unique_param self key
  = Ok (dset "columns" (VList (map (mark_listed names) cols)) self).
Proof.
  intros Hkey Hnames Hcols Hall. unfold set_column_unique_param, getattr.
  rewrite Hcols, Hkey. cbn [bind for_each].
  rewrite (mapM_res_map _ (mark_listed names)); [done|].
  eapply Forall_impl; [exact Hall|]. intros c (d & n & -> & Hn).
  unfold getattr_default. rewrite Hnames. cbn [bind subscript]. rewrite Hn.
  cbn [bind py_in mark_listed]. rewrite Hn.
  by destruct (existsb _ names).
Qed.

Lemma set_column_unique_param_silent (self constraints : dict) (cols : list value) :
  dget "constraints" self = Some (VDict constraints) →
  truthy (dict_get "unique" constraints) = false →
  dget "columns" self = Some (VList cols) →
  Forall has_name cols →
  set_column_unique_param self "constraints" = Ok self.
Proof.
  intros Hcons Hsilent Hcols Hall. unfold set_column_unique_param, getattr.
  rewrite Hcols. cbn [bind for_each String.eqb Ascii.eqb Bool.eqb].
  rewrite (mapM_res_map _ id).
  - cbn [bind]. by rewrite map_id, dset_same.
  - eapply Forall_impl; [exact Hall|]. intros c (d & n & -> & Hn).
    unfold getattr_default. rewrite Hcons. cbn [get_method bind].
    unfold dict_get in Hsilent.
    destruct (dget "unique" constraints) as [u|]; cbn [truthy] in Hsilent |- *.
    + rewrite Hsilent. cbn [bind subscript]. by rewrite Hn.
    + cbn [bind subscript]. by rewrite Hn.
Qed.

(** X22: on a table whose columns all have a name and whose
    "constraints" hold no truthy "unique" entry, [set_unique_columns]
    sets "unique" to [True] on exactly the columns whose name is, as
    written, in the list "unique_statement", and leaves the other
    columns and every other attribute as they are. *)
Theorem set_unique_columns_spec (self : dict) (names cols : list value) :
  dget "columns" self = Some (VList cols) →
  Forall has_name cols →
  dget "unique_statement" self = Some (VList names) →
  (truthy (dict_get "constraints" self) = false
   ∨ ∃ constraints, dget "constraints" self = Some (VDict constraints)
                    ∧ truthy (dict_get "unique" constraints) = false) →
  set_unique_columns self
  = Ok (dset "columns" (VList (map (mark_listed names) cols)) self).
Proof.
  intros Hcols Hall Hnames Hcons. unfold set_unique_columns.
  cbn [foldM_res]. unfold getattr_default at 1. rewrite Hnames.
  assert (Hfirst : (if truthy (VList names)
                    then set_column_unique_param self "unique_statement"
                    else Ok self)
                   = Ok (dset "columns" (VList (map (mark_listed names) cols)) self)).
  { destruct names as [|x names].
    - cbn [truthy]. by rewrite mark_listed_nil, dset_same.
    - cbn [truthy]. by apply set_column_unique_param_listed. }
  rewrite Hfirst. cbn [bind].
  set (self1 := dset "columns" (VList (map (mark_listed names) cols)) self).
  assert (Hnamed : Forall has_name (map (mark_listed names) cols)).
  { apply Forall_map. eapply Forall_impl; [exact Hall|].
    intros c (d & n & -> & Hn). simpl. rewrite Hn.
    destruct (existsb _ names); [|by exists d, n].
    exists (dset "unique" (VBool true) d), n. by rewrite dget_dset_ne. }
  assert (Hc1 : dget "constraints" self1 = dget "constraints" self)
    by (unfold self1; by rewrite dget_dset_ne).
  unfold getattr_default. rewrite Hc1.
  destruct Hcons as [Hfalsy|(constraints & Hc & Hsilent)].
  - unfold dict_get in Hfalsy. by rewrite Hfalsy.
  - rewrite Hc. destruct (truthy (VDict constraints)); [|done].
    cbn [foldM_res].
    rewrite (set_column_unique_param_silent self1 constraints
               (map (mark_listed names) cols)); [done|by rewrite Hc1|done| |done].
    apply dget_dset_eq.
Qed.

(** X23: in an output mode other than "sql" for which
    [dialect_by_name] has no class, every statement that describes a
    table makes [format] raise [AttributeError]: [get_dialect_class]
    reads [__name__] of the class it did not find. *)
Theorem unknown_dialect_aborts (self : Output) (pre rest : list dict)
    (statement : dict) :
  emitted statement = true →
  truthy (dict_get "table_name" statement) = true →
  String.eqb (output_mode self) "" = false →
  String.eqb (output_mode self) "sql" = false →
  dialect_by_name (VStr (output_mode self)) = None →
  format_step self statement = Err (AttributeError "__name__")
  ∧ ∀ self0, format_loop self0 pre = Ok self →
             format self0 (pre ++ statement :: rest)
             = Err (AttributeError "__name__").
Proof.
  intros He Ht Hm1 Hm2 Hd.
  assert (Hstep : format_step self statement = Err (AttributeError "__name__")).
  { unfold format_step. unfold emitted in He. apply negb_true_iff in He.
    rewrite He. unfold process_statement_data. rewrite Ht.
    unfold TableData_init, get_dialect_class, dict_get.
    rewrite dget_dset_eq. cbn [truthy py_eq]. rewrite Hm1, Hm2. cbn [negb andb].
    by rewrite Hd. }
  split; [exact Hstep|]. intros self0 Hpre. unfold format.
  rewrite format_loop_app, Hpre. cbn [bind]. unfold format_loop at 1.
  cbn [foldM_res]. by rewrite Hstep.
Qed.

End Reconciliation.

(** ** A concrete instance of the imported helpers *)

(** ASCII letters are lowered; the quoting characters are the double
    quote, the backquote and the square brackets. *)
Definition lower_ascii (c : Ascii.ascii) : Ascii.ascii :=
  let n := Ascii.nat_of_ascii c in
  if (65 <=? n)%nat && (n <=? 90)%nat then Ascii.ascii_of_nat (n + 32) else c.

Definition is_quote (c : Ascii.ascii) : bool :=
  let n := Ascii.nat_of_ascii c in
  (n =? 34)%nat || (n =? 96)%nat || (n =? 91)%nat || (n =? 93)%nat.

Fixpoint normalize_string (s : string) : string :=
  match s with
  | EmptyString => EmptyString
  | String c s' =>
      if is_quote c then normalize_string s'
      else String (lower_ascii c) (normalize_string s')
  end.

(** Modelled from the spec: [normalize_name] of [simple_ddl_parser.utils],
    "a canonical form that strips quoting/case distinctions used by the
    grammar": the quoting characters are removed and the letters are
    lowered. *)
Definition normalize_name_model {K} (v : value) : res K value :=
  match v with
  | VStr s => Ok (VStr (normalize_string s))
  | _ => Err TypeError
  end.

(** Modelled from the spec: [get_table_id] of [simple_ddl_parser.utils],
    the registry key "(schema-or-dataset, table_name)" over normalized
    names; an absent schema is the empty string. *)
Definition get_table_id_model (schema_name table_name : value)
  : res (string * string) (string * string) :=
  match table_name with
  | VStr t =>
      match schema_name with
      | VStr s => Ok (normalize_string s, normalize_string t)
      | VNone => Ok ("", normalize_string t)
      | _ => Err TypeError
      end
  | _ => Err TypeError
  end.

(** Modelled from the spec: [dialects_clean_up] of
    [simple_ddl_parser.output.dialects]; "everything else passes through
    unchanged". *)
Definition dialects_clean_up_model {K} (output_mode : string) (data : dict)
  : res K dict := Ok data.

(** Modelled from the spec: [dialect_by_name] of
    [simple_ddl_parser.output.dialects]; only the generic schema of the
    default tag "sql" is at hand. *)
Definition dialect_by_name_model {K} (output_mode : value) : option (@dataclass K) :=
  None.

Notation tid := (string * string)%type.

Definition loop (output_mode : string) (group_by_type : bool)
    (parser_output : list dict) : res tid (Output (table_id:=tid)) :=
  format_loop dialect_by_name_model normalize_name_model get_table_id_model
    dialects_clean_up_model (Output_init output_mode group_by_type) parser_output.

Definition run (output_mode : string) (group_by_type : bool)
    (parser_output : list dict) : res tid value :=
  format dialect_by_name_model normalize_name_model get_table_id_model
    dialects_clean_up_model (Output_init output_mode group_by_type) parser_output.

(** The state a successful loop ends in. *)
Definition state_after (parser_output : list dict) : Output (table_id:=tid) :=
  match loop "sql" false parser_output with
  | Ok self => self
  | Err _ => Output_init "sql" false
  end.

(** ** Statement records used below *)

Definition col (name : string) (pk unique : bool) : value :=
  VDict [("name", VStr name); ("type", VStr "int"); ("nullable", VBool true);
         ("unique", VBool unique); ("primary_key", VBool pk)].

(** CREATE TABLE s.t (id int PRIMARY KEY, email int) *)
Definition create_t : dict :=
  [("schema", VStr "s"); ("table_name", VStr "t");
   ("columns", VList [col "id" true false; col "email" false false])].

(** CREATE TABLE s.u (Foo int) *)
Definition create_u : dict :=
  [("schema", VStr "s"); ("table_name", VStr "u");
   ("columns", VList [col "Foo" false false])].

Definition alter (table_name : string) (operation : dict) : dict :=
  [("schema", VStr "s"); ("alter_table_name", VStr table_name)] ++ operation.

Definition add_unique (name : string) : dict :=
  [("unique", VDict [("columns", VList [VStr name])])].

Definition add_default (name : string) : dict :=
  [("default", VDict [("columns", VList [VStr name]); ("value", VInt 0)])].

Definition add_columns (name : string) : dict :=
  [("columns", VList [VDict [("name", VStr name); ("type", VStr "int")]])].

Definition drop_columns (name : string) : dict :=
  [("columns_to_drop", VList [VStr name])].

Definition modify_columns (name : string) : dict :=
  [("columns_to_modify",
    VList [VDict [("name", VStr name); ("type", VStr "text");
                  ("nullable", VBool true); ("unique", VBool false)]])].

Definition create_sequence : dict :=
  [("schema", VStr "s"); ("sequence_name", VStr "seq")].

Definition create_tablespace : dict := [("tablespace_name", VStr "ts1")].

Definition note : dict := [("note", VStr "x")].

(** The attribute [attr] of column number [column] of entry number
    [table] of a flat result. *)
Definition column_attr (result : res tid value) (table column : nat)
    (attr : string) : option value :=
  match result with
  | Ok (VList items) =>
      match items !! table with
      | Some (VDict t) =>
          match dget "columns" t with
          | Some (VList cols) =>
              match cols !! column with
              | Some (VDict c) => dget attr c
              | _ => None
              end
          | _ => None
          end
      | _ => None
      end
  | _ => None
  end.

(** The table object number [o] of a state, and an attribute of it. *)
Definition table_of (self : Output (table_id:=tid)) (o : nat) : dict :=
  match store self !! o with Some t => t | None => [] end.

(** ** The claims on concrete runs *)

(** The end-to-end example of the specification: a table with a
    flagged column, then ALTER ADD UNIQUE on the other column. *)
Example create_then_add_unique :
  column_attr (run "sql" false [create_t; alter "t" (add_unique "email")])
    0 0 "nullable" = Some (VBool false)
  ∧ column_attr (run "sql" false [create_t; alter "t" (add_unique "email")])
      0 1 "unique" = Some (VBool true)
  ∧ ∃ entity,
      run "sql" false [create_t; alter "t" (add_unique "email")]
      = Ok (VList [VDict entity])
      ∧ dget "table_name" entity = Some (VStr "t")
      ∧ dget "schema" entity = Some (VStr "s")
      ∧ dget "primary_key" entity = Some (VList [VStr "id"]).
Proof.
  split; [vm_compute; reflexivity|]. split; [vm_compute; reflexivity|].
  eexists. split; [vm_compute; reflexivity|]. repeat split.
Qed.

(** C1 at work: an ALTER naming the unregistered table s.missing ends
    the run with the error carrying that id. *)
Lemma unknown_table_aborts_witness :
  run "sql" false ([create_t] ++ alter "missing" (add_unique "email")
                     :: [alter "t" (add_unique "email")])
  = Err (ValueError ("s", "missing")).
Proof.
  refine (proj2 (proj1 (unknown_table_aborts
    dialect_by_name_model normalize_name_model get_table_id_model
    dialects_clean_up_model "sql" false (state_after [create_t]) [create_t]
    [alter "t" (add_unique "email")] (alter "missing" (add_unique "email"))
    (VStr "s") (VStr "missing") ("s", "missing") _ _) _ _)).
  - vm_compute. reflexivity.
  - reflexivity.
  - right. repeat split; reflexivity.
  - vm_compute. reflexivity.
Defined.

(** C2 at work: "comment" is given with the value [None] and is in the
    output; "like" is not given and is not, although its default is a
    dictionary. *)
Definition create_with_comment : dict :=
  dset "output_mode" (VStr "sql") (create_t ++ [("comment", VNone)]).

Definition built (kwargs : dict) : dict :=
  match TableData_init (table_id:=tid) dialect_by_name_model kwargs with
  | Ok r => r.2
  | Err _ => []
  end.

Definition output_of (kwargs : dict) : dict :=
  match to_dict (table_id:=tid) BaseData (built kwargs) with
  | Ok d => d
  | Err _ => []
  end.


(** C3 at work: one flagged column and one table-level constraint. *)
Definition unresolved_table : dict :=
  [("primary_key", VNone);
   ("columns", VList [col "id" true false; col "email" false false]);
   ("constraints",
    VDict [("primary_keys", VList [VDict [("columns", VList [VStr "email"])]])]);
   ("unique", VList []);
   ("unique_statement", VList []);
   ("ref_columns", VList [])].

Definition resolved_table : dict :=
  match post_init (table_id:=tid) BaseData unresolved_table with
  | Ok t => t
  | Err _ => []
  end.

Lemma primary_key_resolution_witness :
  ∃ cols' pk,
    dget "columns" resolved_table = Some (VList cols')
    ∧ dget "primary_key" resolved_table = Some pk
    ∧ (truthy (dict_get "primary_key" unresolved_table) = false →
       pk = VList (flagged_names [col "id" true false; col "email" false false]
                   ++ constraint_pk_names (table_id:=tid)
                        (dict_get "constraints" unresolved_table)))
    ∧ Forall2 (resolved_column (table_id:=tid) pk)
        [col "id" true false; col "email" false false] cols'.
Proof.
  apply (primary_key_resolution (table_id:=tid) unresolved_table resolved_table).
  - reflexivity.
  - vm_compute. reflexivity.
Defined.

(** C4 at work: an ALTER DROP COLUMN on a table with a unique column. *)
Lemma unique_is_kept_witness :
  ∃ t',
    store (state_after [create_t; alter "t" (add_unique "email");
                        alter "t" (drop_columns "id")]) !! 0%nat = Some t'
    ∧ (∀ cols,
         dget "columns"
           (table_of (state_after [create_t; alter "t" (add_unique "email")]) 0)
         = Some (VList cols) →
         ∃ cols', dget "columns" t' = Some (VList cols')
                  ∧ (Forall2 keeps_unique cols cols' ∨ cols' `sublist_of` cols))
    ∧ (has_key "columns_to_drop" (alter "t" (drop_columns "id")) = false →
       columns_keep_unique
         (table_of (state_after [create_t; alter "t" (add_unique "email")]) 0)
         t').
Proof.
  apply (proj2 (unique_is_kept (table_id:=tid) dialect_by_name_model
    normalize_name_model get_table_id_model dialects_clean_up_model)
    (state_after [create_t; alter "t" (add_unique "email")]) _
    (alter "t" (drop_columns "id")) 0%nat).
  - vm_compute. reflexivity.
  - reflexivity.
  - vm_compute. reflexivity.
Defined.

(** C4 as stated fails: the column email is unique after the ALTER ADD
    UNIQUE, and the ALTER MODIFY COLUMN that follows replaces it by the
    column of the statement, which is not. *)
Lemma unique_lost_by_modify :
  column_attr (run "sql" false [create_t; alter "t" (add_unique "email")])
    0 1 "unique" = Some (VBool true)
  ∧ column_attr (run "sql" false [create_t; alter "t" (add_unique "email");
                                  alter "t" (modify_columns "email")])
      0 1 "unique" = Some (VBool false).
Proof. split; vm_compute; reflexivity. Qed.

(** C5 fails on ALTER ADD COLUMN: [add_alter_to_table] calls
    [target_table.prepare_alter_columns], which no table class defines
    ([prepare_alter_columns] sits at module level in base_data.py), so
    the run ends with an [AttributeError] instead of a result. *)
Theorem add_columns_alter_aborts :
  run "sql" false [create_t; alter "t" (add_columns "age")]
  = Err (AttributeError "prepare_alter_columns").
Proof. vm_compute. reflexivity. Qed.

(** C6 fails on ALTER ADD UNIQUE and ALTER ADD DEFAULT: "Foo" and
    "foo" have the same normalized name, ALTER DROP COLUMN foo removes
    the column Foo, but ALTER ADD UNIQUE (foo) and ALTER ADD DEFAULT
    FOR foo compare the raw names and leave the column Foo as it is. *)
Theorem add_unique_compares_raw_names :
  normalize_name_model (K:=tid) (VStr "Foo") = normalize_name_model (VStr "foo")
  ∧ column_attr (run "sql" false [create_u; alter "u" (drop_columns "foo")])
      0 0 "name" = None
  ∧ column_attr (run "sql" false [create_u; alter "u" (add_unique "foo")])
      0 0 "unique" = Some (VBool false)
  ∧ column_attr (run "sql" false [create_u; alter "u" (add_unique "Foo")])
      0 0 "unique" = Some (VBool true)
  ∧ column_attr (run "sql" false [create_u; alter "u" (add_default "foo")])
      0 0 "default" = None
  ∧ column_attr (run "sql" false [create_u; alter "u" (add_default "Foo")])
      0 0 "default" = Some (VInt 0).
Proof. repeat split; vm_compute; reflexivity. Qed.

(** C7 at work: two drops, then two modifications, in sequence. *)
Definition plain_table : dict :=
  [("columns", VList [col "id" false false; col "email" false false]);
   ("alter", VDict [])].

Definition after_drops : dict :=
  match foldM_res (alter_drop_columns (table_id:=tid) normalize_name_model)
          plain_table [drop_columns "id"; drop_columns "EMAIL"] with
  | Ok t => t
  | Err _ => []
  end.

Definition after_modifications : dict :=
  match foldM_res (alter_modify_columns (table_id:=tid) normalize_name_model)
          plain_table [modify_columns "id"; modify_columns "email"] with
  | Ok t => t
  | Err _ => []
  end.

Lemma ledger_slot_holds_last_witness :
  (dget "columns" after_drops = Some (VList [])
   ∧ slot_holds "dropped_columns" after_drops (col "email" false false))
  ∧ (dget "columns" after_modifications
     = Some (VList (columns_after_modifications (table_id:=tid) normalize_name_model
                      [modify_columns "id"; modify_columns "email"]
                      [col "id" false false; col "email" false false]))
     ∧ slot_holds "modified_columns" after_modifications (col "email" false false)).
Proof.
  split.
  - destruct (proj1 (ledger_slot_holds_last (table_id:=tid) normalize_name_model
      [drop_columns "id"; drop_columns "EMAIL"] plain_table after_drops
      [col "id" false false; col "email" false false] eq_refl)) as [Hc Hl].
    + vm_compute. reflexivity.
    + split; [exact Hc|]. apply Hl. vm_compute. reflexivity.
  - destruct (proj2 (ledger_slot_holds_last (table_id:=tid) normalize_name_model
      [modify_columns "id"; modify_columns "email"] plain_table after_modifications
      [col "id" false false; col "email" false false] eq_refl)) as [Hc Hl].
    + vm_compute. reflexivity.
    + split; [exact Hc|]. apply Hl. vm_compute. reflexivity.
Defined.

(** C8 at work: a CREATE SEQUENCE record between a table and an ALTER
    is the second entry of the result. *)
Lemma pass_through_record_witness :
  ∃ items,
    run "sql" false ([create_t] ++ create_sequence
                       :: [alter "t" (add_unique "email")]) = Ok (VList items)
    ∧ items !! 1%nat = Some (VDict create_sequence).
Proof.
  destruct (pass_through_record (table_id:=tid) dialect_by_name_model
    normalize_name_model get_table_id_model dialects_clean_up_model
    "sql" [create_t] [alter "t" (add_unique "email")] create_sequence
    create_sequence (state_after [create_t])) as (_ & _ & Hres);
    [reflexivity | reflexivity | reflexivity | reflexivity
    | vm_compute; reflexivity |].
  destruct (run "sql" false ([create_t] ++ create_sequence
                               :: [alter "t" (add_unique "email")]))
    as [result|e] eqn:Hrun; [|vm_compute in Hrun; discriminate Hrun].
  destruct (Hres result Hrun) as (items & -> & Hitem).
  exists items. split; [reflexivity | exact Hitem].
Defined.

(** C8 as stated fails: an ALTER record has no "table_name", and it is
    consumed, not emitted; and with [group_by_type] on, a record without
    a discriminator key is in no bucket of the result. *)
Lemma alter_record_not_emitted :
  dget "table_name" (alter "t" (add_unique "email")) = None
  ∧ (∃ entity,
       run "sql" false [create_t; alter "t" (add_unique "email")]
       = Ok (VList [entity]))
  ∧ truthy (dict_get "table_name" note) = false
  ∧ run "sql" true [note]
    = Ok (VDict [("tables", VList []); ("types", VList []);
                 ("sequences", VList []); ("domains", VList []);
                 ("schemas", VList []); ("ddl_properties", VList [])]).
Proof.
  split; [reflexivity|]. split; [|split; [reflexivity | vm_compute; reflexivity]].
  eexists. vm_compute. reflexivity.
Qed.

(** C9 at work: a table, a comments record and a sequence. *)
Definition comments_record : dict :=
  [("comments", VList [VStr "first"; VStr "second"])].

Lemma group_by_type_result_buckets_witness :
  ∃ r,
    group_by_type_result (table_id:=tid) [create_t; comments_record; create_sequence]
    = Ok r
    ∧ ∀ b, dget b r
           = expected_bucket (table_id:=tid) b
               [create_t; comments_record; create_sequence].
Proof.
  apply (group_by_type_result_buckets (table_id:=tid)).
  repeat constructor; intros Hrouted; try discriminate Hrouted.
  eexists. vm_compute. reflexivity.
Defined.

(** C9 as stated fails: an entity with "tablespace_name" makes a bucket
    "tablespaces", which is none of the keys the claim allows. *)
Lemma tablespaces_bucket_appears :
  ∃ r,
    group_by_type_result (table_id:=tid) [create_tablespace] = Ok r
    ∧ keys r = ["tables"; "types"; "sequences"; "domains"; "schemas";
                "ddl_properties"; "tablespaces"].
Proof. eexists. split; vm_compute; reflexivity. Qed.

(** C10 at work: nothing matches and the ledger is empty. *)
Lemma alter_drop_columns_no_match_witness :
  ∃ t',
    alter_drop_columns (table_id:=tid) normalize_name_model plain_table
      (drop_columns "zzz") = Ok t'
    ∧ dget "columns" t'
      = Some (VList [col "id" false false; col "email" false false])
    ∧ dget "alter" t' = Some (VDict [("dropped_columns", VList [])]).
Proof.
  apply (alter_drop_columns_no_match (table_id:=tid) normalize_name_model
    plain_table (drop_columns "zzz") []
    [col "id" false false; col "email" false false] [VStr "zzz"]).
  - reflexivity.
  - reflexivity.
  - reflexivity.
  - repeat constructor.
Defined.

(** C10 as stated fails: after a first drop, a drop that matches
    nothing leaves the earlier entry, not the empty list. *)
Lemma earlier_dropped_column_is_kept :
  ∃ t',
    alter_drop_columns (table_id:=tid) normalize_name_model after_drops
      (drop_columns "zzz") = Ok t'
    ∧ dget "columns" t' = dget "columns" after_drops
    ∧ dget "alter" t'
      = Some (VDict [("dropped_columns",
                      VDict [("name", VStr "email"); ("type", VStr "int");
                             ("nullable", VBool true); ("unique", VBool false);
                             ("primary_key", VBool false)])]).
Proof. eexists. repeat split; vm_compute; reflexivity. Qed.

(** ** The further properties on concrete inputs *)

(** CREATE INDEX i ON s.t (email) *)
Definition create_index (table_name : string) : dict :=
  [("schema", VStr "s"); ("table_name", VStr table_name);
   ("index_name", VStr "i"); ("clustered", VBool false);
   ("columns", VList [VStr "email"])].

Definition rename_columns (old_name new_name : string) : dict :=
  [("columns_to_rename",
    VList [VDict [("from", VStr old_name); ("to", VStr new_name)]])].

Definition add_check : dict :=
  [("check", VDict [("constraint_name", VNone);
                    ("statement", VList [VStr "id"; VStr ">"; VStr "0"])])].

(** The table a function leaves, when it returns one. *)
Definition table_after (r : res tid dict) : dict :=
  match r with Ok t => t | Err _ => [] end.

Lemma plain_table_has_names :
  Forall has_name [col "id" false false; col "email" false false].
Proof. repeat constructor; by eexists _, _. Qed.

Lemma clean_up_index_statement_spec_witness :
  ∃ statement',
    clean_up_index_statement (Output_init (table_id:=tid) "sql" false)
      (create_index "t") = Ok statement'
    ∧ ∀ k, dget k statement'
           = if bool_decide
                  (k ∈ index_echo_keys (Output_init (table_id:=tid) "sql" false))
             then None else dget k (create_index "t").
Proof.
  refine (proj1 (clean_up_index_statement_spec
                   (Output_init (table_id:=tid) "sql" false) (create_index "t")
                   _ _) _).
  - reflexivity.
  - reflexivity.
  - right. reflexivity.
Defined.

Lemma add_index_to_table_appends_witness :
  ∃ schema table_name id o target_table index statement',
    dget "schema" (create_index "t") = Some schema
    ∧ dget "table_name" (create_index "t") = Some table_name
    ∧ get_table_id_model schema table_name = Ok id
    ∧ tables_dict (state_after [create_t]) !! id = Some o
    ∧ store (state_after [create_t]) !! o = Some target_table
    ∧ dget "index" target_table = Some (VList index)
    ∧ clean_up_index_statement (state_after [create_t]) (create_index "t")
      = Ok statement'
    ∧ store (state_after [create_t; create_index "t"]) !! o
      = Some (dset "index" (VList (index ++ [VDict statement'])) target_table)
    ∧ (∀ o', o' ≠ o → store (state_after [create_t; create_index "t"]) !! o'
                      = store (state_after [create_t]) !! o')
    ∧ tables_dict (state_after [create_t; create_index "t"])
      = tables_dict (state_after [create_t])
    ∧ final_result (state_after [create_t; create_index "t"])
      = final_result (state_after [create_t]).
Proof.
  apply (add_index_to_table_appends get_table_id_model (state_after [create_t])
           (state_after [create_t; create_index "t"]) (create_index "t")).
  vm_compute. reflexivity.
Defined.

Lemma alter_rename_columns_spec_witness :
  ∃ cols',
    dget "columns"
      (table_after (alter_rename_columns normalize_name_model plain_table
                      (rename_columns "ID" "key")))
    = Some (VList cols')
    ∧ Forall2 renamed_only [col "id" false false; col "email" false false] cols'
    ∧ dget "alter"
        (table_after (alter_rename_columns normalize_name_model plain_table
                        (rename_columns "ID" "key")))
      = Some (VDict (dset "renamed_columns"
                       (VList (ledger_entries "renamed_columns" []
                               ++ statement_items (table_id:=tid) "columns_to_rename"
                                    (rename_columns "ID" "key")))
                       []))
    ∧ ∀ k, k ≠ "columns" → k ≠ "alter" →
           dget k (table_after (alter_rename_columns normalize_name_model
                                  plain_table (rename_columns "ID" "key")))
           = dget k plain_table.
Proof.
  apply (alter_rename_columns_spec (table_id:=tid) normalize_name_model
           plain_table _ (rename_columns "ID" "key") []
           [col "id" false false; col "email" false false]).
  - reflexivity.
  - reflexivity.
  - vm_compute. reflexivity.
Defined.

Definition add_unique_using : dict :=
  add_unique "email" ++ [("using", VStr "btree")].

Lemma set_alter_to_table_data_spec_witness :
  ∃ payload,
    dget "unique"
      (match set_alter_to_table_data (table_id:=tid) "unique" add_unique_using
               plain_table with
       | Ok r => r.1
       | Err _ => []
       end) = Some payload
    ∧ (∃ p, dget "unique" add_unique_using = Some (VDict p)
            ∧ payload = VDict (dset "using" (VStr "btree") p)
            ∧ match set_alter_to_table_data (table_id:=tid) "unique"
                      add_unique_using plain_table with
              | Ok r => r.1
              | Err _ => []
              end = dset "unique" payload add_unique_using)
    ∧ match set_alter_to_table_data (table_id:=tid) "unique" add_unique_using
              plain_table with
      | Ok r => r.2
      | Err _ => []
      end
      = dset "alter"
          (VDict (dset "uniques"
                    (VList (ledger_entries "uniques" [] ++ [payload])) []))
          plain_table.
Proof.
  apply (set_alter_to_table_data_spec (table_id:=tid) "unique" add_unique_using
           _ plain_table _ []).
  - reflexivity.
  - vm_compute. reflexivity.
Defined.

Lemma set_unique_columns_from_alter_spec_witness :
  set_unique_columns_from_alter (table_id:=tid) (add_unique "email") plain_table
  = Ok (dset "columns"
          (VList (map (mark_named "unique" (VBool true) [VStr "email"])
                    [col "id" false false; col "email" false false]))
          plain_table).
Proof.
  apply (set_unique_columns_from_alter_spec (table_id:=tid) (add_unique "email")
           plain_table [("columns", VList [VStr "email"])]).
  - reflexivity.
  - reflexivity.
  - reflexivity.
  - exact plain_table_has_names.
Defined.

Lemma set_default_columns_from_alter_spec_witness :
  set_default_columns_from_alter (table_id:=tid) (add_default "email") plain_table
  = Ok (dset "columns"
          (VList (map (mark_named "default" (VInt 0) [VStr "email"])
                    [col "id" false false; col "email" false false]))
          plain_table).
Proof.
  refine (proj1 (set_default_columns_from_alter_spec (table_id:=tid)
                   (add_default "email") plain_table
                   [("columns", VList [VStr "email"]); ("value", VInt 0)]
                   [col "id" false false; col "email" false false] _ _ _)
            [VStr "email"] (VInt 0) _ _).
  - reflexivity.
  - reflexivity.
  - exact plain_table_has_names.
  - reflexivity.
  - reflexivity.
Defined.

Lemma alter_add_check_spec_witness :
  alter_add_check (table_id:=tid) plain_table add_check
  = Ok (dset "alter"
          (VDict [("checks",
                   VList [VDict [("constraint_name", VNone);
                                 ("statement", VStr "id > 0")]])])
          plain_table).
Proof.
  refine (alter_add_check_spec (table_id:=tid) plain_table add_check []
            [("constraint_name", VNone);
             ("statement", VList [VStr "id"; VStr ">"; VStr "0"])]
            ["id"; ">"; "0"] _ _ _ _).
  - reflexivity.
  - intros Hledger. discriminate Hledger.
  - reflexivity.
  - reflexivity.
Defined.

Lemma alter_drop_columns_first_match_witness :
  alter_drop_columns (table_id:=tid) normalize_name_model plain_table
    (drop_columns "EMAIL")
  = Ok (dset "columns" (VList [col "id" false false])
          (dset "alter" (VDict [("dropped_columns", col "email" false false)])
             plain_table)).
Proof.
  refine (alter_drop_columns_first_match (table_id:=tid) normalize_name_model
            plain_table (drop_columns "EMAIL") [] (VStr "EMAIL")
            (col "email" false false) [col "id" false false] [] _ _ _ _ _).
  - reflexivity.
  - reflexivity.
  - reflexivity.
  - constructor; [reflexivity|constructor].
  - reflexivity.
Defined.

Lemma alter_modify_columns_first_match_witness :
  alter_modify_columns (table_id:=tid) normalize_name_model plain_table
    (modify_columns "EMAIL")
  = Ok (dset "columns"
          (VList [col "id" false false;
                  VDict [("name", VStr "EMAIL"); ("type", VStr "text");
                         ("nullable", VBool true); ("unique", VBool false)]])
          (dset "alter" (VDict [("modified_columns", col "email" false false)])
             plain_table)).
Proof.
  refine (alter_modify_columns_first_match (table_id:=tid) normalize_name_model
            plain_table (modify_columns "EMAIL") []
            (VDict [("name", VStr "EMAIL"); ("type", VStr "text");
                    ("nullable", VBool true); ("unique", VBool false)])
            (VStr "EMAIL") (col "email" false false)
            [col "id" false false] [] _ _ _ _ _ _).
  - reflexivity.
  - reflexivity.
  - reflexivity.
  - reflexivity.
  - constructor; [reflexivity|constructor].
  - reflexivity.
Defined.

(** ALTER TABLE ADD PRIMARY KEY (email) *)
Definition add_primary_key : dict :=
  [("primary_key", VDict [("columns", VList [VStr "email"])])].

Definition keyed_table : dict := ("primary_key", VList [VStr "id"]) :: plain_table.

Lemma apply_alter_frame_witness :
  (∀ k, k ≠ "columns" → k ≠ "alter" →
        dget k (table_after (apply_alter normalize_name_model keyed_table
                               add_primary_key))
        = dget k keyed_table)
  ∧ (∀ k, has_key k keyed_table = true →
          has_key k (table_after (apply_alter normalize_name_model keyed_table
                                    add_primary_key)) = true).
Proof.
  apply (apply_alter_frame (table_id:=tid) normalize_name_model keyed_table _
           add_primary_key).
  vm_compute. reflexivity.
Defined.

Lemma format_loop_registry_witness :
  length (store (state_after [create_t; create_sequence; create_u;
                              alter "t" (add_unique "email")]))
  = (length (store (Output_init (table_id:=tid) "sql" false))
     + length (List.filter creates_table
                 [create_t; create_sequence; create_u;
                  alter "t" (add_unique "email")]))%nat
  ∧ (∀ id o, tables_dict (Output_init (table_id:=tid) "sql" false) !! id = Some o →
       ∃ o', tables_dict (state_after [create_t; create_sequence; create_u;
                                       alter "t" (add_unique "email")]) !! id
             = Some o' ∧ (o ≤ o')%nat)
  ∧ registry_wf (state_after [create_t; create_sequence; create_u;
                              alter "t" (add_unique "email")]).
Proof.
  apply (format_loop_registry dialect_by_name_model normalize_name_model
           get_table_id_model dialects_clean_up_model
           [create_t; create_sequence; create_u; alter "t" (add_unique "email")]
           (Output_init "sql" false)).
  - vm_compute. reflexivity.
  - apply Output_init_wf.
Defined.

(** A record with an "alter_table_name" key that holds nothing. *)
Definition empty_alter : dict :=
  [("schema", VStr "s"); ("alter_table_name", VNone)].

Lemma falsy_alter_record_is_skipped_witness :
  run "sql" false ([create_t] ++ empty_alter :: [create_sequence])
  = run "sql" false ([create_t] ++ [create_sequence]).
Proof.
  refine (falsy_alter_record_is_skipped dialect_by_name_model normalize_name_model
            get_table_id_model dialects_clean_up_model (Output_init "sql" false)
            [create_t] [create_sequence] empty_alter _ _ _).
  - reflexivity.
  - reflexivity.
  - reflexivity.
Defined.

Lemma format_result_shape_witness :
  ∃ items,
    match run "sql" false [create_t; alter "t" (add_unique "email");
                           create_sequence] with
    | Ok result => result
    | Err _ => VNone
    end = VList items
    ∧ length items
      = length (List.filter emitted
                  [create_t; alter "t" (add_unique "email"); create_sequence]).
Proof.
  apply (format_result_shape dialect_by_name_model normalize_name_model
           get_table_id_model dialects_clean_up_model "sql" false
           [create_t; alter "t" (add_unique "email"); create_sequence]).
  vm_compute. reflexivity.
Defined.

Lemma created_table_is_found_witness :
  ∃ cls table_data schema_name table_name data,
    TableData_init (table_id:=tid) dialect_by_name_model
      (dset "output_mode" (VStr "sql") create_t) = Ok (cls, table_data)
    ∧ dget "schema" table_data = Some schema_name
    ∧ dget "table_name" table_data = Some table_name
    ∧ to_dict cls table_data = Ok data
    ∧ get_table_from_tables_data get_table_id_model (state_after [create_t])
        schema_name table_name
      = Ok (0%nat, table_data)
    ∧ final_result (state_after [create_t]) = [] ++ [OTable 0 (keys data)]
    ∧ ∀ o t, store (Output_init (table_id:=tid) "sql" false) !! o = Some t →
             store (state_after [create_t]) !! o = Some t.
Proof.
  apply (created_table_is_found dialect_by_name_model normalize_name_model
           get_table_id_model dialects_clean_up_model (Output_init "sql" false)
           (state_after [create_t]) create_t).
  - reflexivity.
  - reflexivity.
  - vm_compute. reflexivity.
Defined.

Lemma pre_load_mods_twice_witness :
  forallb (λ kv : string * value, is_field (table_id:=tid) BaseData kv.1)
    (pre_load_mods (table_id:=tid) BaseData
       (create_with_comment ++ [("engine", VStr "innodb")])).2 = true.
Proof.
  refine (proj2 (pre_load_mods_twice (table_id:=tid) BaseData
                   (create_with_comment ++ [("engine", VStr "innodb")])) _ _).
  - reflexivity.
  - reflexivity.
Defined.

Definition create_with_engine : dict :=
  create_with_comment ++ [("engine", VStr "innodb")].

Lemma TableData_init_attributes_witness :
  dget "table_properties" (built create_with_engine)
  = Some (VDict (other_keywords (table_id:=tid) BaseData create_with_engine))
  ∧ ∀ k, is_field (table_id:=tid) BaseData k = true →
         k ∉ ["columns"; "primary_key"; "ref_columns"; "table_properties";
              "init_data"] →
         dget k (built create_with_engine)
         = match dget k create_with_engine with
           | Some v => Some v
           | None => field_default (table_id:=tid) BaseData k
           end.
Proof.
  apply (TableData_init_attributes (table_id:=tid) dialect_by_name_model
           create_with_engine (built create_with_engine)).
  vm_compute. reflexivity.
Defined.

Lemma BaseData_output_keys_witness :
  has_key "columns" (output_of create_with_engine) = true
  ∧ has_key "comment" (output_of create_with_engine) = true
  ∧ has_key "like" (output_of create_with_engine) = false
  ∧ has_key "table_properties" (output_of create_with_engine) = true
  ∧ has_key "init_data" (output_of create_with_engine) = false
  ∧ has_key "engine" (output_of create_with_engine) = false.
Proof.
  pose proof (BaseData_output_keys (table_id:=tid) dialect_by_name_model
                create_with_engine (built create_with_engine)
                (output_of create_with_engine)) as Hkeys.
  assert (Hinit : TableData_init (table_id:=tid) dialect_by_name_model
                    create_with_engine
                  = Ok (BaseData, built create_with_engine))
    by (vm_compute; reflexivity).
  assert (Hto : to_dict (table_id:=tid) BaseData (built create_with_engine)
                = Ok (output_of create_with_engine))
    by (vm_compute; reflexivity).
  repeat split; rewrite (Hkeys Hinit Hto); reflexivity.
Defined.

(** A table with one reference descriptor, for the column email. *)
Definition referencing_table : dict :=
  [("ref_columns", VList [VDict [("name", VStr "email"); ("table", VStr "users")]]);
   ("columns", VList [col "id" false false; col "email" false false])].

Lemma normalize_ref_columns_spec_witness :
  normalize_ref_columns_in_final_output (table_id:=tid) referencing_table
  = Ok (dset "ref_columns" (VList [VDict [("table", VStr "users")]])
          (dset "columns"
             (VList (map (with_reference (VStr "email")
                            (VDict [("table", VStr "users")]))
                       [col "id" false false; col "email" false false]))
             referencing_table)).
Proof.
  refine (normalize_ref_columns_spec (table_id:=tid) referencing_table
            [("name", VStr "email"); ("table", VStr "users")] (VStr "email")
            [col "id" false false; col "email" false false] _ _ _ _).
  - reflexivity.
  - reflexivity.
  - reflexivity.
  - exact plain_table_has_names.
Defined.

(** A table whose second column has no "primary_key" flag. *)
Definition unflagged_table : dict :=
  [("primary_key", VNone);
   ("columns", VList [col "id" true false; VDict [("name", VStr "email")]]);
   ("constraints", VDict []);
   ("unique", VList [])].

Lemma populate_keys_needs_flags_witness :
  populate_keys (table_id:=tid) unflagged_table = Err (KeyError "primary_key").
Proof.
  refine (populate_keys_needs_flags (table_id:=tid) unflagged_table VNone
            [col "id" true false; VDict [("name", VStr "email")]] _ _ _ _).
  - reflexivity.
  - reflexivity.
  - repeat constructor; by eexists _, _.
  - apply Exists_cons_tl, Exists_cons_hd. reflexivity.
Defined.

(** The table of C3 with a primary key of its own. *)
Definition declared_table : dict :=
  dset "primary_key" (VList [VStr "email"]) unresolved_table.

Lemma declared_primary_key_is_kept_witness :
  dget "primary_key" (table_after (post_init BaseData declared_table))
  = dget "primary_key" declared_table.
Proof.
  apply (declared_primary_key_is_kept (table_id:=tid) declared_table).
  - reflexivity.
  - vm_compute. reflexivity.
Defined.

Lemma attribute_updates_witness :
  (∀ k, dget k (if_not_exist_update plain_table
                  [("alter", VNone); ("index", VList [])])
        = match dget k plain_table with
          | Some v => Some v
          | None => dget k [("alter", VNone); ("index", VList [])]
          end)
  ∧ (∀ k, dget k (BaseData_update plain_table
                    [("alter", VNone); ("index", VList [])])
          = match dget k [("alter", VNone); ("index", VList [])] with
            | Some v => Some v
            | None => dget k plain_table
            end)
  ∧ (∀ k dflt,
       BaseData_get (if_not_exist_update plain_table
                       [("alter", VNone); ("index", VList [])]) k dflt
       = BaseData_get plain_table k
           (BaseData_get [("alter", VNone); ("index", VList [])] k dflt))
  ∧ if_not_exist_update
      (if_not_exist_update plain_table [("alter", VNone); ("index", VList [])])
      [("alter", VNone); ("index", VList [])]
    = if_not_exist_update plain_table [("alter", VNone); ("index", VList [])].
Proof.
  apply (attribute_updates plain_table [("alter", VNone); ("index", VList [])]).
  simpl. apply NoDup_cons. split; [|apply NoDup_singleton].
  intros Hin. apply list_elem_of_singleton in Hin. discriminate Hin.
Defined.

(** A table with a UNIQUE (email) statement. *)
Definition table_with_unique_statement : dict :=
  [("columns", VList [col "id" false false; col "email" false false]);
   ("unique_statement", VList [VStr "email"]);
   ("constraints", VDict [])].

Lemma set_unique_columns_spec_witness :
  set_unique_columns (table_id:=tid) table_with_unique_statement
  = Ok (dset "columns"
          (VList (map (mark_listed [VStr "email"])
                    [col "id" false false; col "email" false false]))
          table_with_unique_statement).
Proof.
  refine (set_unique_columns_spec (table_id:=tid) table_with_unique_statement
            [VStr "email"] [col "id" false false; col "email" false false]
            _ _ _ _).
  - reflexivity.
  - exact plain_table_has_names.
  - reflexivity.
  - left. reflexivity.
Defined.

(** The state a successful loop ends in, in the mode "mysql". *)
Definition mysql_state_after (parser_output : list dict) : Output (table_id:=tid) :=
  match loop "mysql" false parser_output with
  | Ok self => self
  | Err _ => Output_init "mysql" false
  end.

Lemma unknown_dialect_aborts_witness :
  run "mysql" false ([create_sequence] ++ create_t :: [create_u])
  = Err (AttributeError "__name__").
Proof.
  refine (proj2 (unknown_dialect_aborts dialect_by_name_model normalize_name_model
                   get_table_id_model dialects_clean_up_model
                   (mysql_state_after [create_sequence]) [create_sequence]
                   [create_u] create_t _ _ _ _ _)
            (Output_init "mysql" false) _).
  - reflexivity.
  - reflexivity.
  - reflexivity.
  - reflexivity.
  - reflexivity.
  - vm_compute. reflexivity.
Defined.

(** ** common.py: the functions on table dictionaries *)

(** The methods of the table class that have a counterpart on
    dictionaries in common.py. *)
Notation method_set_unique_columns := set_unique_columns (only parsing).
Notation method_set_column_unique_param := set_column_unique_param (only parsing).
Notation method_add_unique_columns := add_unique_columns (only parsing).
Notation method_remove_pk_from_columns := remove_pk_from_columns (only parsing).
Notation method_get_pk_from_columns_and_constraints :=
  get_pk_from_columns_and_constraints (only parsing).
Notation method_normalize_ref_columns_in_final_output :=
  normalize_ref_columns_in_final_output (only parsing).

Module Common.

Section TableDictionaries.

Context {table_id : Type}.
Notation res := (res table_id).
Set Default Proof Using "Type".

Variable normalize_name : value → res value.

(** *** Exceptions *)

(** [ref_statement["columns"][index]] raises, besides the exceptions
    met so far, [IndexError] on a list or a string that is too short
    and [KeyError(index)] on a dictionary. *)
Inductive exn : Type :=
| Raised (e : error table_id)
| IndexError
| KeyErrorAt (index : nat).

Inductive outcome (A : Type) : Type :=
| Return (a : A)
| Raise (e : exn).
Arguments Return {A} a.
Arguments Raise {A} e.

Definition and_then {A B} (m : outcome A) (f : A → outcome B) : outcome B :=
  match m with Return a => f a | Raise e => Raise e end.

Notation "'let!' x ':=' m 'in' k" := (and_then m (fun x => k))
  (at level 10, x name, m at level 100, k at level 200).

Definition lift {A} (m : res A) : outcome A :=
  match m with Ok a => Return a | Err e => Raise (Raised e) end.

(** [v[index]] for the index of an [enumerate] *)
Definition item_at (v : value) (index : nat) : outcome value :=
  match v with
  | VList l =>
      match l !! index with Some x => Return x | None => Raise IndexError end
  | VStr s =>
      match chars s !! index with Some c => Return c | None => Raise IndexError end
  | VDict _ => Raise (KeyErrorAt index)
  | _ => Raise (Raised TypeError)
  end.

(** *** ALTER ADD COLUMN *)

(** [deepcopy] of a value is the value. *)
Definition create_alter_column_references (index : nat) (column ref_statement : value)
  : outcome value :=
  let! columns := lift (subscript ref_statement "columns") in
  let! column_reference := item_at columns index in
  let! name := lift (subscript column "name") in
  let! constraint_name := lift (get_method column "constraint_name" VNone) in
  let alter_column := [("name", name); ("constraint_name", constraint_name)] in
  let references := ref_statement in
  let! references := lift (set_item references "column" column_reference) in
  let! references := lift (del_item references "columns") in
  Return (VDict (dset "references" references alter_column)).

Definition get_normalized_table_columns_names (target_table : dict)
  : res (list value) :=
  let* columns := dsubscript target_table "columns" in
  let* items := py_iter columns in
  mapM_res (λ column,
      let* name := subscript column "name" in normalize_name name) items.

(** The first loop of [prepare_alter_columns], from index [num] on. *)
Fixpoint alter_columns_from (statement : dict) (num : nat) (columns : list value)
  : outcome (list value) :=
  match columns with
  | [] => Return []
  | column :: rest =>
      let! alter_column :=
        (if truthy (dict_get "references" statement) then
           let! ref_statement := lift (dsubscript statement "references") in
           create_alter_column_references num column ref_statement
         else Return column) in
      let! alter_columns := alter_columns_from statement (S num) rest in
      Return (alter_column :: alter_columns)
  end.

(** The body of the last loop of [prepare_alter_columns]. *)
Definition add_missing_column (table_columns : list value) (target_table : dict)
    (column : value) : res dict :=
  let* name := subscript column "name" in
  let* n := normalize_name name in
  let* known := py_in n (VList table_columns) in
  if negb known then
    let* columns := dsubscript target_table "columns" in
    let* columns := py_append columns column in
    Ok (dset "columns" columns target_table)
  else Ok target_table.

Definition prepare_alter_columns (target_table statement : dict) : outcome dict :=
  let! columns := lift (dsubscript statement "columns") in
  let! items := lift (py_iter columns) in
  let! alter_columns := alter_columns_from statement 0 items in
  let! alter := lift (dsubscript target_table "alter") in
  let! current := lift (get_method alter "columns" VNone) in
  let! alter :=
    (if negb (truthy current) then
       lift (set_item alter "columns" (VList alter_columns))
     else
       let! slot := lift (subscript alter "columns") in
       let! slot := lift (py_extend slot (VList alter_columns)) in
       lift (set_item alter "columns" slot)) in
  let target_table := dset "alter" alter target_table in
  let! table_columns := lift (get_normalized_table_columns_names target_table) in
  let! ledger := lift (subscript alter "columns") in
  let! ledger := lift (py_iter ledger) in
  lift (foldM_res (add_missing_column table_columns) target_table ledger).

(** *** Table dictionaries *)

Definition init_table_data : dict :=
  [("columns", VList []);
   ("primary_key", VNone);
   ("alter", VDict []);
   ("checks", VList []);
   ("index", VList []);
   ("partitioned_by", VList []);
   ("tablespace", VNone)].

(** One pass of the inner loop of [normalize_ref_columns_in_final_output]
    is the function [attach_ref] of the table class. *)
Definition normalize_ref_columns_in_final_output (table_data : dict) : res dict :=
  let table_data :=
    if has_key "references" table_data then ddel "references" table_data
    else table_data in
  if has_key "ref_columns" table_data then
    let* ref_columns := dsubscript table_data "ref_columns" in
    let* refs := py_iter ref_columns in
    let* r :=
      foldM_res (λ acc col_ref,
          let* name := subscript col_ref "name" in
          let* columns := dsubscript acc.2 "columns" in
          let* r :=
            match columns with
            | VList l =>
                let* r := attach_ref name col_ref l in Ok (r.1, VList r.2)
            | _ =>
                let* items := py_iter columns in
                let* r := attach_ref name col_ref items in Ok (r.1, columns)
            end in
          Ok (acc.1 ++ [r.1], dset "columns" r.2 acc.2))
        ([], table_data) refs in
    ddel_item r.2 "ref_columns"
  else Ok table_data.

Definition set_column_unique_param (table_data : dict) (key : string) : res dict :=
  let* columns := dsubscript table_data "columns" in
  let* columns' := for_each (λ column,
      let* check_in :=
        (if String.eqb key "constraints" then
           let* constraints := dsubscript table_data key in
           let* unique := get_method constraints "unique" (VList []) in
           if truthy unique then subscript unique "columns" else Ok (VList [])
         else dsubscript table_data key) in
      let* name := subscript column "name" in
      let* b := py_in name check_in in
      if b then set_item column "unique" (VBool true) else Ok column) columns in
  Ok (dset "columns" columns' table_data).

Definition set_unique_columns (table_data : dict) : res dict :=
  let* table_data :=
    foldM_res (λ table_data key,
        if truthy (dict_get key table_data)
        then set_column_unique_param table_data key
        else Ok table_data)
      table_data ["unique_statement"; "constraints"] in
  Ok (if has_key "unique_statement" table_data
      then ddel "unique_statement" table_data
      else table_data).

Definition add_unique_columns (table_data : dict) : res dict :=
  let* columns := dsubscript table_data "columns" in
  let* columns' := for_each (λ column,
      let* name := subscript column "name" in
      let* unique := dsubscript table_data "unique" in
      let* b := py_in name unique in
      if b then set_item column "unique" (VBool true) else Ok column) columns in
  ddel_item (dset "columns" columns' table_data) "unique".

Definition remove_pk_from_columns (table_data : dict) : res dict :=
  let* columns := dsubscript table_data "columns" in
  let* columns' := for_each (λ column, del_item column "primary_key") columns in
  Ok (dset "columns" columns' table_data).

(** The first loop is the one of the table class, [pk_scan]. *)
Definition check_pk_in_columns_and_constraints (table_data : dict) : res dict :=
  let* columns := dsubscript table_data "columns" in
  let* scanned :=
    match columns with
    | VList l => let* r := pk_scan l in Ok (r.1, VList r.2)
    | _ => let* items := py_iter columns in let* _ := pk_scan items in Ok ([], columns)
    end in
  let pk := scanned.1 in
  let table_data := dset "columns" scanned.2 table_data in
  let* primary_keys :=
    (if truthy (dict_get "constraints" table_data) then
       let* constraints := dsubscript table_data "constraints" in
       get_method constraints "primary_keys" VNone
     else Ok (dict_get "constraints" table_data)) in
  let* pk :=
    (if truthy primary_keys then
       let* constraints := dsubscript table_data "constraints" in
       let* primary_keys := subscript constraints "primary_keys" in
       let* key_constraints := py_iter primary_keys in
       foldM_res (λ pk kc,
           let* cols := subscript kc "columns" in
           let* items := py_iter cols in
           Ok (pk ++ items)) pk key_constraints
     else Ok pk) in
  Ok (dset "primary_key" (VList pk) table_data).


(** *** ALTER ADD COLUMN: properties *)

(** The entry of the ledger for a column added with a REFERENCES
    clause: the name and the constraint name of the column, and the
    clause with the referenced column in place of the list. *)
Definition alter_column_for (ref_statement : dict) (column column_reference : value)
  : value :=
  match column with
  | VDict d =>
      VDict [("name", dict_get "name" d);
             ("constraint_name", dict_get "constraint_name" d);
             ("references",
              VDict (ddel "columns" (dset "column" column_reference ref_statement)))]
  | _ => VNone
  end.

Lemma create_alter_column_references_at (index : nat) (column : value)
    (ref_statement : dict) (referenced : list value) :
  has_name column →
  dget "columns" ref_statement = Some (VList referenced) →
  create_alter_column_references index column (VDict ref_statement)
  = match referenced !! index with
    | Some column_reference =>
        Return (alter_column_for ref_statement column column_reference)
    | None => Raise IndexError
    end.
Proof.
  intros (d & name & -> & Hname) Hcols. unfold create_alter_column_references.
  cbn [subscript lift and_then]. rewrite Hcols. cbn [lift and_then item_at].
  destruct (referenced !! index) as [column_reference|]; [|done].
  cbn [and_then]. rewrite Hname. cbn [lift and_then get_method set_item del_item].
  unfold has_key. rewrite dget_dset_ne, Hcols by done. cbn [lift and_then].
  unfold alter_column_for, dict_get. rewrite Hname. simpl. done.
Qed.

Lemma alter_columns_from_references (statement ref_statement : dict)
    (referenced : list value) (columns : list value) :
  dget "references" statement = Some (VDict ref_statement) →
  dget "columns" ref_statement = Some (VList referenced) →
  Forall has_name columns →
  ∀ num, (num ≤ length referenced)%nat →
    alter_columns_from statement num columns
    = if decide (num + length columns ≤ length referenced)%nat
      then Return (zip_with (alter_column_for ref_statement) columns
                     (drop num referenced))
      else Raise IndexError.
Proof.
  intros Href Hcols Hall.
  assert (Htruthy : truthy (dict_get "references" statement) = true).
  { unfold dict_get. rewrite Href. simpl.
    destruct ref_statement; [discriminate Hcols|done]. }
  induction Hall as [|column columns Hname _ IH]; intros num Hnum0.
  - cbn [alter_columns_from length]. destruct (decide _); [done|lia].
  - cbn [alter_columns_from]. rewrite Htruthy. unfold dsubscript. rewrite Href.
    cbn [lift and_then].
    rewrite (create_alter_column_references_at _ _ _ _ Hname Hcols).
    destruct (referenced !! num) as [column_reference|] eqn:Hnum.
    + cbn [and_then]. apply lookup_lt_Some in Hnum as Hlt.
      rewrite IH by lia. cbn [length].
      rewrite (drop_S _ _ _ Hnum). cbn [zip_with].
      destruct (decide (S num + length columns ≤ length referenced)%nat);
        destruct (decide (num + S (length columns) ≤ length referenced)%nat);
        try lia; done.
    + apply lookup_ge_None in Hnum. cbn [and_then length].
      destruct (decide _); [lia|done].
Qed.

Lemma alter_columns_from_plain (statement : dict) (columns : list value) :
  truthy (dict_get "references" statement) = false →
  ∀ num, alter_columns_from statement num columns = Return columns.
Proof.
  intros Href. induction columns as [|column columns IH]; intros num; [done|].
  cbn [alter_columns_from]. rewrite Href. cbn [and_then]. by rewrite IH.
Qed.

(** X24: ALTER ADD COLUMN with a REFERENCES clause pairs the columns
    of the statement with the referenced columns by position: the
    entry made for column number [i] has its name, its constraint name
    and the clause with referenced column number [i] under "column"
    in place of the list "columns".  When the statement has more
    columns than the clause has referenced columns, the call raises
    [IndexError], and the table is not touched. *)
Theorem prepare_alter_columns_references (target_table statement ref_statement : dict)
    (columns referenced : list value) :
  dget "columns" statement = Some (VList columns) →
  dget "references" statement = Some (VDict ref_statement) →
  dget "columns" ref_statement = Some (VList referenced) →
  Forall has_name columns →
  alter_columns_from statement 0 columns
  = (if decide (length columns ≤ length referenced)%nat
     then Return (zip_with (alter_column_for ref_statement) columns referenced)
     else Raise IndexError)
  ∧ ((length referenced < length columns)%nat →
     prepare_alter_columns target_table statement = Raise IndexError).
Proof.
  intros Hcols Href Hrefcols Hall.
  pose proof (alter_columns_from_references _ _ _ _ Href Hrefcols Hall 0%nat
                (Nat.le_0_l _)) as Hfrom.
  rewrite drop_0 in Hfrom. cbn [Nat.add] in Hfrom. split; [exact Hfrom|].
  intros Hlt. unfold prepare_alter_columns, dsubscript. rewrite Hcols.
  cbn [lift and_then py_iter]. rewrite Hfrom.
  destruct (decide _); [lia|done].
Qed.

(** The column is not among the table columns, by normalized name. *)
Definition not_in_table (table_columns : list value) (column : value) : bool :=
  match column with
  | VDict d =>
      match dget "name" d with
      | Some name =>
          match normalize_name name with
          | Ok n => negb (existsb (λ e, py_eq e n) table_columns)
          | Err _ => false
          end
      | None => false
      end
  | _ => false
  end.

Lemma add_missing_columns (table_columns ledger : list value) :
  ∀ (target_table target_table' : dict) (current : list value),
  dget "columns" target_table = Some (VList current) →
  foldM_res (add_missing_column table_columns) target_table ledger
  = Ok target_table' →
  target_table'
  = dset "columns"
      (VList (current ++ List.filter (not_in_table table_columns) ledger))
      target_table.
Proof.
  induction ledger as [|column ledger IH]; intros t t' current Hcur Hfold.
  - injection Hfold as <-. simpl. by rewrite app_nil_r, dset_same.
  - cbn [foldM_res] in Hfold.
    destruct (add_missing_column table_columns t column) as [t1|] eqn:Hadd;
      cbn [bind] in Hfold; [|done].
    unfold add_missing_column in Hadd.
    destruct column as [| | | | |d]; try done.
    cbn [subscript] in Hadd.
    destruct (dget "name" d) as [name|] eqn:Hname; cbn [bind] in Hadd; [|done].
    destruct (normalize_name name) as [n|] eqn:Hn; cbn [bind py_in] in Hadd; [|done].
    cbn [List.filter not_in_table]. rewrite Hname, Hn.
    destruct (existsb (λ e, py_eq e n) table_columns); cbn [negb] in Hadd |- *.
    + injection Hadd as <-. by eapply IH.
    + unfold dsubscript in Hadd. rewrite Hcur in Hadd.
      cbn [bind py_append] in Hadd. injection Hadd as <-.
      rewrite (IH _ _ (current ++ [VDict d]) (dget_dset_eq _ _ _) Hfold).
      by rewrite dset_dset, <-app_assoc.
Qed.

(** X25: ALTER ADD COLUMN without a REFERENCES clause appends the
    columns of the statement to the list "columns" of the ledger, and
    then appends to the columns of the table, in ledger order, every
    column of the whole ledger whose normalized name is not the
    normalized name of a column the table had before the call: the
    columns of the table are compared once, before the first append,
    and the columns added by earlier statements are tried again. *)
Theorem prepare_alter_columns_spec (target_table target_table' statement a : dict)
    (columns added : list value) :
  dget "columns" statement = Some (VList added) →
  truthy (dict_get "references" statement) = false →
  dget "alter" target_table = Some (VDict a) →
  dget "columns" target_table = Some (VList columns) →
  prepare_alter_columns target_table statement = Return target_table' →
  ∃ table_columns,
    get_normalized_table_columns_names target_table = Ok table_columns
    ∧ target_table'
      = dset "columns"
          (VList (columns
                  ++ List.filter (not_in_table table_columns)
                       (ledger_entries "columns" a ++ added)))
          (dset "alter"
             (VDict (dset "columns"
                       (VList (ledger_entries "columns" a ++ added)) a))
             target_table).
Proof.
  intros Hadded Href Halter Hcolumns Hp.
  unfold prepare_alter_columns, dsubscript in Hp.
  rewrite Hadded in Hp. cbn [lift and_then py_iter] in Hp.
  rewrite alter_columns_from_plain in Hp by done. cbn [and_then] in Hp.
  rewrite Halter in Hp. cbn [lift and_then get_method] in Hp.
  assert (Hledger : ∃ alter1,
    (if negb (truthy (match dget "columns" a with Some x => x | None => VNone end))
     then lift (set_item (K:=table_id) (VDict a) "columns" (VList added))
     else
       let! slot := lift (subscript (K:=table_id) (VDict a) "columns") in
       let! slot := lift (py_extend slot (VList added)) in
       lift (set_item (K:=table_id) (VDict a) "columns" slot))
    = alter1
    ∧ (∀ r, alter1 = Return r →
            r = VDict (dset "columns"
                         (VList (ledger_entries "columns" a ++ added)) a))).
  { eexists; split; [done|]. intros r. unfold ledger_entries, dict_get.
    destruct (dget "columns" a) as [x|] eqn:Hx; cbn [negb truthy].
    - destruct (truthy x) eqn:Htx; cbn [negb].
      + cbn [subscript lift and_then]. rewrite Hx. cbn [lift and_then].
        destruct x as [| | | |l|]; cbn; try done. by intros [= <-].
      + cbn. intros [= <-].
        by destruct x as [| | | |[|]|].
    - cbn. by intros [= <-]. }
  destruct Hledger as (alter1 & Heq & Hal). rewrite Heq in Hp.
  destruct alter1 as [alter'|]; cbn [and_then] in Hp; [|done].
  rewrite (Hal _ eq_refl) in Hp. clear Heq Hal.
  assert (Hnames : get_normalized_table_columns_names
                     (dset "alter"
                        (VDict (dset "columns"
                                  (VList (ledger_entries "columns" a ++ added)) a))
                        target_table)
                   = get_normalized_table_columns_names target_table).
  { unfold get_normalized_table_columns_names, dsubscript.
    by rewrite dget_dset_ne. }
  rewrite Hnames in Hp.
  destruct (get_normalized_table_columns_names target_table) as [table_columns|];
    cbn [lift and_then] in Hp; [|done].
  exists table_columns. split; [done|].
  cbn [subscript] in Hp. rewrite dget_dset_eq in Hp.
  cbn [lift and_then py_iter] in Hp.
  destruct (foldM_res _ _ _) as [t1|] eqn:Hfold; cbn [lift] in Hp; [|done].
  injection Hp as <-.
  apply (add_missing_columns _ _ _ _ columns) in Hfold; [done|].
  by rewrite dget_dset_ne.
Qed.

(** *** The two implementations *)

Lemma ddel_dset {A} (k : string) (v : A) (d : list (string * A)) :
  ddel k (dset k v d) = ddel k d.
Proof.
  induction d as [|[k0 v0] d IH]; simpl.
  - by rewrite String.eqb_refl.
  - destruct (String.eqb k k0) eqn:E; simpl; rewrite E; [done|]. by rewrite IH.
Qed.

Lemma ddel_missing {A} (k : string) (d : list (string * A)) :
  has_key k d = false → ddel k d = d.
Proof.
  unfold has_key. induction d as [|[k0 v0] d IH]; simpl; [done|].
  destruct (String.eqb k k0); [done|]. intros Hd. by rewrite IH.
Qed.

Lemma ddel_if_present {A} (k : string) (d : list (string * A)) :
  (if has_key k d then ddel k d else d) = ddel k d.
Proof. destruct (has_key k d) eqn:Hk; [done|]. by rewrite ddel_missing. Qed.

Lemma has_key_getattr (self : dict) (k : string) :
  has_key k self = true →
  getattr (table_id:=table_id) self k = dsubscript self k.
Proof.
  unfold has_key, getattr, dsubscript. by destruct (dget k self).
Qed.

Lemma foldM_res_ext_inv {A S} (f g : S → A → res S) (P : S → Prop) (l : list A) :
  (∀ s x, P s → f s x = g s x) →
  (∀ s x s', P s → g s x = Ok s' → P s') →
  ∀ s, P s → foldM_res f s l = foldM_res g s l.
Proof.
  intros Hfg Hinv. induction l as [|x l IH]; intros s Hs; simpl; [done|].
  rewrite (Hfg _ _ Hs). destruct (g s x) as [s'|] eqn:Hg; simpl; [|done].
  apply IH. by eapply Hinv.
Qed.

(** X26: on a table dictionary that has its "columns", and whose
    "constraints" is a dictionary, the dictionary functions
    [check_pk_in_columns_and_constraints] and [remove_pk_from_columns]
    of common.py return what the methods
    [get_pk_from_columns_and_constraints] and [remove_pk_from_columns]
    of the table class leave, errors included. *)
Theorem primary_key_functions_agree (table_data constraints : dict) :
  has_key "columns" table_data = true →
  dget "constraints" table_data = Some (VDict constraints) →
  check_pk_in_columns_and_constraints table_data
  = method_get_pk_from_columns_and_constraints table_data
  ∧ remove_pk_from_columns table_data
    = method_remove_pk_from_columns table_data.
Proof.
  intros Hcols Hcons. split.
  - unfold check_pk_in_columns_and_constraints,
      get_pk_from_columns_and_constraints.
    rewrite has_key_getattr by done.
    destruct (dsubscript table_data "columns") as [columns|]; cbn [bind]; [|done].
    destruct (match columns with
              | VList l => _
              | _ => _
              end) as [scanned|]; cbn [bind]; [|done].
    unfold getattr, dsubscript, dict_get.
    rewrite dget_dset_ne, Hcons by done. cbn [bind get_method].
    destruct constraints as [|kv constraints']; [done|].
    set (constraints := kv :: constraints') in *.
    cbn [truthy]. subst constraints. cbn [bind get_method].
    destruct (dget "primary_keys" (kv :: constraints')) as [primary_keys|] eqn:Hpk;
      [|done].
    cbn [bind]. destruct (truthy primary_keys); [|done].
    cbn [bind subscript]. by rewrite Hpk.
  - unfold remove_pk_from_columns, method_remove_pk_from_columns.
    by rewrite has_key_getattr.
Qed.

Lemma set_column_unique_param_agrees (table_data : dict) (key : string) (v : value) :
  has_key "columns" table_data = true →
  dget key table_data = Some v →
  set_column_unique_param table_data key
  = method_set_column_unique_param table_data key.
Proof.
  intros Hcols Hkey.
  unfold set_column_unique_param, method_set_column_unique_param.
  rewrite has_key_getattr by done.
  unfold dsubscript at 2 3. unfold getattr_default. rewrite Hkey. cbn [bind].
  done.
Qed.

(** X27: on a table dictionary that has its "columns", the dictionary
    functions [set_unique_columns] and [add_unique_columns] of
    common.py mark the columns as the methods of the table class do,
    errors included, and then remove the parser-only entry
    ("unique_statement", "unique") that the methods keep. *)
Theorem unique_functions_agree (table_data : dict) :
  has_key "columns" table_data = true →
  set_unique_columns table_data
  = (let* r := method_set_unique_columns table_data in
     Ok (ddel "unique_statement" r))
  ∧ (has_key "unique" table_data = true →
     add_unique_columns table_data
     = (let* r := method_add_unique_columns table_data in
        Ok (ddel "unique" r))).
Proof.
  intros Hcols. split.
  - unfold set_unique_columns, method_set_unique_columns.
    rewrite (foldM_res_ext_inv _
               (λ self key,
                  if truthy (getattr_default self key VNone)
                  then method_set_column_unique_param self key
                  else Ok self)
               (λ s, has_key "columns" s = true)); [| | |done].
    + destruct (foldM_res _ _ _); cbn [bind]; [|done].
      by rewrite ddel_if_present.
    + intros s key Hs. unfold dict_get, getattr_default.
      destruct (dget key s) as [v|] eqn:Hv; [|done].
      destruct (truthy v); [|done].
      by eapply set_column_unique_param_agrees.
    + intros s key s' Hs Hstep.
      destruct (truthy (getattr_default s key VNone)); [|by injection Hstep as <-].
      apply set_column_unique_param_frame in Hstep as [_ Hkept]. by apply Hkept.
  - intros Hunique. unfold add_unique_columns, method_add_unique_columns.
    rewrite !has_key_getattr by done. unfold dsubscript.
    unfold has_key in Hunique.
    destruct (dget "unique" table_data) as [unique|] eqn:Hu; [|done].
    destruct (dget "columns" table_data) as [columns|]; cbn [bind]; [|done].
    destruct (for_each _ columns) as [columns'|]; cbn [bind]; [|done].
    unfold ddel_item, has_key. by rewrite dget_dset_ne, Hu by done.
Qed.

(** X28: on a table dictionary that has its "columns" and its
    "ref_columns", [normalize_ref_columns_in_final_output] of common.py
    attaches the reference descriptors to the columns as the method of
    the table class does on the dictionary without its "references",
    errors included, and then removes "ref_columns"; neither
    "references" nor "ref_columns" is left. *)
Theorem reference_functions_agree (table_data : dict) :
  has_key "columns" table_data = true →
  has_key "ref_columns" table_data = true →
  normalize_ref_columns_in_final_output table_data
  = (let* r := method_normalize_ref_columns_in_final_output
                 (ddel "references" table_data) in
     Ok (ddel "ref_columns" r))
  ∧ ∀ r, normalize_ref_columns_in_final_output table_data = Ok r →
         has_key "references" r = false ∧ has_key "ref_columns" r = false.
Proof.
  intros Hcols Hrefs.
  assert (Hagree : normalize_ref_columns_in_final_output table_data
                   = (let* r := method_normalize_ref_columns_in_final_output
                                  (ddel "references" table_data) in
                      Ok (ddel "ref_columns" r))
                   ∧ ∀ r, method_normalize_ref_columns_in_final_output
                            (ddel "references" table_data) = Ok (K:=table_id) r →
                          has_key "references" r = false).
  { unfold normalize_ref_columns_in_final_output. rewrite ddel_if_present.
    set (td := ddel "references" table_data).
    assert (Hcols0 : has_key "columns" td = true)
      by (unfold td; by rewrite has_key_ddel_ne).
    assert (Hrefs0 : has_key "ref_columns" td = true)
      by (unfold td; by rewrite has_key_ddel_ne).
    assert (Hnone : has_key "references" td = false)
      by (unfold td, has_key; by rewrite dget_ddel_eq).
    rewrite Hrefs0. unfold method_normalize_ref_columns_in_final_output.
    rewrite has_key_getattr by done.
    destruct (dsubscript td "ref_columns") as [ref_columns|]; cbn [bind];
      [|by split].
    destruct (py_iter ref_columns) as [refs|]; cbn [bind]; [|by split].
    set (g := λ (acc : list value * dict) (col_ref : value),
           let* name := subscript (K:=table_id) col_ref "name" in
           let* columns := getattr acc.2 "columns" in
           let* r :=
             match columns with
             | VList l =>
                 let* r := attach_ref name col_ref l in Ok (r.1, VList r.2)
             | _ =>
                 let* items := py_iter columns in
                 let* r := attach_ref name col_ref items in Ok (r.1, columns)
             end in
           Ok (acc.1 ++ [r.1], dset "columns" r.2 acc.2)).
    set (P := λ acc : list value * dict,
           has_key "columns" acc.2 = true ∧ has_key "ref_columns" acc.2 = true
           ∧ has_key "references" acc.2 = false).
    assert (Hstep : ∀ acc x acc', P acc → g acc x = Ok acc' → P acc').
    { intros acc x acc' (H1 & H2 & H3) Hg. unfold g in Hg.
      destruct (subscript x "name"); cbn [bind] in Hg; [|done].
      destruct (getattr acc.2 "columns"); cbn [bind] in Hg; [|done].
      destruct (match a0 with VList l => _ | _ => _ end); cbn [bind] in Hg; [|done].
      injection Hg as <-. unfold P. cbn [snd].
      rewrite has_key_dset by done. by rewrite !has_key_dset_ne. }
    rewrite (foldM_res_ext_inv _ g P); [| |exact Hstep|done].
    - destruct (foldM_res g ([], td) refs) as [r|] eqn:Hfold; cbn [bind];
        [|by split].
      assert (Hr : P r).
      { revert Hfold. apply (foldM_res_inv g P); [exact Hstep|done]. }
      destruct Hr as (_ & Hr2 & Hr3). unfold ddel_item. rewrite Hr2. split.
      + destruct ref_columns; by rewrite ?ddel_dset.
      + intros r0 [= <-]. destruct ref_columns; try done.
        by rewrite has_key_dset_ne.
    - intros acc x (H1 & _ & _). unfold g. by rewrite has_key_getattr. }
  destruct Hagree as [Heq Hno]. split; [exact Heq|].
  intros r Hr. rewrite Heq in Hr.
  destruct (method_normalize_ref_columns_in_final_output
              (ddel "references" table_data)) as [r0|] eqn:Hm; cbn [bind] in Hr;
    [|done].
  injection Hr as <-. split.
  - rewrite has_key_ddel_ne by done. by apply Hno.
  - unfold has_key. by rewrite dget_ddel_eq.
Qed.

End TableDictionaries.

Arguments Raised {table_id} e.
Arguments IndexError {table_id}.
Arguments KeyErrorAt {table_id} index.
Arguments Return {table_id A} a.
Arguments Raise {table_id A} e.

End Common.

(** ** common.py on concrete inputs *)

(** ALTER TABLE s.t ADD (owner int, team int) REFERENCES users (id):
    two columns, one referenced column. *)
Definition add_columns_references : dict :=
  [("columns", VList [VDict [("name", VStr "owner"); ("type", VStr "int")];
                      VDict [("name", VStr "team"); ("type", VStr "int")]]);
   ("references", VDict [("table", VStr "users");
                         ("columns", VList [VStr "id"])])].

Lemma prepare_alter_columns_references_witness :
  Common.prepare_alter_columns (table_id:=tid) normalize_name_model plain_table
    add_columns_references
  = Common.Raise Common.IndexError.
Proof.
  refine (proj2 (Common.prepare_alter_columns_references (table_id:=tid)
                   normalize_name_model plain_table add_columns_references
                   [("table", VStr "users"); ("columns", VList [VStr "id"])]
                   [VDict [("name", VStr "owner"); ("type", VStr "int")];
                    VDict [("name", VStr "team"); ("type", VStr "int")]]
                   [VStr "id"] _ _ _ _) _).
  - reflexivity.
  - reflexivity.
  - reflexivity.
  - repeat constructor; by eexists _, _.
  - simpl. lia.
Defined.

(** ALTER TABLE s.t ADD (EMAIL int, age int): the first column is in
    the table under another spelling. *)
Definition add_two_columns : dict :=
  [("columns", VList [VDict [("name", VStr "EMAIL"); ("type", VStr "int")];
                      VDict [("name", VStr "age"); ("type", VStr "int")]])].

Definition table_returned (r : Common.outcome (table_id:=tid) dict) : dict :=
  match r with Common.Return t => t | Common.Raise _ => [] end.

Lemma prepare_alter_columns_spec_witness :
  ∃ table_columns,
    Common.get_normalized_table_columns_names (table_id:=tid) normalize_name_model
      plain_table = Ok table_columns
    ∧ table_returned (Common.prepare_alter_columns (table_id:=tid)
                        normalize_name_model plain_table add_two_columns)
      = dset "columns"
          (VList ([col "id" false false; col "email" false false]
                  ++ List.filter
                       (Common.not_in_table (table_id:=tid) normalize_name_model
                          table_columns)
                       (ledger_entries "columns" []
                        ++ [VDict [("name", VStr "EMAIL"); ("type", VStr "int")];
                            VDict [("name", VStr "age"); ("type", VStr "int")]])))
          (dset "alter"
             (VDict (dset "columns"
                       (VList (ledger_entries "columns" []
                               ++ [VDict [("name", VStr "EMAIL");
                                          ("type", VStr "int")];
                                   VDict [("name", VStr "age");
                                          ("type", VStr "int")]])) []))
             plain_table).
Proof.
  apply (Common.prepare_alter_columns_spec (table_id:=tid) normalize_name_model
           plain_table _ add_two_columns []
           [col "id" false false; col "email" false false]).
  - reflexivity.
  - reflexivity.
  - reflexivity.
  - reflexivity.
  - vm_compute. reflexivity.
Defined.

Lemma primary_key_functions_agree_witness :
  Common.check_pk_in_columns_and_constraints (table_id:=tid) unresolved_table
  = get_pk_from_columns_and_constraints unresolved_table
  ∧ Common.remove_pk_from_columns (table_id:=tid) unresolved_table
    = remove_pk_from_columns unresolved_table.
Proof.
  refine (Common.primary_key_functions_agree (table_id:=tid) unresolved_table
            [("primary_keys", VList [VDict [("columns", VList [VStr "email"])]])]
            _ _).
  - reflexivity.
  - reflexivity.
Defined.

Lemma unique_functions_agree_witness :
  Common.set_unique_columns (table_id:=tid) unresolved_table
  = (let* r := set_unique_columns unresolved_table in
     Ok (ddel "unique_statement" r))
  ∧ Common.add_unique_columns (table_id:=tid) unresolved_table
    = (let* r := add_unique_columns unresolved_table in Ok (ddel "unique" r)).
Proof.
  destruct (Common.unique_functions_agree (table_id:=tid) unresolved_table eq_refl)
    as [Hset Hadd].
  split; [exact Hset|]. apply Hadd. reflexivity.
Defined.

Definition referencing_table_from_parser : dict :=
  ("references", VList []) :: referencing_table.

Lemma reference_functions_agree_witness :
  Common.normalize_ref_columns_in_final_output (table_id:=tid)
    referencing_table_from_parser
  = (let* r := normalize_ref_columns_in_final_output
                 (ddel "references" referencing_table_from_parser) in
     Ok (ddel "ref_columns" r))
  ∧ has_key "references"
      (table_after (Common.normalize_ref_columns_in_final_output (table_id:=tid)
                      referencing_table_from_parser)) = false
  ∧ has_key "ref_columns"
      (table_after (Common.normalize_ref_columns_in_final_output (table_id:=tid)
                      referencing_table_from_parser)) = false.
Proof.
  destruct (Common.reference_functions_agree (table_id:=tid)
              referencing_table_from_parser eq_refl eq_refl) as [Heq Hkeys].
  split; [exact Heq|]. apply Hkeys. vm_compute. reflexivity.
Defined.
